(** * svelte-preprocess: the auto-preprocessing dispatcher

    A shallow embedding of [autoPreprocess] (the second module of
    [src/transformers/scss.ts], i.e. the package's [src/index.ts]) and of
    the functions it closes over: [runTransformer], [getTransformerOptions],
    [getTransformerTo], [markup], [script] and [style].

    Conventions.
    - A JavaScript string is a Rocq [string]; one [ascii] stands for one
      code unit.  Slicing and pattern matching work on the list of code
      units ([chars]).
    - [None] stands for a field that is missing or [undefined].  Where
      the program tells the two apart (the entries of [defaults], which
      are spread), a missing property is [None] and a property present
      with the value [undefined] is [Some None].
    - Objects used as option bags are finite maps from property names to
      values; property lookups are own-property lookups.  The keys at
      which the program would read a member of [Object.prototype]
      instead are those of [objectPrototypeNames]: they are not meant as
      language names.
    - The container tag name is spliced into the source of a pattern; the
      embedding reads it as literal text, which is what the pattern means
      for a name free of pattern syntax ([plainTagName]).
    - Asynchronous functions become computations in the monad [M]: they
      thread the state of the outside world, may throw, and log the calls
      they make.  Awaiting is sequencing.  A collaborator that never
      settles is not modelled: host functions are total. *)

From Stdlib Require Import Ascii String List ZArith Lia.
From stdpp Require Import base option list strings gmap.

Set Default Proof Using "Type".
Local Open Scope nat_scope.

(** ** Strings as sequences of code units *)

Definition chars : string → list ascii := list_ascii_of_string.
Definition str : list ascii → string := string_of_list_ascii.

(** [s.slice(from, to)] and [s.slice(from)] for non-negative indices. *)
Definition slice (s : string) (from to : nat) : string :=
  str (take (to - from) (drop from (chars s))).
Definition sliceFrom (s : string) (from : nat) : string :=
  str (drop from (chars s)).

(** [s.toLocaleLowerCase()] on the code units below 256, in a locale
    without special casing rules: [A-Z] and the capital letters of the
    Latin-1 supplement move up by 32. *)
Definition lowerCaseUnit (c : ascii) : ascii :=
  let n := nat_of_ascii c in
  if (65 <=? n) && (n <=? 90) then ascii_of_nat (n + 32)
  else if (192 <=? n) && (n <=? 222) && negb (n =? 215) then ascii_of_nat (n + 32)
  else c.
Definition toLocaleLowerCase (s : string) : string :=
  str (lowerCaseUnit <$> chars s).

(** The class [\s] on the code units below 256. *)
Definition isWhiteSpace (c : ascii) : bool :=
  let n := nat_of_ascii c in
  (9 <=? n) && (n <=? 13) || (n =? 32) || (n =? 160).

(** [s.split(sep)] for a separator that is one code unit of the class [p]:
    the pieces between the separators, empty pieces included. *)
Fixpoint splitOn (p : ascii → bool) (s : list ascii) : list (list ascii) :=
  match s with
  | [] => [[]]
  | c :: s' =>
      if p c then [] :: splitOn p s'
      else match splitOn p s' with
           | [] => [[c]]
           | piece :: pieces => (c :: piece) :: pieces
           end
  end.

(** ** Regular expressions

    The fragment of the pattern language that [markupPattern] is written
    in, with the backtracking semantics of [String.prototype.match] for a
    pattern without flags: the leftmost start wins, then the first
    alternative, a lazy star tries the shortest repetition first and a
    greedy star the longest. *)
Module RegExp.

Inductive t :=
| Lit (cs : list ascii)      (* literal characters *)
| AnyStar (lazy : bool)      (* any code units: lazy star or greedy star *)
| Seq (r1 r2 : t)
| Alt (r1 r2 : t)            (* r1|r2 *)
| Group (i : nat) (r : t).   (* the i-th capturing group *)

(** Captures: the span [(from, to)] of each group that took part. *)
Abbreviation Captures := (gmap nat (nat * nat)).

(** A continuation receives the rest of the input, the position reached
    and the captures so far. *)
Definition Cont (X : Type) : Type := list ascii → nat → Captures → option X.

Fixpoint isPrefix (cs s : list ascii) : bool :=
  match cs, s with
  | [], _ => true
  | c :: cs', d :: s' => if decide (c = d) then isPrefix cs' s' else false
  | _ :: _, [] => false
  end.

Fixpoint lazyStar {X} (k : list ascii → nat → option X)
    (s : list ascii) (pos : nat) : option X :=
  match k s pos with
  | Some x => Some x
  | None =>
      match s with
      | [] => None
      | _ :: s' => lazyStar k s' (S pos)
      end
  end.

Fixpoint greedyStar {X} (k : list ascii → nat → option X)
    (s : list ascii) (pos : nat) : option X :=
  match s with
  | [] => k [] pos
  | _ :: s' =>
      match greedyStar k s' (S pos) with
      | Some x => Some x
      | None => k s pos
      end
  end.

Fixpoint run {X} (r : t) (s : list ascii) (pos : nat) (caps : Captures)
    (k : Cont X) : option X :=
  match r with
  | Lit cs =>
      if isPrefix cs s then k (drop (length cs) s) (pos + length cs) caps
      else None
  | AnyStar true => lazyStar (fun s' pos' => k s' pos' caps) s pos
  | AnyStar false => greedyStar (fun s' pos' => k s' pos' caps) s pos
  | Seq r1 r2 =>
      run r1 s pos caps (fun s' pos' caps' => run r2 s' pos' caps' k)
  | Alt r1 r2 =>
      match run r1 s pos caps k with
      | Some x => Some x
      | None => run r2 s pos caps k
      end
  | Group i r1 =>
      run r1 s pos caps (fun s' pos' caps' => k s' pos' (<[i := (pos, pos')]> caps'))
  end.

(** The result of a successful match: [index], the position after the
    match, and the captures. *)
Record Match := mkMatch {
  index : nat;
  stop : nat;
  groups : Captures
}.

(** The continuation of the whole pattern: the match is complete. *)
Definition finish (start : nat) : Cont Match :=
  fun _ e caps => Some (mkMatch start e caps).

(** Try each start position from the left. *)
Fixpoint search (r : t) (s : list ascii) (start : nat) : option Match :=
  match run r s start ∅ (finish start) with
  | Some m => Some m
  | None =>
      match s with
      | [] => None
      | _ :: s' => search r s' (S start)
      end
  end.

(** [content.match(r)] *)
Definition exec (r : t) (content : string) : option Match :=
  search r (chars content) 0.

(** Element 0 of the match array, and element [i] for a group. *)
Definition matched (content : string) (m : Match) : string :=
  slice content (index m) (stop m).
Definition group (content : string) (m : Match) (i : nat) : option string :=
  (fun span => slice content span.1 span.2) <$> groups m !! i.

End RegExp.

(** The texts [<tag] and [</tag>]. *)
Definition openingTag (markupTagName : string) : string :=
  "<" +:+ markupTagName.
Definition closingTag (markupTagName : string) : string :=
  "</" +:+ markupTagName +:+ ">".

(** The first ending: [>], the greedy inner code, the closing tag. *)
Definition innerAlternative (markupTagName : string) : RegExp.t :=
  RegExp.Seq (RegExp.Lit (chars ">"))
    (RegExp.Seq (RegExp.Group 2 (RegExp.AnyStar false))
       (RegExp.Lit (chars (closingTag markupTagName)))).

(** [markupPattern]: the pattern whose source is, piece by piece,
      [<${markupTagName}]    the opening of the tag
      [( [\s\S]*? )]         group 1, lazy: the attribute string
      [(?:]  [>]  [( [\s\S]* )]  [<\/${markupTagName}>]
                             group 2, greedy: the inner code
      [|]  [/>]  [)]         or the end of a self-closing tag.
    The tag name is spliced into the pattern source as it is: the embedding
    reads it as literal characters, which is what the pattern means for a
    name free of pattern syntax ([plainTagName]). *)
Definition markupPattern (markupTagName : string) : RegExp.t :=
  RegExp.Seq (RegExp.Lit (chars (openingTag markupTagName)))
    (RegExp.Seq (RegExp.Group 1 (RegExp.AnyStar true))
       (RegExp.Alt
          (innerAlternative markupTagName)
          (RegExp.Lit (chars "/>")))).

(** [needle] is in [content] at position [j]. *)
Definition occursAt (needle content : string) (j : nat) : bool :=
  RegExp.isPrefix (chars needle) (drop j (chars content)).

(** The characters that mean something else than themselves in a pattern. *)
Definition isSyntaxCharacter (c : ascii) : bool :=
  bool_decide (c ∈ chars "\^$.*+?()[]{}|").

Definition plainTagName (markupTagName : string) : bool :=
  forallb (fun c => negb (isSyntaxCharacter c)) (chars markupTagName).

(** ** Values *)

(** A property value.  [Object.assign] and the spread operator are shallow:
    a nested object, array or function is carried by reference.  A
    property can be present with the value [undefined] or [null]:
    [Object.assign] and the spread copy it like any other. *)
Inductive Value :=
| VUndefined
| VNull
| VBool (b : bool)
| VString (s : string)
| VNumber (n : Z)
| VRef (r : positive).

(** A source map is a string or an object. *)
Inductive SourceMap :=
| MapString (s : string)
| MapObject (r : positive).

Inductive Diagnostic :=
| Diag (message : string).

(** [Processed]: what a transformer and every entry point return. *)
Module Processed.
Record t := mk {
  code : string;
  map : option SourceMap;
  dependencies : option (list string);
  diagnostics : option (list Diagnostic)
}.
End Processed.

(** The object literal [{ code: c }]. *)
Definition codeOnly (c : string) : Processed.t :=
  Processed.mk c None None None.

(** The third argument of [runTransformer], also what a function-valued
    option receives. *)
Module TransformerArgs.
Record t := mk {
  content : string;
  map : option SourceMap;
  filename : option string;
  attributes : option (gmap string Value)
}.
End TransformerArgs.

(** What a preprocessor (a per-block pipeline) receives. *)
Module SvelteFile.
Record t := mk {
  content : option string;
  attributes : gmap string Value;
  filename : option string
}.
End SvelteFile.

(** What [getTagInfo] returns. *)
Module TagInfo.
Record t := mk {
  content : string;
  filename : option string;
  lang : option string;
  alias : option string;
  dependencies : option (list string);
  attributes : gmap string Value
}.
End TagInfo.

Inductive Error :=
| Thrown (message : string).

Inductive Outcome (A : Type) :=
| Ok (a : A)
| Throw (e : Error).
Arguments Ok {A} a.
Arguments Throw {A} e.

Inductive BlockType := Markup | Script | Style.

(** ** The world

    The process-wide language alias registry of [modules/language], and
    whatever else the host keeps (file system, module cache). *)
Module World.
Record t (Ext : Type) := mk {
  registry : gmap string string;
  ext : Ext
}.
Arguments mk {Ext}.
Arguments registry {Ext}.
Arguments ext {Ext}.
End World.

(** A function of the host: it may change the world and may throw. *)
Definition Extern (Ext A : Type) : Type :=
  World.t Ext → Outcome A * World.t Ext.

(** [TransformerOptions]: [false] is the disabling marker.  An array (the
    [replace] option) is an object whose keys are its indices. *)
Inductive TransformerOptions (Ext : Type) :=
| OUndefined
| ONull
| OBool (b : bool)
| OFunction (f : TransformerArgs.t → Extern Ext Processed.t)
| OObject (o : gmap string Value).
Arguments OUndefined {Ext}.
Arguments ONull {Ext}.
Arguments OBool {Ext} b.
Arguments OFunction {Ext} f.
Arguments OObject {Ext} o.

(** The argument of the [transformer] of a transformer module. *)
Module TransformerCall.
Record t (Ext : Type) := mk {
  content : string;
  filename : option string;
  map : option SourceMap;
  attributes : option (gmap string Value);
  options : TransformerOptions Ext
}.
Arguments mk {Ext}.
Arguments content {Ext}.
Arguments filename {Ext}.
Arguments map {Ext}.
Arguments attributes {Ext}.
Arguments options {Ext}.
End TransformerCall.

(** The log of the calls a computation makes. *)
Inductive Event (Ext : Type) :=
| EGetTagInfo (file : SvelteFile.t)
| EGetTransformerOptions (name alias : option string)
| EPrepareContent (options : TransformerOptions Ext) (content : string)
| EImport (name : string)
| ETransformer (name : string) (call : TransformerCall.t Ext)
| EOptionFunction (args : TransformerArgs.t)
| EHasDepInstalled (dep : string)
| EAddLanguageAlias (pairs : list (string * string)).
Arguments EGetTagInfo {Ext}.
Arguments EGetTransformerOptions {Ext}.
Arguments EPrepareContent {Ext}.
Arguments EImport {Ext}.
Arguments ETransformer {Ext}.
Arguments EOptionFunction {Ext}.
Arguments EHasDepInstalled {Ext}.
Arguments EAddLanguageAlias {Ext}.

(** ** The monad of asynchronous computations *)

Module Run.
Record t (Ext A : Type) := mk {
  outcome : Outcome A;
  world : World.t Ext;
  trace : list (Event Ext)
}.
Arguments mk {Ext A}.
Arguments outcome {Ext A}.
Arguments world {Ext A}.
Arguments trace {Ext A}.
End Run.

Definition M (Ext A : Type) : Type := World.t Ext → Run.t Ext A.

Definition ret {Ext A} (a : A) : M Ext A :=
  fun w => Run.mk (Ok a) w [].

Definition throw {Ext A} (e : Error) : M Ext A :=
  fun w => Run.mk (Throw e) w [].

Definition bind {Ext A B} (m : M Ext A) (k : A → M Ext B) : M Ext B :=
  fun w =>
    let r := m w in
    match Run.outcome r with
    | Ok a =>
        let r' := k a (Run.world r) in
        Run.mk (Run.outcome r') (Run.world r') (Run.trace r ++ Run.trace r')
    | Throw e => Run.mk (Throw e) (Run.world r) (Run.trace r)
    end.

Notation "x <- m ;; k" := (bind m (fun x => k))
  (at level 100, m at next level, right associativity).

(** A call of a host function, logged as [ev]. *)
Definition call {Ext A} (ev : Event Ext) (f : Extern Ext A) : M Ext A :=
  fun w => let '(o, w') := f w in Run.mk o w' [ev].

(** A call of a function that neither touches the world nor throws. *)
Definition callPure {Ext A} (ev : Event Ext) (a : A) : M Ext A :=
  fun w => Run.mk (Ok a) w [ev].

(** Reading the alias registry. *)
Definition getRegistry {Ext} : M Ext (gmap string string) :=
  fun w => Run.mk (Ok (World.registry w)) w [].

(** ** The host *)

(** The collaborators [autoPreprocess] imports from modules that are not
    part of this development. *)
Module Host.
Record t (Ext : Type) := mk {
  (** [getTagInfo] of [modules/tagInfo] *)
  getTagInfo : SvelteFile.t → Extern Ext TagInfo.t;
  (** [prepareContent] of [modules/prepareContent] *)
  prepareContent : TransformerOptions Ext → string → string;
  (** [hasDepInstalled] of [modules/hasDepInstalled] *)
  hasDepInstalled : string → Extern Ext bool;
  (** the dynamic import of [./transformers/name], projected on its
      [transformer] *)
  importTransformer :
    string → Extern Ext (TransformerCall.t Ext → Extern Ext Processed.t);
  (** [concat] of [modules/concat] *)
  concat : ∀ A : Type, option (list A) → option (list A) → option (list A);
  (** [SOURCE_MAP_PROP_MAP] of [modules/language] *)
  SOURCE_MAP_PROP_MAP : gmap string (string * Value)
}.
Arguments mk {Ext}.
Arguments getTagInfo {Ext}.
Arguments prepareContent {Ext}.
Arguments hasDepInstalled {Ext}.
Arguments importTransformer {Ext}.
Arguments concat {Ext} _ {A}.
Arguments SOURCE_MAP_PROP_MAP {Ext}.
End Host.

(** Modelled from the spec: [getLanguageFromAlias] of [modules/language]
    (section 4.1, resolveCanonical), which is not part of the sources at
    hand: the mapped canonical name, or the alias itself, unchanged, when
    it is unmapped.  The registry maps strings: an alias that is undefined
    is unmapped, and comes back as it is. *)
Definition getLanguageFromAlias (registry : gmap string string)
    (alias : option string) : option string :=
  match alias with
  | Some a =>
      match registry !! a with
      | Some name => Some name
      | None => alias
      end
  | None => alias
  end.

(** Modelled from the spec: [addLanguageAlias] of [modules/language]
    (section 4.1, registerAliases), which is not part of the sources at
    hand: each pair is registered in turn, a later registration of an alias
    overwrites an earlier one. *)
Definition addLanguageAlias (pairs : list (string * string))
    (registry : gmap string string) : gmap string string :=
  fold_left (fun reg entry => <[entry.1 := entry.2]> reg) pairs registry.

(** ** Configuration *)

(** The [defaults] option, of the declared type
    [{ markup?: string; style?: string; script?: string }].  A property
    is absent ([None]), or present with a value, which is a string or
    [undefined] ([Some None]). *)
Module Defaults.
Record t := mk {
  markup : option (option string);
  style : option (option string);
  script : option (option string)
}.
Definition get (d : t) (type : BlockType) : option (option string) :=
  match type with
  | Markup => markup d
  | Script => script d
  | Style => style d
  end.
End Defaults.

(** [defaultLanguages].  Its declared type is
    [Readonly<{ markup: string; style: string; script: string }>], but the
    object is built by spreading [defaults] over the built-in values, and
    a spread copies a property that is present with the value
    [undefined]: a field can be undefined. *)
Module DefaultLanguages.
Record t := mk {
  markup : option string;
  style : option string;
  script : option string
}.
Definition get (d : t) (type : BlockType) : option string :=
  match type with
  | Markup => markup d
  | Script => script d
  | Style => style d
  end.
End DefaultLanguages.

Module AutoPreprocessOptions.
Record t (Ext : Type) := mk {
  aliases : option (list (string * string));
  markupTagName : option string;
  preserve : option (list string);
  defaults : option Defaults.t;
  sourceMap : option bool;
  (** the remaining properties: one per transformer *)
  rest : gmap string (TransformerOptions Ext)
}.
Arguments mk {Ext}.
Arguments aliases {Ext}.
Arguments markupTagName {Ext}.
Arguments preserve {Ext}.
Arguments defaults {Ext}.
Arguments sourceMap {Ext}.
Arguments rest {Ext}.
End AutoPreprocessOptions.

(** The variables of [autoPreprocess] that its inner functions close
    over. *)
Module Config.
Record t (Ext : Type) := mk {
  markupTagName : string;
  preserve : list string;
  defaultLanguages : DefaultLanguages.t;
  sourceMap : bool;
  transformers : gmap string (TransformerOptions Ext)
}.
Arguments mk {Ext}.
Arguments markupTagName {Ext}.
Arguments preserve {Ext}.
Arguments defaultLanguages {Ext}.
Arguments sourceMap {Ext}.
Arguments transformers {Ext}.
End Config.

(** What the [markup] entry point receives, and what [script] and [style]
    receive. *)
Module MarkupInput.
Record t := mk {
  content : string;
  filename : option string
}.
End MarkupInput.

Module BlockInput.
Record t := mk {
  content : string;
  attributes : gmap string Value;
  filename : option string
}.
End BlockInput.

Module AutoPreprocessGroup.
Record t (Ext : Type) := mk {
  defaultLanguages : DefaultLanguages.t;
  markup : MarkupInput.t → M Ext Processed.t;
  script : BlockInput.t → M Ext Processed.t;
  style : BlockInput.t → M Ext Processed.t
}.
Arguments mk {Ext}.
Arguments defaultLanguages {Ext}.
Arguments markup {Ext}.
Arguments script {Ext}.
Arguments style {Ext}.
End AutoPreprocessGroup.

Definition ALIAS_OPTION_OVERRIDES : gmap string (gmap string Value) :=
  {[ "sass" := {[ "indentedSyntax" := VBool true ]} ]}.

(** [Object.assign(target, source)]: the properties of [source] win. *)
Definition assign (target source : gmap string Value) : gmap string Value :=
  source ∪ target.

(** The names of the members of [Object.prototype].  On an ordinary
    object [o], the lookup [o[key]] and the test [key in o] find these
    members when [o] has no property of its own under [key]. *)
Definition objectPrototypeNames : list string :=
  ["constructor"; "hasOwnProperty"; "isPrototypeOf"; "propertyIsEnumerable";
   "toLocaleString"; "toString"; "valueOf"; "__proto__";
   "__defineGetter__"; "__defineSetter__"; "__lookupGetter__";
   "__lookupSetter__"].

Definition isInherited (key : string) : bool :=
  bool_decide (key ∈ objectPrototypeNames).

(** The property key that a possibly undefined string is converted to. *)
Definition propertyKey (key : option string) : string :=
  match key with
  | Some k => k
  | None => "undefined"
  end.

(** The text that a possibly undefined string contributes to a template
    literal. *)
Definition interpolate (name : option string) : string :=
  match name with
  | Some n => n
  | None => "undefined"
  end.

(** ** The attribute string of the container tag *)

Definition isQuote (c : ascii) : bool :=
  bool_decide (c = "'"%char) || bool_decide (c = ascii_of_nat 34).

Definition isEmpty (cs : list ascii) : bool :=
  match cs with
  | [] => true
  | _ :: _ => false
  end.

(** The body of the reducer: [attr.split('=')] gives the name and,
    when there is a second piece, the value; an empty or missing value
    becomes [true], another one loses its quote characters.  An
    assignment to [__proto__] of a primitive adds no property. *)
Definition addAttribute (acc : gmap string Value) (attr : list ascii)
    : gmap string Value :=
  let pieces := splitOn (fun c => bool_decide (c = "="%char)) attr in
  let name := str (hd [] pieces) in
  let value := pieces !! 1 in
  let v :=
    match value with
    | Some (c :: cs) => VString (str (filter (fun d => negb (isQuote d)) (c :: cs)))
    | _ => VBool true
    end in
  if decide (name = "__proto__") then acc else <[name := v]> acc.

(** [attributesStr.split(/\s+/).filter(Boolean).reduce(..., {})]: splitting
    at every white-space unit and dropping the empty pieces leaves the
    same pieces as splitting at runs of white space. *)
Definition parseAttributes (attributesStr : string) : gmap string Value :=
  fold_left addAttribute
    (filter (fun piece => negb (isEmpty piece))
       (splitOn isWhiteSpace (chars attributesStr)))
    ∅.

Section Preprocess.

Context {Ext : Type} (host : Host.t Ext).

(** *** [runTransformer] *)

(** The name is declared a string; [getTransformerTo] passes the
    effective language, which can be undefined.  The name is only read in
    the path of the module, [`./transformers/${name}`]. *)
Definition runTransformer (name : option string)
    (options : TransformerOptions Ext)
    (args : TransformerArgs.t) : M Ext Processed.t :=
  let '(TransformerArgs.mk content map filename attributes) := args in
  match options with
  | OBool false => ret (codeOnly content)
  | OFunction f =>
      call (EOptionFunction (TransformerArgs.mk content map filename attributes))
           (f (TransformerArgs.mk content map filename attributes))
  | _ =>
      transformer <-
        call (EImport (interpolate name))
             (Host.importTransformer host (interpolate name)) ;;
      let c :=
        TransformerCall.mk content filename map attributes
          (match options with OBool _ => ONull | _ => options end) in
      call (ETransformer (interpolate name) c) (transformer c)
  end.

(** *** The closure of [autoPreprocess] *)

Variable cfg : Config.t Ext.

(** JavaScript truthiness of an option. *)
Definition truthy (o : TransformerOptions Ext) : bool :=
  match o with
  | OUndefined | ONull | OBool false => false
  | _ => true
  end.

(** [transformers[key]], read among the properties that [transformers]
    has of its own.  The object [transformers] is an ordinary one: under
    a key of [objectPrototypeNames] that it does not have of its own, the
    program reads the member of [Object.prototype] instead.  Language
    names and aliases are meant to be other keys ([isInherited]). *)
Definition transformerOption (key : string) : TransformerOptions Ext :=
  match Config.transformers cfg !! key with
  | Some o => o
  | None => OUndefined
  end.

(** [typeof o === 'function'] and [o === false] *)
Definition isFunction (o : TransformerOptions Ext) : bool :=
  match o with
  | OFunction _ => true
  | _ => false
  end.
Definition isDisabled (o : TransformerOptions Ext) : bool :=
  match o with
  | OBool false => true
  | _ => false
  end.

(** [typeof o === 'object'] holds of objects and of [null]; what
    [Object.assign] copies from such an [o]. *)
Definition ownProperties (o : TransformerOptions Ext) : gmap string Value :=
  match o with
  | OObject props => props
  | _ => ∅
  end.

(** The name is declared a string and the alias is optional;
    [getTransformerTo] passes the effective language and alias, either of
    which can be undefined. *)
Definition getTransformerOptions (name alias : option string)
    : TransformerOptions Ext :=
  let nameOpts := transformerOption (propertyKey name) in
  let aliasOpts := transformerOption (propertyKey alias) in
  match aliasOpts, nameOpts with
  | OFunction _, _ => aliasOpts
  | _, OFunction _ => nameOpts
  | OBool false, _ | _, OBool false => OBool false
  | _, _ =>
      let opts : gmap string Value := ∅ in
      let opts := assign opts (ownProperties nameOpts) in
      let opts :=
        if decide (name ≠ alias) then
          let opts :=
            assign opts
              (match ALIAS_OPTION_OVERRIDES !! propertyKey alias with
               | Some override => override
               | None => ∅
               end) in
          assign opts (ownProperties aliasOpts)
        else opts in
      let opts :=
        if Config.sourceMap cfg then
          match Host.SOURCE_MAP_PROP_MAP host !! propertyKey name with
          | Some (propName, value) => <[propName := value]> opts
          | None => opts
          end
        else opts in
      OObject opts
  end.

(** The source-map step, the last one of [getTransformerOptions], sets
    the property [key]. *)
Definition setsSourceMapProp (name key : string) : Prop :=
  Config.sourceMap cfg = true
  ∧ ∃ value, Host.SOURCE_MAP_PROP_MAP host !! name = Some (key, value).

(** *** [getTransformerTo] *)

(** Lines 229-232: the fall-back to the default language of the
    category.  The result is the pair of [lang] and [alias] afterwards. *)
Definition withDefaultLanguage (type : BlockType)
    (registry : gmap string string) (lang alias : option string)
    : option string * option string :=
  match lang, alias with
  | Some _, Some _ => (lang, alias)
  | _, _ =>
      let alias := DefaultLanguages.get (Config.defaultLanguages cfg) type in
      let lang := getLanguageFromAlias registry alias in
      (lang, alias)
  end.

(** [l.includes(x)], for a list of strings: an undefined [x] is not one
    of them. *)
Definition includes (l : list string) (x : option string) : bool :=
  match x with
  | Some s => bool_decide (s ∈ l)
  | None => false
  end.

Definition getTransformerTo (type : BlockType) (targetLanguage : string)
    (svelteFile : SvelteFile.t) : M Ext Processed.t :=
  info <- call (EGetTagInfo svelteFile) (Host.getTagInfo host svelteFile) ;;
  let '(TagInfo.mk content filename lang alias dependencies attributes) := info in
  registry <- getRegistry ;;
  let '(lang, alias) := withDefaultLanguage type registry lang alias in
  if includes (Config.preserve cfg) lang || includes (Config.preserve cfg) alias
  then ret (codeOnly content)
  else
    transformerOptions <-
      callPure (EGetTransformerOptions lang alias)
               (getTransformerOptions lang alias) ;;
    content <-
      callPure (EPrepareContent transformerOptions content)
               (Host.prepareContent host transformerOptions content) ;;
    if decide (lang = Some targetLanguage)
    then ret (Processed.mk content None dependencies None)
    else
      transformed <-
        runTransformer lang transformerOptions
          (TransformerArgs.mk content None filename (Some attributes)) ;;
      ret (Processed.mk
             (Processed.code transformed)
             (Processed.map transformed)
             (Host.concat host dependencies (Processed.dependencies transformed))
             (Processed.diagnostics transformed)).

Definition scriptTransformer := getTransformerTo Script "javascript".
Definition cssTransformer := getTransformerTo Style "css".
Definition markupTransformer := getTransformerTo Markup "html".

(** *** [markup] *)

(** Lines 266-274: the optional [replace] pass. *)
Definition replacePass (content : string) (filename : option string)
    : M Ext string :=
  if truthy (transformerOption "replace") then
    transformed <-
      runTransformer (Some "replace") (transformerOption "replace")
        (TransformerArgs.mk content None filename None) ;;
    ret (Processed.code transformed)
  else ret content.

Definition markup (input : MarkupInput.t) : M Ext Processed.t :=
  let '(MarkupInput.mk content filename) := input in
  content <- replacePass content filename ;;
  match RegExp.exec (markupPattern (Config.markupTagName cfg)) content with
  | None =>
      markupTransformer (SvelteFile.mk (Some content) ∅ filename)
  | Some templateMatch =>
      let fullMatch := RegExp.matched content templateMatch in
      let templateCode := RegExp.group content templateMatch 2 in
      match RegExp.group content templateMatch 1 with
      | None => throw (Thrown "TypeError: attributesStr is undefined")
      | Some attributesStr =>
          let attributes := parseAttributes attributesStr in
          transformed <-
            markupTransformer (SvelteFile.mk templateCode attributes filename) ;;
          let code :=
            slice content 0 (RegExp.index templateMatch)
            +:+ Processed.code transformed
            +:+ sliceFrom content
                  (RegExp.index templateMatch + String.length fullMatch) in
          ret (Processed.mk code
                 (Processed.map transformed)
                 (Processed.dependencies transformed)
                 None)
      end
  end.

(** *** [script] *)

Definition script (input : BlockInput.t) : M Ext Processed.t :=
  let '(BlockInput.mk content attributes filename) := input in
  transformResult <-
    scriptTransformer (SvelteFile.mk (Some content) attributes filename) ;;
  let '(Processed.mk code map dependencies diagnostics) := transformResult in
  if truthy (transformerOption "babel") then
    options <-
      callPure (EGetTransformerOptions (Some "babel") None)
               (getTransformerOptions (Some "babel") None) ;;
    transformed <-
      runTransformer (Some "babel") options
        (TransformerArgs.mk code map filename (Some attributes)) ;;
    ret (Processed.mk
           (Processed.code transformed)
           (Processed.map transformed)
           (Host.concat host dependencies (Processed.dependencies transformed))
           (Host.concat host diagnostics (Processed.diagnostics transformed)))
  else ret (Processed.mk code map dependencies diagnostics).

(** *** [style] *)

(** Lines 362-372: the [postcss] stage, on the code, map and
    dependencies so far. *)
Definition postcssStage (attributes : gmap string Value)
    (filename : option string)
    (code : string) (map : option SourceMap)
    (dependencies : option (list string))
    : M Ext (string * option SourceMap * option (list string)) :=
  if truthy (transformerOption "postcss") then
    options <-
      callPure (EGetTransformerOptions (Some "postcss") None)
               (getTransformerOptions (Some "postcss") None) ;;
    transformed <-
      runTransformer (Some "postcss") options
        (TransformerArgs.mk code map filename (Some attributes)) ;;
    ret (Processed.code transformed,
         Processed.map transformed,
         Host.concat host dependencies (Processed.dependencies transformed))
  else ret (code, map, dependencies).

(** Lines 374-381: the [globalStyle] stage. *)
Definition globalStyleStage (attributes : gmap string Value)
    (filename : option string)
    (code : string) (map : option SourceMap) : M Ext Processed.t :=
  options <-
    callPure (EGetTransformerOptions (Some "globalStyle") None)
             (getTransformerOptions (Some "globalStyle") None) ;;
  runTransformer (Some "globalStyle") options
    (TransformerArgs.mk code map filename (Some attributes)).

Definition style (input : BlockInput.t) : M Ext Processed.t :=
  let '(BlockInput.mk content attributes filename) := input in
  transformResult <-
    cssTransformer (SvelteFile.mk (Some content) attributes filename) ;;
  let '(Processed.mk code map dependencies _) := transformResult in
  installed <-
    call (EHasDepInstalled "postcss") (Host.hasDepInstalled host "postcss") ;;
  if (installed : bool) then
    staged <- postcssStage attributes filename code map dependencies ;;
    let '(code, map, dependencies) := staged in
    transformed <- globalStyleStage attributes filename code map ;;
    ret (Processed.mk
           (Processed.code transformed)
           (Processed.map transformed)
           dependencies
           None)
  else ret (Processed.mk code map dependencies None).

End Preprocess.

(** *** [autoPreprocess] *)

Definition registerAliases {Ext} (aliases : option (list (string * string)))
    : M Ext unit :=
  match aliases with
  | Some (first :: others) =>
      fun w =>
        Run.mk (Ok tt)
          (World.mk (addLanguageAlias (first :: others) (World.registry w))
                    (World.ext w))
          [EAddLanguageAlias (first :: others)]
  | _ => ret tt
  end.

Definition configure {Ext} (options : AutoPreprocessOptions.t Ext)
    : Config.t Ext :=
  let markupTagName :=
    match AutoPreprocessOptions.markupTagName options with
    | Some name => name
    | None => "template"
    end in
  let preserve :=
    match AutoPreprocessOptions.preserve options with
    | Some l => l
    | None => []
    end in
  let defaults :=
    match AutoPreprocessOptions.defaults options with
    | Some d => d
    | None => Defaults.mk None None None
    end in
  let sourceMap :=
    match AutoPreprocessOptions.sourceMap options with
    | Some b => b
    | None => false
    end in
  let markupTagName := toLocaleLowerCase markupTagName in
  let defaultLanguages :=
    DefaultLanguages.mk
      (match Defaults.markup defaults with Some l => l | None => Some "html" end)
      (match Defaults.style defaults with Some l => l | None => Some "css" end)
      (match Defaults.script defaults with Some l => l | None => Some "javascript" end) in
  Config.mk markupTagName preserve defaultLanguages sourceMap
    (AutoPreprocessOptions.rest options).

Definition autoPreprocess {Ext} (host : Host.t Ext)
    (options : AutoPreprocessOptions.t Ext) : M Ext (AutoPreprocessGroup.t Ext) :=
  let cfg := configure options in
  _ <- registerAliases (AutoPreprocessOptions.aliases options) ;;
  ret (AutoPreprocessGroup.mk
         (Config.defaultLanguages cfg)
         (markup host cfg)
         (script host cfg)
         (style host cfg)).

(** ** A sample host

    One host among those the properties below range over, to run the
    embedding on concrete documents. *)
Module Sample.

Definition CR : ascii := ascii_of_nat 13.
Definition LF : ascii := ascii_of_nat 10.

(** Modelled from the spec: [prepareContent] of [modules/prepareContent],
    which is not part of the sources at hand (sections 2 and 4.4:
    the content is normalized, line endings for one, before it is
    transformed): a carriage return in front of a line feed is taken
    out. *)
Fixpoint normalizeLineEndings (cs : list ascii) : list ascii :=
  match cs with
  | [] => []
  | c :: rest =>
      match rest with
      | d :: _ =>
          if bool_decide (c = CR) && bool_decide (d = LF)
          then normalizeLineEndings rest
          else c :: normalizeLineEndings rest
      | [] => [c]
      end
  end.

Definition prepareContent (options : TransformerOptions unit)
    (content : string) : string :=
  str (normalizeLineEndings (chars content)).

(** Modelled from the spec: [concat] of [modules/concat], which is not
    part of the sources at hand (section 4.5): nothing when both lists
    are absent, the one that is present, or the first followed by the
    second. *)
Definition concat {A} (a b : option (list A)) : option (list A) :=
  match a, b with
  | None, None => None
  | Some x, None => Some x
  | None, Some y => Some y
  | Some x, Some y => Some (x ++ y)
  end.

(** A tag info extractor: the [lang] attribute is the alias, the
    registry gives the language, a [src] attribute is reported as a
    dependency. *)
Definition getTagInfo (file : SvelteFile.t) : Extern unit TagInfo.t :=
  fun w =>
    let attributes := SvelteFile.attributes file in
    let alias :=
      match attributes !! "lang" with
      | Some (VString l) => Some l
      | _ => None
      end in
    let dependencies :=
      match attributes !! "src" with
      | Some (VString path) => [path]
      | _ => []
      end in
    (Ok (TagInfo.mk
           (match SvelteFile.content file with
            | Some c => c
            | None => EmptyString
            end)
           (SvelteFile.filename file)
           (getLanguageFromAlias (World.registry w) alias)
           alias
           (Some dependencies)
           attributes),
     w).

(** A transformer that marks the code with its own name and reports one
    dependency. *)
Definition transformer (name : string) (c : TransformerCall.t unit)
    : Extern unit Processed.t :=
  fun w =>
    (Ok (Processed.mk
           ("/* " +:+ name +:+ " */" +:+ TransformerCall.content c)
           (TransformerCall.map c)
           (Some [name +:+ ".dep"])
           None),
     w).

Definition importTransformer (name : string)
    : Extern unit (TransformerCall.t unit → Extern unit Processed.t) :=
  fun w =>
    if bool_decide (name ∈ ["pug"; "scss"; "postcss"; "globalStyle"; "replace"])
    then (Ok (transformer name), w)
    else (Throw (Thrown ("Cannot find module ./transformers/" +:+ name)), w).

Definition host : Host.t unit :=
  Host.mk getTagInfo prepareContent
    (fun _ w => (Ok true, w))
    importTransformer
    (@concat)
    {[ "scss" := ("sourceMap", VBool true) ]}.

Definition world : World.t unit :=
  World.mk {[ "sass" := "scss" ]} tt.

(** [autoPreprocess()], [autoPreprocess({ markupTagName: 'template' })]
    and [autoPreprocess({ preserve: ['css'] })] *)
Definition noOptions : AutoPreprocessOptions.t unit :=
  AutoPreprocessOptions.mk None None None None None ∅.
Definition templateOptions : AutoPreprocessOptions.t unit :=
  AutoPreprocessOptions.mk None (Some "template") None None None ∅.
Definition preserveCssOptions : AutoPreprocessOptions.t unit :=
  AutoPreprocessOptions.mk None None (Some ["css"]) None None ∅.

(** Sample documents, blocks and configurations. *)
Definition pugDocument : string :=
  "<h1>x</h1><template lang='pug'>h1 Hi</template><p><template></p>".
Definition plainDocument : string :=
  "<div></div><style>a{}</style>".
Definition twoClosingTags : string :=
  "<template>a</template>b</template>".
Definition upperCaseDocument : string :=
  "<TEMPLATE lang='pug'>h1 Hi</TEMPLATE>".
Definition plainStyle : SvelteFile.t :=
  SvelteFile.mk (Some "a{}") {[ "src" := VString "./a.css" ]} None.
Definition plainStyleInfo : TagInfo.t :=
  TagInfo.mk "a{}" None None None (Some ["./a.css"])
    {[ "src" := VString "./a.css" ]}.
Definition windowsStyle : SvelteFile.t :=
  SvelteFile.mk (Some (str ["a"%char; CR; LF; "b"%char])) ∅ None.

Definition scssOptions : AutoPreprocessOptions.t unit :=
  AutoPreprocessOptions.mk None None None None None
    {[ "scss" := OObject {[ "precision" := VNumber 8 ]} ]}.

Definition postcssOptions : AutoPreprocessOptions.t unit :=
  AutoPreprocessOptions.mk None None None None None
    {[ "postcss" := OBool true ]}.

Definition sassBlock : BlockInput.t :=
  BlockInput.mk "a{}" {[ "lang" := VString "sass" ]} None.

End Sample.

(** ** The stand-alone babel processor

    The default export of [processors/babel]: a preprocessor group whose
    only entry point is [script]. *)
Module BabelProcessor.

Definition script {Ext} (host : Host.t Ext) (options : TransformerOptions Ext)
    (svelteFile : SvelteFile.t) : M Ext Processed.t :=
  transformer <- call (EImport "babel") (Host.importTransformer host "babel") ;;
  info <- call (EGetTagInfo svelteFile) (Host.getTagInfo host svelteFile) ;;
  let '(TagInfo.mk content filename _ _ dependencies attributes) := info in
  content <-
    callPure (EPrepareContent options content)
             (Host.prepareContent host options content) ;;
  let c := TransformerCall.mk content filename None (Some attributes) options in
  transformed <- call (ETransformer "babel" c) (transformer c) ;;
  ret (Processed.mk
         (Processed.code transformed)
         (Processed.map transformed)
         (Host.concat host dependencies (Processed.dependencies transformed))
         (Processed.diagnostics transformed)).

End BabelProcessor.

(** ** The sass transformer

    The first module of [src/transformers/scss.ts].  The variable [sass]
    of the module caches the implementation; nothing outside the module
    can reach it, so it is kept apart from the state of the host. *)
Module Sass.

(** [Result] of the sass package, as far as [getResultForResolve] reads
    it: [css.toString()], [map?.toString()] and [stats.includedFiles]. *)
Module Result.
Record t := mk {
  css : string;
  map : option string;
  includedFiles : list string
}.
End Result.

(** What the transformer resolves to.  The code is optional: the early
    return hands [options.data] back, which may be undefined. *)
Module Resolved.
Record t := mk {
  code : option string;
  map : option string;
  dependencies : option (list string)
}.
End Resolved.

(** [sassOptions], what [render] and [renderSync] receive: the include
    paths, the data, and the other properties. *)
Module RenderOptions.
Record t := mk {
  includePaths : list string;
  data : string;
  props : gmap string Value
}.
End RenderOptions.

(** An implementation ([sass] or [node-sass]).  [render] reports through
    a callback [(err, result)]: an error is [Throw]. *)
Module Implementation.
Record t (Ext : Type) := mk {
  render : RenderOptions.t → Ext → Outcome Result.t * Ext;
  renderSync : RenderOptions.t → Ext → Outcome Result.t * Ext
}.
Arguments mk {Ext}.
Arguments render {Ext}.
Arguments renderSync {Ext}.
End Implementation.

(** [Options.Sass]: the properties that the transformer reads by name,
    and [props] for every other property ([sourceMap] and [outFile]
    among them). *)
Module Options.
Record t (Ext : Type) := mk {
  renderSync : option bool;
  implementation : option (Implementation.t Ext);
  data : option string;
  includePaths : option (list string);
  props : gmap string Value
}.
Arguments mk {Ext}.
Arguments renderSync {Ext}.
Arguments implementation {Ext}.
Arguments data {Ext}.
Arguments includePaths {Ext}.
Arguments props {Ext}.
End Options.

(** The default [options = {}]. *)
Definition noOptions {Ext} : Options.t Ext :=
  Options.mk None None None None ∅.

Module Args.
Record t (Ext : Type) := mk {
  content : string;
  filename : option string;
  options : option (Options.t Ext)
}.
Arguments mk {Ext}.
Arguments content {Ext}.
Arguments filename {Ext}.
Arguments options {Ext}.
End Args.

(** The state: the cached implementation and the outside world. *)
Module State.
Record t (Ext : Type) := mk {
  sass : option (Implementation.t Ext);
  ext : Ext
}.
Arguments mk {Ext}.
Arguments sass {Ext}.
Arguments ext {Ext}.
End State.

(** [importAny] and [getIncludePaths] of [utils]. *)
Module Utils.
Record t (Ext : Type) := mk {
  importAny : list string → Ext → Outcome (Implementation.t Ext) * Ext;
  getIncludePaths : option string → option (list string) → list string
}.
Arguments mk {Ext}.
Arguments importAny {Ext}.
Arguments getIncludePaths {Ext}.
End Utils.

(** The calls the transformer makes. *)
Inductive Call :=
| CImportAny (names : list string)
| CRender (options : RenderOptions.t)
| CRenderSync (options : RenderOptions.t).

Module Run.
Record t (Ext : Type) := mk {
  outcome : Outcome Resolved.t;
  state : State.t Ext;
  calls : list Call
}.
Arguments mk {Ext}.
Arguments outcome {Ext}.
Arguments state {Ext}.
Arguments calls {Ext}.
End Run.

Definition getResultForResolve (result : Result.t) : Resolved.t :=
  Resolved.mk (Some (Result.css result)) (Result.map result)
    (Some (Result.includedFiles result)).

(** A template literal turns an undefined value into this text. *)
Definition templateString (x : option string) : string :=
  match x with
  | Some s => s
  | None => "undefined"
  end.

(** The object that the transformer destructures, without [renderSync]
    and [implementation], and before [data] is assigned. *)
Definition otherOptions {Ext} (options : Options.t Ext)
    (filename : option string) : gmap string Value :=
  <["outFile" := VString (templateString filename +:+ ".css")]>
    (Options.props options ∪ {[ "sourceMap" := VBool true ]}).

(** [options.data ? options.data + content : content] *)
Definition dataOf {Ext} (options : Options.t Ext) (content : string) : string :=
  match Options.data options with
  | Some (String c d) => String c d +:+ content
  | _ => content
  end.

(** The parameter [options = {}]. *)
Definition optionsOf {Ext} (args : Args.t Ext) : Options.t Ext :=
  match Args.options args with
  | Some o => o
  | None => noOptions
  end.

Definition renderOptions {Ext} (utils : Utils.t Ext) (args : Args.t Ext)
    : RenderOptions.t :=
  let options := optionsOf args in
  RenderOptions.mk
    (Utils.getIncludePaths utils (Args.filename args) (Options.includePaths options))
    (dataOf options (Args.content args))
    (otherOptions options (Args.filename args)).

(** Lines 38-42: the implementation passed with the options, or the
    cached one, or the one that [importAny] finds, which is cached. *)
Definition resolveImplementation {Ext} (utils : Utils.t Ext)
    (passed : option (Implementation.t Ext)) (st : State.t Ext)
    : Outcome (Implementation.t Ext) * State.t Ext * list Call :=
  match passed with
  | Some implementation => (Ok implementation, st, [])
  | None =>
      match State.sass st with
      | Some implementation => (Ok implementation, st, [])
      | None =>
          let '(found, e) := Utils.importAny utils ["sass"; "node-sass"] (State.ext st) in
          match found with
          | Ok implementation =>
              (Ok implementation, State.mk (Some implementation) e,
               [CImportAny ["sass"; "node-sass"]])
          | Throw err =>
              (Throw err, State.mk None e, [CImportAny ["sass"; "node-sass"]])
          end
      end
  end.

Definition transformer {Ext} (utils : Utils.t Ext) (args : Args.t Ext)
    (st : State.t Ext) : Run.t Ext :=
  let options := optionsOf args in
  let sassOptions := renderOptions utils args in
  let '(resolved, st, calls) :=
    resolveImplementation utils (Options.implementation options) st in
  match resolved with
  | Throw err => Run.mk (Throw err) st calls
  | Ok implementation =>
      if decide (String.length (RenderOptions.data sassOptions) = 0) then
        Run.mk (Ok (Resolved.mk (Options.data options) None None)) st calls
      else
        match Options.renderSync options with
        | Some true =>
            let '(result, e) :=
              Implementation.renderSync implementation sassOptions (State.ext st) in
            Run.mk
              (match result with
               | Ok r => Ok (getResultForResolve r)
               | Throw err => Throw err
               end)
              (State.mk (State.sass st) e)
              (calls ++ [CRenderSync sassOptions])
        | _ =>
            let '(result, e) :=
              Implementation.render implementation sassOptions (State.ext st) in
            Run.mk
              (match result with
               | Ok r => Ok (getResultForResolve r)
               | Throw err => Throw err
               end)
              (State.mk (State.sass st) e)
              (calls ++ [CRender sassOptions])
        end
  end.

End Sass.

(** ** Clean code units *)

(** A code unit that [parseAttributes] lets into a name or a value:
    neither white space nor [=]. *)
Definition cleanUnit (c : ascii) : Prop :=
  isWhiteSpace c = false ∧ c ≠ "="%char.

(** ** Openings that can be completed *)

(** One of the two endings of the container pattern fits at position
    [a]: [/>], or [>] with a closing tag somewhere after it. *)
Definition endingAt (tag content : string) (a : nat) : Prop :=
  occursAt "/>" content a = true
  ∨ (occursAt ">" content a = true
     ∧ ∃ b, a + 1 ≤ b ∧ occursAt (closingTag tag) content b = true).

(** An opening [<tag] at position [i] that some ending completes. *)
Definition completableAt (tag content : string) (i : nat) : Prop :=
  occursAt (openingTag tag) content i = true
  ∧ ∃ a, i + String.length (openingTag tag) ≤ a ∧ endingAt tag content a.

(** ** More samples *)
Module MoreSamples.

(** A function-valued option: it marks the code and reports a map, a
    dependency and a diagnostic. *)
Definition custom (args : TransformerArgs.t) : Extern unit Processed.t :=
  fun w =>
    (Ok (Processed.mk
           ("/* custom */" +:+ TransformerArgs.content args)
           (Some (MapString "custom.map"))
           (Some ["custom.dep"])
           (Some [Diag "custom"])),
     w).

(** The sample host with a babel transformer installed. *)
Definition importTransformer (name : string)
    : Extern unit (TransformerCall.t unit → Extern unit Processed.t) :=
  fun w =>
    if bool_decide (name = "babel") then (Ok (Sample.transformer name), w)
    else Sample.importTransformer name w.

Definition babelHost : Host.t unit :=
  Host.mk Sample.getTagInfo Sample.prepareContent
    (fun _ w => (Ok true, w))
    importTransformer
    (@Sample.concat)
    {[ "scss" := ("sourceMap", VBool true) ]}.

(** The sample host with a tag info extractor that cannot read the file
    that [src] names. *)
Definition failingHost : Host.t unit :=
  Host.mk
    (fun file w =>
       match SvelteFile.attributes file !! "src" with
       | Some _ => (Throw (Thrown "ENOENT"), w)
       | None => Sample.getTagInfo file w
       end)
    Sample.prepareContent
    (fun _ w => (Ok true, w))
    Sample.importTransformer
    (@Sample.concat)
    {[ "scss" := ("sourceMap", VBool true) ]}.

Definition withRest (rest : gmap string (TransformerOptions unit))
    : AutoPreprocessOptions.t unit :=
  AutoPreprocessOptions.mk None None None None None rest.

Definition sourceMapOptions : AutoPreprocessOptions.t unit :=
  AutoPreprocessOptions.mk None None None None (Some true)
    {[ "scss" := OObject {[ "sourceMap" := VBool false ]} ]}.
Definition scssDisabled : AutoPreprocessOptions.t unit :=
  withRest {[ "scss" := OBool false ]}.
Definition sassCustom : AutoPreprocessOptions.t unit :=
  withRest {[ "sass" := OFunction custom ]}.
Definition babelCustom : AutoPreprocessOptions.t unit :=
  withRest {[ "babel" := OFunction custom ]}.
Definition globalStyleDisabled : AutoPreprocessOptions.t unit :=
  withRest {[ "globalStyle" := OBool false; "sass" := OFunction custom ]}.

Definition sassFile : SvelteFile.t :=
  SvelteFile.mk (Some "a{}") {[ "lang" := VString "sass" ]} None.
Definition sassInfo : TagInfo.t :=
  TagInfo.mk "a{}" None (Some "scss") (Some "sass") (Some [])
    {[ "lang" := VString "sass" ]}.
Definition coffeeDocument : string :=
  "<template lang='coffee'>x</template>".
Definition scriptBlock : BlockInput.t :=
  BlockInput.mk "let a" ∅ None.

(** A set-up whose [defaults] has the property [style] with the value
    [undefined], and a style block without a [lang] attribute. *)
Definition undefinedStyleDefault : AutoPreprocessOptions.t unit :=
  AutoPreprocessOptions.mk None None None
    (Some (Defaults.mk None (Some None) None)) None ∅.
Definition bareStyle : BlockInput.t :=
  BlockInput.mk "a{}" ∅ None.

(** A user who turns typescript on with [true]. *)
Definition typescriptOn : AutoPreprocessOptions.t unit :=
  withRest {[ "typescript" := OBool true ]}.
Definition srcBlock : BlockInput.t :=
  BlockInput.mk "a{}" {[ "src" := VString "./gone.css" ]} None.

(** A sass implementation: it marks the data and reports one file. *)
Definition implementation (mark : string) : Sass.Implementation.t unit :=
  Sass.Implementation.mk
    (fun o e =>
       (Ok (Sass.Result.mk (mark +:+ Sass.RenderOptions.data o) None ["a.scss"]), e))
    (fun o e =>
       (Ok (Sass.Result.mk (mark +:+ Sass.RenderOptions.data o) None ["a.scss"]), e)).

Definition utils : Sass.Utils.t unit :=
  Sass.Utils.mk
    (fun _ e => (Ok (implementation "/* sass */"), e))
    (fun _ paths =>
       match paths with
       | Some l => l
       | None => ["node_modules"]
       end).

Definition brokenUtils : Sass.Utils.t unit :=
  Sass.Utils.mk
    (fun _ e => (Throw (Thrown "Cannot find any of modules: sass,node-sass"), e))
    (fun _ _ => []).

Definition emptyArgs : Sass.Args.t unit :=
  Sass.Args.mk EmptyString (Some "App.svelte") None.
Definition ruleArgs : Sass.Args.t unit :=
  Sass.Args.mk "a{}" (Some "App.svelte") None.
Definition fresh : Sass.State.t unit :=
  Sass.State.mk None tt.

(** Options of a user who asks for no source map, names an output file
    and puts a variable in front of the content. *)
Definition userArgs : Sass.Args.t unit :=
  Sass.Args.mk "a{}" (Some "App.svelte")
    (Some (Sass.Options.mk None None (Some "$c: red;") (Some ["src"])
             {[ "sourceMap" := VBool false;
                "outFile" := VString "out.css";
                "precision" := VNumber 8 ]})).

End MoreSamples.

(** * Properties *)

(** ** Running computations *)

Section RunLemmas.

Context {Ext : Type}.

Lemma run_bind {A B} (m : M Ext A) (k : A → M Ext B) w a w1 t1 o w2 t2 :
  m w = Run.mk (Ok a) w1 t1 →
  k a w1 = Run.mk o w2 t2 →
  (x <- m ;; k x) w = Run.mk o w2 (t1 ++ t2).
Proof. intros Hm Hk. unfold bind. rewrite Hm. simpl. by rewrite Hk. Qed.

Lemma run_bind_tail {A B} (m : M Ext A) (k : A → M Ext B) w a w1 t1 :
  m w = Run.mk (Ok a) w1 t1 →
  (x <- m ;; k x) w =
    Run.mk (Run.outcome (k a w1)) (Run.world (k a w1)) (t1 ++ Run.trace (k a w1)).
Proof. intros Hm. unfold bind. by rewrite Hm. Qed.

Lemma run_call {A} (ev : Event Ext) (f : Extern Ext A) w o w1 :
  f w = (o, w1) → call ev f w = Run.mk o w1 [ev].
Proof. intros Hf. unfold call. by rewrite Hf. Qed.

Lemma run_eta {A} (r : Run.t Ext A) :
  r = Run.mk (Run.outcome r) (Run.world r) (Run.trace r).
Proof. by destruct r. Qed.

End RunLemmas.

(** ** The transformer invoker and the per-block pipeline *)

Section PipelineProperties.

Context {Ext : Type} (host : Host.t Ext).

(** C8. [runTransformer] with the disabling marker [false] resolves at
    once to [{ code: content }]: the content as it was passed, no map, no
    dependencies and no diagnostics, the world untouched and nothing
    called, so no transformer module is loaded.  With a function as
    options, that function is the one call made, it receives
    [{ content, map, filename, attributes }], and what it returns or
    throws is the result. *)
Theorem runTransformer_disabled_or_function :
  (∀ name args w,
     runTransformer host name (OBool false) args w =
       Run.mk (Ok (Processed.mk (TransformerArgs.content args) None None None))
              w [])
  ∧
  (∀ name f args w,
     runTransformer host name (OFunction f) args w =
       Run.mk (f args w).1 (f args w).2 [EOptionFunction args]).
Proof.
  split.
  - intros name [content map filename attributes] w. reflexivity.
  - intros name f [content map filename attributes] w.
    simpl. unfold call. by destruct (f _ w).
Qed.

Variable cfg : Config.t Ext.

(** The pipeline up to the point where the effective language is
    known. *)
Lemma getTransformerTo_entry type targetLanguage file w info w1 lang alias :
  Host.getTagInfo host file w = (Ok info, w1) →
  withDefaultLanguage cfg type (World.registry w1)
    (TagInfo.lang info) (TagInfo.alias info) = (lang, alias) →
  getTransformerTo host cfg type targetLanguage file w =
    let rest : M Ext Processed.t :=
      if includes (Config.preserve cfg) lang || includes (Config.preserve cfg) alias
      then ret (codeOnly (TagInfo.content info))
      else
        transformerOptions <-
          callPure (EGetTransformerOptions lang alias)
                   (getTransformerOptions host cfg lang alias) ;;
        content <-
          callPure (EPrepareContent transformerOptions (TagInfo.content info))
                   (Host.prepareContent host transformerOptions (TagInfo.content info)) ;;
        if decide (lang = Some targetLanguage)
        then ret (Processed.mk content None (TagInfo.dependencies info) None)
        else
          transformed <-
            runTransformer host lang transformerOptions
              (TransformerArgs.mk content None (TagInfo.filename info)
                 (Some (TagInfo.attributes info))) ;;
          ret (Processed.mk
                 (Processed.code transformed)
                 (Processed.map transformed)
                 (Host.concat host (TagInfo.dependencies info)
                    (Processed.dependencies transformed))
                 (Processed.diagnostics transformed)) in
    Run.mk (Run.outcome (rest w1)) (Run.world (rest w1))
           (EGetTagInfo file :: Run.trace (rest w1)).
Proof.
  intros Hinfo Hlang. unfold getTransformerTo.
  rewrite (run_bind_tail _ _ w info w1 [EGetTagInfo file]);
    [|by apply run_call].
  destruct info as [content filename lang0 alias0 dependencies attributes].
  simpl in Hlang. unfold bind at 1. simpl. rewrite Hlang. reflexivity.
Qed.

(** C5. A block whose effective language or alias is on the preserve
    list comes back as [{ code: content }]: the content that the tag
    info carries, unchanged, and no dependencies even when the tag info
    has some.  The only call made is the extraction of the tag info: no
    options are resolved, no content is prepared, no transformer is
    loaded or invoked. *)
Theorem preserved_block_is_returned_as_is
    type targetLanguage file w info w1 lang alias :
  Host.getTagInfo host file w = (Ok info, w1) →
  withDefaultLanguage cfg type (World.registry w1)
    (TagInfo.lang info) (TagInfo.alias info) = (Some lang, Some alias) →
  lang ∈ Config.preserve cfg ∨ alias ∈ Config.preserve cfg →
  getTransformerTo host cfg type targetLanguage file w =
    Run.mk (Ok (Processed.mk (TagInfo.content info) None None None))
           w1 [EGetTagInfo file].
Proof.
  intros Hinfo Hlang Hin.
  rewrite (getTransformerTo_entry _ _ _ _ _ _ _ _ Hinfo Hlang).
  assert (includes (Config.preserve cfg) (Some lang)
          || includes (Config.preserve cfg) (Some alias) = true) as ->.
  { unfold includes. destruct Hin as [Hin|Hin].
    - by rewrite (bool_decide_eq_true_2 _ Hin).
    - rewrite (bool_decide_eq_true_2 _ Hin). by rewrite orb_true_r. }
  reflexivity.
Qed.

(** C4, as the code has it.  A block whose effective language is the
    target language of the pipeline, and whose language and alias are
    not on the preserve list, comes back with the prepared content as
    code (what [prepareContent] makes of the content under the resolved
    options, hence the content itself whenever preparation leaves it
    alone) and with the dependencies of the tag info.  The calls made
    are the extraction of the tag info, the resolution of the options
    and the preparation of the content: no transformer module is loaded
    and none is invoked. *)
Theorem target_language_block_is_prepared_only
    type targetLanguage file w info w1 lang alias :
  Host.getTagInfo host file w = (Ok info, w1) →
  withDefaultLanguage cfg type (World.registry w1)
    (TagInfo.lang info) (TagInfo.alias info) = (Some lang, Some alias) →
  lang ∉ Config.preserve cfg →
  alias ∉ Config.preserve cfg →
  lang = targetLanguage →
  let options := getTransformerOptions host cfg (Some lang) (Some alias) in
  let prepared := Host.prepareContent host options (TagInfo.content info) in
  getTransformerTo host cfg type targetLanguage file w =
    Run.mk (Ok (Processed.mk prepared None (TagInfo.dependencies info) None))
           w1
           [EGetTagInfo file;
            EGetTransformerOptions (Some lang) (Some alias);
            EPrepareContent options (TagInfo.content info)]
  ∧ (prepared = TagInfo.content info →
     Run.outcome (getTransformerTo host cfg type targetLanguage file w) =
       Ok (Processed.mk (TagInfo.content info) None (TagInfo.dependencies info) None)).
Proof.
  intros Hinfo Hlang Hl Ha Htarget options prepared.
  assert (getTransformerTo host cfg type targetLanguage file w =
    Run.mk (Ok (Processed.mk prepared None (TagInfo.dependencies info) None))
           w1
           [EGetTagInfo file;
            EGetTransformerOptions (Some lang) (Some alias);
            EPrepareContent options (TagInfo.content info)]) as Hrun.
  { rewrite (getTransformerTo_entry _ _ _ _ _ _ _ _ Hinfo Hlang).
    unfold includes.
    rewrite (bool_decide_eq_false_2 _ Hl), (bool_decide_eq_false_2 _ Ha).
    simpl. unfold bind, callPure. simpl.
    destruct (decide (Some lang = Some targetLanguage));
      [reflexivity | congruence]. }
  split; [exact Hrun|].
  intros Hsame. rewrite Hrun. simpl. by rewrite Hsame.
Qed.

End PipelineProperties.

(** ** Strings *)

Lemma chars_str cs : chars (str cs) = cs.
Proof. apply list_ascii_of_string_of_list_ascii. Qed.

Lemma str_chars s : str (chars s) = s.
Proof. apply string_of_list_ascii_of_string. Qed.

Lemma chars_append s1 s2 : chars (s1 +:+ s2) = chars s1 ++ chars s2.
Proof. induction s1 as [|c s1 IH]; simpl; [done | by rewrite IH]. Qed.

Lemma str_app cs1 cs2 : str (cs1 ++ cs2) = str cs1 +:+ str cs2.
Proof. induction cs1 as [|c cs1 IH]; simpl; [done | by rewrite IH]. Qed.

Lemma length_chars s : length (chars s) = String.length s.
Proof. induction s as [|c s IH]; simpl; [done | by rewrite IH]. Qed.

Lemma length_slice s from to :
  to ≤ String.length s → String.length (slice s from to) = to - from.
Proof.
  intros Hto. unfold slice.
  rewrite <- length_chars, chars_str, length_take, length_drop, length_chars.
  lia.
Qed.

(** A string is its slices put together. *)
Lemma slice_partition s i e :
  i ≤ e → s = slice s 0 i +:+ slice s i e +:+ sliceFrom s e.
Proof.
  intros Hie. unfold slice, sliceFrom.
  rewrite <- !str_app, drop_0, Nat.sub_0_r.
  rewrite <- (str_chars s) at 1. f_equal.
  rewrite <- (take_drop i (chars s)) at 1. f_equal.
  rewrite <- (take_drop (e - i) (drop i (chars s))) at 1. f_equal.
  rewrite drop_drop. f_equal. lia.
Qed.

(** ** Pattern matching *)

Section RegExpProperties.

Import RegExp.

Lemma isPrefix_true cs s : isPrefix cs s = true ↔ ∃ s', s = cs ++ s'.
Proof.
  revert s. induction cs as [|c cs IH]; intros s; simpl.
  - split; [eauto | done].
  - destruct s as [|d s].
    + split; [done | intros [s' [=]]].
    + destruct (decide (c = d)) as [->|Hne].
      * rewrite IH. split; intros [s' Hs']; exists s'; simplify_eq/=; done.
      * split; [done | intros [s' [=]]; done].
Qed.

Lemma isPrefix_take cs s :
  isPrefix cs s = true → take (length cs) s = cs ∧ length cs ≤ length s.
Proof.
  intros [s' ->]%isPrefix_true.
  rewrite take_app_length, length_app. split; [done | lia].
Qed.

Lemma isPrefix_nil cs : cs ≠ [] → isPrefix cs [] = false.
Proof. by destruct cs. Qed.

Lemma lazyStar_Some {X} (k : list ascii → nat → option X) s pos x :
  lazyStar k s pos = Some x →
  ∃ n, n ≤ length s
       ∧ k (drop n s) (pos + n) = Some x
       ∧ ∀ j, j < n → k (drop j s) (pos + j) = None.
Proof.
  revert pos. induction s as [|c s IH]; intros pos; simpl.
  - destruct (k [] pos) eqn:Hk; [|done]. intros [= ->].
    exists 0. rewrite Nat.add_0_r.
    split; [done|]. split; [done|]. intros j Hj. lia.
  - destruct (k (c :: s) pos) eqn:Hk.
    + intros [= ->]. exists 0. rewrite Nat.add_0_r.
      split; [lia|]. split; [done|]. intros j Hj. lia.
    + intros (n & Hn & Hx & Hmin)%IH.
      exists (S n). split; [lia|]. split.
      * simpl. by replace (pos + S n) with (S pos + n) by lia.
      * intros [|j] Hj; [by rewrite Nat.add_0_r|].
        simpl. replace (pos + S j) with (S pos + j) by lia.
        apply Hmin. lia.
Qed.

Lemma greedyStar_None {X} (k : list ascii → nat → option X) s pos :
  greedyStar k s pos = None →
  ∀ j, j ≤ length s → k (drop j s) (pos + j) = None.
Proof.
  revert pos. induction s as [|c s IH]; intros pos; simpl.
  - intros Hk j Hj. assert (j = 0) as -> by lia. by rewrite Nat.add_0_r.
  - destruct (greedyStar k s (S pos)) eqn:Hrec; [done|].
    intros Hk [|j] Hj; [by rewrite Nat.add_0_r|].
    simpl. replace (pos + S j) with (S pos + j) by lia.
    apply IH; [done | lia].
Qed.

Lemma greedyStar_Some {X} (k : list ascii → nat → option X) s pos x :
  greedyStar k s pos = Some x →
  ∃ n, n ≤ length s
       ∧ k (drop n s) (pos + n) = Some x
       ∧ ∀ j, n < j → j ≤ length s → k (drop j s) (pos + j) = None.
Proof.
  revert pos. induction s as [|c s IH]; intros pos; simpl.
  - intros Hk. exists 0. rewrite Nat.add_0_r.
    split; [done|]. split; [done|]. intros j Hj Hlen. lia.
  - destruct (greedyStar k s (S pos)) eqn:Hrec.
    + intros [= ->]. apply IH in Hrec as (n & Hn & Hx & Hmax).
      exists (S n). split; [lia|]. split.
      * simpl. by replace (pos + S n) with (S pos + n) by lia.
      * intros [|j] Hj Hlen; [lia|].
        simpl. replace (pos + S j) with (S pos + j) by lia.
        apply Hmax; lia.
    + intros Hk. exists 0. rewrite Nat.add_0_r.
      split; [lia|]. split; [done|].
      intros [|j] Hj Hlen; [lia|].
      simpl. replace (pos + S j) with (S pos + j) by lia.
      apply greedyStar_None; [done | lia].
Qed.

(** Whatever the pattern, the continuation is entered after some part
    of the input has been consumed. *)
Lemma run_span {X} r s pos caps (k : Cont X) x :
  run r s pos caps k = Some x →
  ∃ n caps', n ≤ length s ∧ k (drop n s) (pos + n) caps' = Some x.
Proof.
  revert s pos caps k x.
  induction r as [cs | [|] | r1 IH1 r2 IH2 | r1 IH1 r2 IH2 | i r IH];
    intros s pos caps k x; simpl.
  - destruct (isPrefix cs s) eqn:Hp; [|done].
    apply isPrefix_take in Hp as [_ Hlen]. eauto.
  - intros (n & Hn & Hx & _)%lazyStar_Some. eauto.
  - intros (n & Hn & Hx & _)%greedyStar_Some. eauto.
  - intros (n1 & caps1 & Hn1 & Hx)%IH1.
    apply IH2 in Hx as (n2 & caps2 & Hn2 & Hx).
    rewrite length_drop in Hn2. rewrite drop_drop in Hx.
    exists (n1 + n2), caps2. split; [lia|].
    by replace (pos + (n1 + n2)) with (pos + n1 + n2) by lia.
  - destruct (run r1 s pos caps k) eqn:H1.
    + intros [= ->]. eauto.
    + eauto.
  - intros (n & caps' & Hn & Hx)%IH. eauto.
Qed.

Lemma search_Some r s start m :
  search r s start = Some m →
  ∃ n, n ≤ length s
       ∧ run r (drop n s) (start + n) ∅ (finish (start + n)) = Some m.
Proof.
  revert start. induction s as [|c s IH]; intros start; simpl.
  - destruct (run r [] start ∅ _) eqn:Hr; [|done]. intros [= ->].
    exists 0. by rewrite Nat.add_0_r.
  - destruct (run r (c :: s) start ∅ _) eqn:Hr.
    + intros [= ->]. exists 0. rewrite Nat.add_0_r. split; [lia | done].
    + intros (n & Hn & Hx)%IH. exists (S n). split; [lia|].
      simpl. by replace (start + S n) with (S start + n) by lia.
Qed.

Lemma search_None r s start :
  (∀ n, n ≤ length s →
        run r (drop n s) (start + n) ∅ (finish (start + n)) = None) →
  search r s start = None.
Proof.
  revert start. induction s as [|c s IH]; intros start Hnone; simpl.
  - pose proof (Hnone 0 ltac:(simpl; lia)) as H0.
    rewrite Nat.add_0_r in H0. simpl in H0. by rewrite H0.
  - pose proof (Hnone 0 ltac:(simpl; lia)) as H0.
    rewrite Nat.add_0_r in H0. simpl in H0. rewrite H0.
    apply IH. intros n Hn. specialize (Hnone (S n)). simpl in Hnone.
    replace (S start + n) with (start + S n) by lia. apply Hnone. simpl. lia.
Qed.

(** A match lies inside the content, whatever the pattern. *)
Lemma exec_span r content m :
  exec r content = Some m →
  index m ≤ stop m ∧ stop m ≤ String.length content.
Proof.
  unfold exec. intros (n & Hn & Hrun)%search_Some.
  apply run_span in Hrun as (d & caps & Hd & [= <-]). simpl.
  rewrite length_drop, length_chars in Hd. rewrite length_chars in Hn. lia.
Qed.

Lemma exec_matched_length r content m :
  exec r content = Some m →
  index m + String.length (matched content m) = stop m.
Proof.
  intros [Hle Hlen]%exec_span. unfold matched.
  rewrite length_slice; [lia | done].
Qed.

End RegExpProperties.

(** ** The container pattern *)

Section MarkupPatternProperties.

Import RegExp.

Variable tag : string.

Lemma closingTag_nonempty : chars (closingTag tag) ≠ [].
Proof. unfold closingTag. by rewrite chars_append. Qed.

Lemma not_occursAt_beyond needle content j :
  chars needle ≠ [] → String.length content ≤ j →
  occursAt needle content j = false.
Proof.
  intros Hne Hj. unfold occursAt.
  rewrite drop_ge; [|by rewrite length_chars].
  by apply isPrefix_nil.
Qed.

Lemma innerAlternative_Some s pos caps start m :
  run (innerAlternative tag) s pos caps (finish start) = Some m →
  isPrefix (chars ">") s = true
  ∧ ∃ d, isPrefix (chars (closingTag tag)) (drop (1 + d) s) = true
         ∧ m = mkMatch start (pos + 1 + d + length (chars (closingTag tag)))
                 (<[2 := (pos + 1, pos + 1 + d)]> caps)
         ∧ ∀ j, d < j → isPrefix (chars (closingTag tag)) (drop (1 + j) s) = false.
Proof.
  unfold innerAlternative. cbn [run].
  destruct (isPrefix (chars ">") s) eqn:Hgt; [|done].
  intros (d & Hd & Hk & Hmax)%greedyStar_Some. split; [done|].
  change (length (chars ">")) with 1 in *.
  rewrite drop_drop in Hk.
  destruct (isPrefix (chars (closingTag tag)) (drop (1 + d) s)) eqn:Hc; [|done].
  exists d. split; [done|]. split; [by injection Hk as <-|].
  intros j Hj.
  destruct (decide (j ≤ length (drop 1 s))) as [Hle|Hgt'].
  - specialize (Hmax j Hj Hle). rewrite drop_drop in Hmax.
    by destruct (isPrefix (chars (closingTag tag)) (drop (1 + j) s)).
  - rewrite length_drop in Hgt'. rewrite drop_ge; [|lia].
    apply isPrefix_nil, closingTag_nonempty.
Qed.

Lemma innerAlternative_None s pos caps start :
  run (innerAlternative tag) s pos caps (finish start) = None →
  isPrefix (chars ">") s = true →
  ∀ j, isPrefix (chars (closingTag tag)) (drop (1 + j) s) = false.
Proof.
  unfold innerAlternative. cbn [run]. intros Hrun Hgt j. rewrite Hgt in Hrun.
  change (length (chars ">")) with 1 in *.
  destruct (decide (j ≤ length (drop 1 s))) as [Hle|Hgt'].
  - pose proof (greedyStar_None _ _ _ Hrun j Hle) as Hk.
    rewrite drop_drop in Hk.
    by destruct (isPrefix (chars (closingTag tag)) (drop (1 + j) s)).
  - rewrite length_drop in Hgt'. rewrite drop_ge; [|lia].
    apply isPrefix_nil, closingTag_nonempty.
Qed.

(** The pattern, one step unfolded. *)
Lemma markupPattern_run s pos start :
  run (markupPattern tag) s pos ∅ (finish start) =
    if isPrefix (chars (openingTag tag)) s then
      let from := pos + length (chars (openingTag tag)) in
      lazyStar
        (fun s' pos' =>
           let caps : Captures := <[1 := (from, pos')]> ∅ in
           match run (innerAlternative tag) s' pos' caps (finish start) with
           | Some x => Some x
           | None =>
               if isPrefix (chars "/>") s'
               then Some (mkMatch start (pos' + 2) caps)
               else None
           end)
        (drop (length (chars (openingTag tag))) s) from
    else None.
Proof. reflexivity. Qed.

(** What a match of the container pattern looks like.  It starts at an
    opening [<tag]; group 1 runs from there to the first position [a]
    at which one of the two endings fits; the ending is either [>], an
    inner code up to the last closing tag of the document, and that
    closing tag, or [/>]. *)
Lemma markupPattern_exec content m :
  exec (markupPattern tag) content = Some m →
  ∃ a,
    occursAt (openingTag tag) content (index m) = true
    ∧ index m + String.length (openingTag tag) ≤ a
    ∧ groups m !! 1 = Some (index m + String.length (openingTag tag), a)
    ∧ (∀ j, index m + String.length (openingTag tag) ≤ j → j < a →
         occursAt "/>" content j = false
         ∧ (occursAt ">" content j = true →
            ∀ q, j < q → occursAt (closingTag tag) content q = false))
    ∧ ((∃ b,
          occursAt ">" content a = true
          ∧ a + 1 ≤ b
          ∧ groups m !! 2 = Some (a + 1, b)
          ∧ occursAt (closingTag tag) content b = true
          ∧ stop m = b + String.length (closingTag tag)
          ∧ ∀ q, b < q → occursAt (closingTag tag) content q = false)
       ∨ (groups m !! 2 = None
          ∧ occursAt "/>" content a = true
          ∧ stop m = a + 2)).
Proof.
  unfold exec, occursAt. set (cs := chars content).
  intros (n & _ & Hrun)%search_Some. change (0 + n) with n in Hrun.
  rewrite markupPattern_run in Hrun.
  destruct (isPrefix (chars (openingTag tag)) (drop n cs)) eqn:Hopen; [|done].
  rewrite length_chars in Hrun. cbv zeta in Hrun.
  remember (n + String.length (openingTag tag)) as p eqn:Hp.
  apply lazyStar_Some in Hrun as (d & _ & Hk & Hmin).
  rewrite !drop_drop in Hk.
  replace (n + (String.length (openingTag tag) + d)) with (p + d) in Hk by lia.
  assert (∀ j, p ≤ j → j < p + d →
            isPrefix (chars "/>") (drop j cs) = false
            ∧ (isPrefix (chars ">") (drop j cs) = true →
               ∀ q, j < q → isPrefix (chars (closingTag tag)) (drop q cs) = false))
    as Hshortest.
  { intros j Hpj Hjd. specialize (Hmin (j - p) ltac:(lia)).
    rewrite !drop_drop in Hmin.
    replace (n + (String.length (openingTag tag) + (j - p))) with j in Hmin by lia.
    replace (p + (j - p)) with j in Hmin by lia.
    destruct (run (innerAlternative tag) (drop j cs) j _ (finish n)) eqn:Hinner;
      [done|].
    split.
    - by destruct (isPrefix (chars "/>") (drop j cs)).
    - intros Hgt q Hq.
      pose proof (innerAlternative_None _ _ _ _ Hinner Hgt (q - j - 1)) as Hc.
      rewrite drop_drop in Hc.
      by replace (j + (1 + (q - j - 1))) with q in Hc by lia. }
  exists (p + d).
  destruct (run (innerAlternative tag) (drop (p + d) cs) (p + d) _ (finish n))
    as [m'|] eqn:Hinner.
  - injection Hk as ->.
    apply innerAlternative_Some in Hinner as (Hgt & b & Hclose & -> & Hlast).
    rewrite drop_drop in Hclose. cbn [index stop groups]. rewrite <- Hp.
    split; [done|]. split; [lia|]. split.
    { rewrite lookup_insert_ne by done. by rewrite lookup_insert_eq. }
    split; [done|]. left. exists (p + d + 1 + b).
    split; [done|]. split; [lia|]. split; [by rewrite lookup_insert_eq|].
    split; [by replace (p + d + 1 + b) with (p + d + (1 + b)) by lia|].
    split; [by rewrite length_chars|].
    intros q Hq. specialize (Hlast (q - (p + d) - 1) ltac:(lia)).
    rewrite drop_drop in Hlast.
    by replace (p + d + (1 + (q - (p + d) - 1))) with q in Hlast by lia.
  - destruct (isPrefix (chars "/>") (drop (p + d) cs)) eqn:Hself; [|done].
    injection Hk as <-. cbn [index stop groups]. rewrite <- Hp.
    split; [done|]. split; [lia|]. split; [by rewrite lookup_insert_eq|].
    split; [done|]. right.
    split; [by rewrite lookup_insert_ne|]. done.
Qed.

(** Without an opening [<tag] in the content there is no match. *)
Lemma markupPattern_no_opening content :
  (∀ j, occursAt (openingTag tag) content j = false) →
  exec (markupPattern tag) content = None.
Proof.
  unfold occursAt, exec. intros Hnone. apply search_None. intros n _.
  by rewrite markupPattern_run, Hnone.
Qed.

End MarkupPatternProperties.

(** ** Segments of a string *)

Lemma take_segments {A} (l : list A) i j k :
  i ≤ j → j ≤ k →
  take (k - i) (drop i l) = take (j - i) (drop i l) ++ take (k - j) (drop j l).
Proof.
  intros Hij Hjk.
  replace (k - i) with ((j - i) + (k - j)) by lia.
  rewrite <- take_take_drop, drop_drop.
  by replace (i + (j - i)) with j by lia.
Qed.

Lemma slice_segments s i j k :
  i ≤ j → j ≤ k → slice s i k = slice s i j +:+ slice s j k.
Proof.
  intros Hij Hjk. unfold slice.
  by rewrite <- str_app, (take_segments _ i j k).
Qed.

Lemma slice_occurrence needle content j :
  occursAt needle content j = true →
  slice content j (j + String.length needle) = needle.
Proof.
  unfold occursAt, slice. intros [Htake _]%isPrefix_take.
  replace (j + String.length needle - j) with (length (chars needle))
    by (rewrite length_chars; lia).
  by rewrite Htake, str_chars.
Qed.

(** ** The markup entry point *)

Section MarkupProperties.

Context {Ext : Type} (host : Host.t Ext) (cfg : Config.t Ext).

Lemma replacePass_off content filename w :
  truthy (transformerOption cfg "replace") = false →
  replacePass host cfg content filename w = Run.mk (Ok content) w [].
Proof. intros Hoff. unfold replacePass. by rewrite Hoff. Qed.

Lemma markup_no_match content filename w content' w1 t1 :
  replacePass host cfg content filename w = Run.mk (Ok content') w1 t1 →
  RegExp.exec (markupPattern (Config.markupTagName cfg)) content' = None →
  markup host cfg (MarkupInput.mk content filename) w =
    let r := markupTransformer host cfg (SvelteFile.mk (Some content') ∅ filename) w1 in
    Run.mk (Run.outcome r) (Run.world r) (t1 ++ Run.trace r).
Proof.
  intros Hreplace Hexec. unfold markup.
  rewrite (run_bind_tail _ _ _ _ _ _ Hreplace). by rewrite Hexec.
Qed.

Lemma markup_match content filename w content' w1 t1 m attributesStr
    transformed w2 t2 :
  replacePass host cfg content filename w = Run.mk (Ok content') w1 t1 →
  RegExp.exec (markupPattern (Config.markupTagName cfg)) content' = Some m →
  RegExp.group content' m 1 = Some attributesStr →
  markupTransformer host cfg
    (SvelteFile.mk (RegExp.group content' m 2)
       (parseAttributes attributesStr) filename) w1 =
    Run.mk (Ok transformed) w2 t2 →
  markup host cfg (MarkupInput.mk content filename) w =
    Run.mk
      (Ok (Processed.mk
             (slice content' 0 (RegExp.index m)
              +:+ Processed.code transformed
              +:+ sliceFrom content'
                    (RegExp.index m + String.length (RegExp.matched content' m)))
             (Processed.map transformed)
             (Processed.dependencies transformed)
             None))
      w2 (t1 ++ t2).
Proof.
  intros Hreplace Hexec Hattrs Hpipe. unfold markup.
  rewrite (run_bind_tail _ _ _ _ _ _ Hreplace). rewrite Hexec, Hattrs.
  unfold bind. rewrite Hpipe. simpl. by rewrite app_nil_r.
Qed.

(** C1. Take a container tag name free of pattern syntax.  When the
    container pattern matches the document (the content after the
    optional replace pass), [markup] returns the document with exactly
    the matched span replaced by the code the markup pipeline made of
    the inner code: the text before the start offset of the match and
    the text after start offset plus match length are those of the
    document, code unit by code unit, whatever they contain.  The map
    and the dependencies are those of the pipeline. *)
Theorem markup_replaces_exactly_the_matched_span
    content filename w content' w1 t1 m :
  plainTagName (Config.markupTagName cfg) = true →
  replacePass host cfg content filename w = Run.mk (Ok content') w1 t1 →
  RegExp.exec (markupPattern (Config.markupTagName cfg)) content' = Some m →
  let fullMatch := RegExp.matched content' m in
  let before := slice content' 0 (RegExp.index m) in
  let after :=
    sliceFrom content' (RegExp.index m + String.length fullMatch) in
  content' = before +:+ fullMatch +:+ after
  ∧ ∃ attributesStr,
      RegExp.group content' m 1 = Some attributesStr
      ∧ ∀ transformed w2 t2,
          markupTransformer host cfg
            (SvelteFile.mk (RegExp.group content' m 2)
               (parseAttributes attributesStr) filename) w1 =
            Run.mk (Ok transformed) w2 t2 →
          markup host cfg (MarkupInput.mk content filename) w =
            Run.mk
              (Ok (Processed.mk
                     (before +:+ Processed.code transformed +:+ after)
                     (Processed.map transformed)
                     (Processed.dependencies transformed)
                     None))
              w2 (t1 ++ t2).
Proof.
  intros _ Hreplace Hexec fullMatch before after. split.
  - subst fullMatch before after.
    rewrite (exec_matched_length _ _ _ Hexec).
    apply slice_partition. by apply exec_span in Hexec as [? _].
  - destruct (markupPattern_exec _ _ _ Hexec) as (a & _ & _ & Hg1 & _).
    eexists. split.
    + unfold RegExp.group. rewrite Hg1. reflexivity.
    + intros transformed w2 t2 Hpipe.
      eapply markup_match; [done | done | | done].
      unfold RegExp.group. by rewrite Hg1.
Qed.

(** C6. When the container pattern does not match the document (the
    content after the optional replace pass), [markup] runs the markup
    pipeline on the whole of it with an empty attributes object, and
    what the pipeline returns or throws is the result: nothing is
    spliced and the miss itself raises nothing. *)
Theorem markup_without_container_transforms_whole_document
    content filename w content' w1 t1 :
  replacePass host cfg content filename w = Run.mk (Ok content') w1 t1 →
  RegExp.exec (markupPattern (Config.markupTagName cfg)) content' = None →
  let whole :=
    markupTransformer host cfg (SvelteFile.mk (Some content') ∅ filename) w1 in
  markup host cfg (MarkupInput.mk content filename) w =
    Run.mk (Run.outcome whole) (Run.world whole) (t1 ++ Run.trace whole).
Proof. intros Hreplace Hexec. by apply markup_no_match. Qed.

End MarkupProperties.

(** C2, as the code has it.  For a tag name free of pattern syntax, a
    match of the container pattern is [<tag], the attribute string, and
    then either [>], the inner code and [</tag>], or [/>].  The attribute
    capture is lazy: it stops at the first position where one of the two
    endings fits.  The inner capture is greedy: it ends where the last
    closing tag of the document starts, so that no closing tag starts
    after the end of the inner code. *)
Theorem inner_code_ends_at_last_closing_tag tag content m :
  plainTagName tag = true →
  RegExp.exec (markupPattern tag) content = Some m →
  ∃ attributesStr,
    RegExp.group content m 1 = Some attributesStr
    ∧ (∀ j, RegExp.index m + String.length (openingTag tag) ≤ j →
            j < RegExp.index m + String.length (openingTag tag +:+ attributesStr) →
            occursAt "/>" content j = false
            ∧ (occursAt ">" content j = true →
               ∀ q, j < q → occursAt (closingTag tag) content q = false))
    ∧ ((∃ inner,
          RegExp.group content m 2 = Some inner
          ∧ RegExp.matched content m =
              openingTag tag +:+ attributesStr +:+ ">" +:+ inner +:+ closingTag tag
          ∧ ∀ q, RegExp.index m
                 + String.length (openingTag tag +:+ attributesStr +:+ ">" +:+ inner) < q →
                 occursAt (closingTag tag) content q = false)
       ∨ (RegExp.group content m 2 = None
          ∧ RegExp.matched content m = openingTag tag +:+ attributesStr +:+ "/>")).
Proof.
  intros _ Hexec.
  destruct (exec_span _ _ _ Hexec) as [_ Hstop].
  destruct (markupPattern_exec _ _ _ Hexec)
    as (a & Hopen & Hpa & Hg1 & Hlazy & Hend).
  set (i := RegExp.index m) in *.
  set (p := i + String.length (openingTag tag)) in *.
  assert (Hlen : ∀ s1 s2, String.length (s1 +:+ s2) = String.length s1 + String.length s2).
  { intros s1 s2. by rewrite <- !length_chars, chars_append, length_app. }
  assert (a ≤ String.length content) as Ha.
  { destruct Hend as [(b & _ & ? & _ & _ & ? & _)|(_ & _ & ?)]; lia. }
  assert (String.length (slice content p a) = a - p) as Hattr
    by (by apply length_slice).
  exists (slice content p a). split; [|split].
  - unfold RegExp.group. by rewrite Hg1.
  - intros j Hj1 Hj2. apply Hlazy; [done|]. rewrite Hlen, Hattr in Hj2. lia.
  - destruct Hend as [(b & Hgt & Hab & Hg2 & Hclose & Hstop' & Hlast)
                     |(Hg2 & Hself & Hstop')].
    + left. exists (slice content (a + 1) b).
      assert (String.length (slice content (a + 1) b) = b - (a + 1)) as Hinner
        by (apply length_slice; lia).
      split; [unfold RegExp.group; by rewrite Hg2|]. split.
      * unfold RegExp.matched. fold i. rewrite Hstop'.
        rewrite (slice_segments _ i p) by lia.
        rewrite (slice_segments _ p a) by lia.
        rewrite (slice_segments _ a (a + 1)) by lia.
        rewrite (slice_segments _ (a + 1) b) by lia.
        rewrite (slice_occurrence _ _ _ Hclose).
        change (a + 1) with (a + String.length ">") at 1.
        rewrite (slice_occurrence ">" _ _ Hgt).
        unfold p. by rewrite (slice_occurrence _ _ _ Hopen).
      * intros q Hq. apply Hlast.
        rewrite !Hlen, Hattr, Hinner in Hq.
        change (String.length ">") with 1 in Hq. lia.
    + right. split; [unfold RegExp.group; by rewrite Hg2|].
      unfold RegExp.matched. fold i. rewrite Hstop'.
      rewrite (slice_segments _ i p) by lia.
      rewrite (slice_segments _ p a) by lia.
      change (a + 2) with (a + String.length "/>").
      rewrite (slice_occurrence "/>" _ _ Hself).
      unfold p. by rewrite (slice_occurrence _ _ _ Hopen).
Qed.

(** C3, as the code has it.  The configured tag name is put in lower
    case when the preprocessor is set up, and the document is compared
    with that lower-case name code unit by code unit: for a name free of
    pattern syntax, a document in which [<] followed by the lower-case
    name does not occur (one that writes the tag in capitals, say) is
    not matched, and [markup] transforms the whole document. *)
Theorem container_tag_is_matched_in_lower_case_only
    {Ext} (host : Host.t Ext) (options : AutoPreprocessOptions.t Ext)
    name content filename w content' w1 t1 :
  AutoPreprocessOptions.markupTagName options = Some name →
  plainTagName (toLocaleLowerCase name) = true →
  replacePass host (configure options) content filename w =
    Run.mk (Ok content') w1 t1 →
  (∀ j, occursAt (openingTag (toLocaleLowerCase name)) content' j = false) →
  Config.markupTagName (configure options) = toLocaleLowerCase name
  ∧ RegExp.exec (markupPattern (toLocaleLowerCase name)) content' = None
  ∧ markup host (configure options) (MarkupInput.mk content filename) w =
      let whole :=
        markupTransformer host (configure options)
          (SvelteFile.mk (Some content') ∅ filename) w1 in
      Run.mk (Run.outcome whole) (Run.world whole) (t1 ++ Run.trace whole).
Proof.
  intros Hname _ Hreplace Hnone.
  assert (Config.markupTagName (configure options) = toLocaleLowerCase name)
    as Htag by (unfold configure; by rewrite Hname).
  pose proof (markupPattern_no_opening _ _ Hnone) as Hexec.
  split; [done|]. split; [done|].
  apply markup_no_match; [done|]. by rewrite Htag.
Qed.

(** ** The option resolver *)

Section OptionProperties.

Context {Ext : Type} (host : Host.t Ext) (cfg : Config.t Ext).

Lemma getTransformerOptions_object name alias :
  isFunction (transformerOption cfg name) = false →
  isFunction (transformerOption cfg (propertyKey alias)) = false →
  isDisabled (transformerOption cfg name) = false →
  isDisabled (transformerOption cfg (propertyKey alias)) = false →
  Some name ≠ alias →
  let layered :=
    assign
      (assign
         (assign ∅ (ownProperties (transformerOption cfg name)))
         (match ALIAS_OPTION_OVERRIDES !! propertyKey alias with
          | Some override => override
          | None => ∅
          end))
      (ownProperties (transformerOption cfg (propertyKey alias))) in
  getTransformerOptions host cfg (Some name) alias =
    OObject
      (if Config.sourceMap cfg then
         match Host.SOURCE_MAP_PROP_MAP host !! name with
         | Some (propName, value) => <[propName := value]> layered
         | None => layered
         end
       else layered).
Proof.
  intros Hfn Hfa Hdn Hda Hne. unfold getTransformerOptions.
  cbn [propertyKey].
  destruct (decide (Some name ≠ alias)); [|done].
  destruct (transformerOption cfg name) as [| |[|]| |],
           (transformerOption cfg (propertyKey alias)) as [| |[|]| |];
    try done.
Qed.

(** C7. Take an alias that differs from the canonical name and has an
    entry in the alias-override table, and user options that, under the
    name and under the alias, are neither a function nor [false].  The
    resolved options are an object.  On every key but the one that the
    source-map step sets (if it sets one), the layers show in this
    order: an option given under the alias wins; otherwise the override
    of the table is there, also when nothing at all is given under the
    alias; otherwise the option given under the name. *)
Theorem alias_override_is_layered name alias override :
  alias ≠ name →
  ALIAS_OPTION_OVERRIDES !! alias = Some override →
  isFunction (transformerOption cfg name) = false →
  isFunction (transformerOption cfg alias) = false →
  isDisabled (transformerOption cfg name) = false →
  isDisabled (transformerOption cfg alias) = false →
  let nameProps := ownProperties (transformerOption cfg name) in
  let aliasProps := ownProperties (transformerOption cfg alias) in
  ∃ opts,
    getTransformerOptions host cfg (Some name) (Some alias) = OObject opts
    ∧ ∀ key, ¬ setsSourceMapProp host cfg name key →
        (∀ v, aliasProps !! key = Some v → opts !! key = Some v)
        ∧ (aliasProps !! key = None →
           ∀ v, override !! key = Some v → opts !! key = Some v)
        ∧ (aliasProps !! key = None → override !! key = None →
           opts !! key = nameProps !! key).
Proof.
  intros Hne Hover Hfn Hfa Hdn Hda nameProps aliasProps.
  rewrite (getTransformerOptions_object name (Some alias))
    by (simpl; congruence).
  simpl propertyKey. rewrite Hover. fold nameProps aliasProps.
  eexists. split; [reflexivity|]. intros key Hkey.
  assert (∀ layered : gmap string Value,
            (if Config.sourceMap cfg then
               match Host.SOURCE_MAP_PROP_MAP host !! name with
               | Some (propName, value) => <[propName := value]> layered
               | None => layered
               end
             else layered) !! key = layered !! key) as ->.
  { intros layered. destruct (Config.sourceMap cfg) eqn:Hsm; [|done].
    destruct (Host.SOURCE_MAP_PROP_MAP host !! name) as [[propName value]|] eqn:Hprop;
      [|done].
    apply lookup_insert_ne. intros ->. apply Hkey. split; eauto. }
  unfold assign. split; [|split].
  - intros v Hv. by apply lookup_union_Some_l.
  - intros Ha v Hv. rewrite lookup_union_r by done.
    by apply lookup_union_Some_l.
  - intros Ha Ho. rewrite !lookup_union_r by done.
    rewrite lookup_union_l; [done | apply lookup_empty].
Qed.

End OptionProperties.

(** ** The style entry point *)

Section StyleProperties.

Context {Ext : Type} (host : Host.t Ext) (cfg : Config.t Ext).

Lemma postcssStage_dependencies attributes filename code map dependencies
    w staged w1 t1 :
  postcssStage host cfg attributes filename code map dependencies w =
    Run.mk (Ok staged) w1 t1 →
  (truthy (transformerOption cfg "postcss") = false
   ∧ staged = (code, map, dependencies))
  ∨ (truthy (transformerOption cfg "postcss") = true
     ∧ ∃ transformed w0 t0,
         runTransformer host (Some "postcss") (getTransformerOptions host cfg (Some "postcss") None)
           (TransformerArgs.mk code map filename (Some attributes)) w =
           Run.mk (Ok transformed) w0 t0
         ∧ staged = (Processed.code transformed, Processed.map transformed,
                     Host.concat host dependencies
                       (Processed.dependencies transformed))).
Proof.
  unfold postcssStage.
  destruct (truthy (transformerOption cfg "postcss")).
  - intros Hrun. right. split; [done|].
    unfold bind, callPure, ret in Hrun.
    cbn [Run.outcome Run.world Run.trace] in Hrun.
    destruct (runTransformer host (Some "postcss") _ _ w) as [[transformed|e] w0 t0] eqn:Hpost;
      cbn [Run.outcome Run.world Run.trace] in Hrun; [|done].
    injection Hrun as <- _ _. eauto.
  - intros [= <- _ _]. by left.
Qed.

(** C10. In [style], the dependencies that the global-style stage
    reports are dropped.  With the post-processing toolchain detected,
    the result takes its code and map from the global-style stage and
    its dependencies from the stage before: those of the style pipeline,
    merged with those of the postcss stage when that stage runs.  With
    the toolchain not detected, the result is that of the style
    pipeline. *)
Theorem style_drops_global_style_dependencies
    content attributes filename w piped w0 t0 installed w1 :
  cssTransformer host cfg (SvelteFile.mk (Some content) attributes filename) w =
    Run.mk (Ok piped) w0 t0 →
  Host.hasDepInstalled host "postcss" w0 = (Ok installed, w1) →
  (installed = false →
   style host cfg (BlockInput.mk content attributes filename) w =
     Run.mk
       (Ok (Processed.mk (Processed.code piped) (Processed.map piped)
              (Processed.dependencies piped) None))
       w1 (t0 ++ [EHasDepInstalled "postcss"]))
  ∧ (installed = true →
     ∀ code map dependencies w2 t2 globalStyled w3 t3,
       postcssStage host cfg attributes filename
         (Processed.code piped) (Processed.map piped)
         (Processed.dependencies piped) w1 =
         Run.mk (Ok (code, map, dependencies)) w2 t2 →
       globalStyleStage host cfg attributes filename code map w2 =
         Run.mk (Ok globalStyled) w3 t3 →
       style host cfg (BlockInput.mk content attributes filename) w =
         Run.mk
           (Ok (Processed.mk (Processed.code globalStyled)
                  (Processed.map globalStyled) dependencies None))
           w3 (t0 ++ [EHasDepInstalled "postcss"] ++ t2 ++ t3)
       ∧ ((truthy (transformerOption cfg "postcss") = false
           ∧ dependencies = Processed.dependencies piped)
          ∨ (truthy (transformerOption cfg "postcss") = true
             ∧ ∃ postcssed w' t',
                 runTransformer host (Some "postcss")
                   (getTransformerOptions host cfg (Some "postcss") None)
                   (TransformerArgs.mk (Processed.code piped)
                      (Processed.map piped) filename (Some attributes)) w1 =
                   Run.mk (Ok postcssed) w' t'
                 ∧ dependencies =
                     Host.concat host (Processed.dependencies piped)
                       (Processed.dependencies postcssed)))).
Proof.
  intros Hpipe Hdep.
  destruct piped as [code0 map0 deps0 diags0]. simpl.
  split; intros ->.
  - unfold style.
    rewrite (run_bind_tail _ _ _ _ _ _ Hpipe).
    rewrite (run_bind_tail _ _ _ _ _ _ (run_call _ _ _ _ _ Hdep)).
    simpl. by rewrite ?app_nil_r.
  - intros code map dependencies w2 t2 globalStyled w3 t3 Hstage Hglobal.
    split.
    + unfold style.
      rewrite (run_bind_tail _ _ _ _ _ _ Hpipe).
      rewrite (run_bind_tail _ _ _ _ _ _ (run_call _ _ _ _ _ Hdep)).
      rewrite (run_bind_tail _ _ _ _ _ _ Hstage).
      rewrite (run_bind_tail _ _ _ _ _ _ Hglobal).
      simpl. by rewrite ?app_nil_r.
    + apply postcssStage_dependencies in Hstage
        as [[Hoff [= _ _ <-]]|(Hon & transformed & w' & t' & Hrun & [= _ _ ->])].
      * by left.
      * right. split; [done|]. eauto.
Qed.

End StyleProperties.

(** * Concrete documents *)

(** The attribute string of a container tag. *)
Example parseAttributes_tokens :
  parseAttributes " lang='pug'  scoped a=b=c" =
    {[ "lang" := VString "pug"; "scoped" := VBool true; "a" := VString "b" ]}.
Proof. vm_compute. reflexivity. Qed.

(** A self-closing container has no inner code. *)
Example self_closing_container :
  ∃ m, RegExp.exec (markupPattern "template") "<p/><template src='./x.pug' />" = Some m
       ∧ RegExp.index m = 4
       ∧ RegExp.group "<p/><template src='./x.pug' />" m 1 = Some " src='./x.pug' "
       ∧ RegExp.group "<p/><template src='./x.pug' />" m 2 = None.
Proof. eexists. repeat split; vm_compute; reflexivity. Qed.

(** The [sass] alias of [scss] asks for the indented syntax, with no
    option given by the user. *)
Example sass_alias_without_options :
  getTransformerOptions Sample.host (configure Sample.noOptions)
    (Some "scss") (Some "sass") =
    OObject {[ "indentedSyntax" := VBool true ]}.
Proof. vm_compute. reflexivity. Qed.

(** With [sourceMap] set, the source-map property of the language comes
    last and wins over what the user gave under the alias. *)
Example source_map_step_comes_last :
  getTransformerOptions Sample.host
    (configure
       (AutoPreprocessOptions.mk None None None None (Some true)
          {[ "sass" := OObject {[ "sourceMap" := VBool false ]} ]}))
    (Some "scss") (Some "sass") =
    OObject {[ "indentedSyntax" := VBool true; "sourceMap" := VBool true ]}.
Proof. vm_compute. reflexivity. Qed.

(** An alias registered at set-up resolves to its canonical name; an
    alias that is not registered resolves to itself. *)
Example registered_alias_resolves :
  let options : AutoPreprocessOptions.t unit :=
    AutoPreprocessOptions.mk (Some [("foo", "bar")]) None None None None ∅ in
  let registry :=
    World.registry (Run.world (autoPreprocess Sample.host options Sample.world)) in
  getLanguageFromAlias registry (Some "foo") = Some "bar"
  ∧ getLanguageFromAlias registry (Some "sass") = Some "scss"
  ∧ getLanguageFromAlias registry (Some "stylus") = Some "stylus".
Proof. repeat split; vm_compute; reflexivity. Qed.

(** C1 on a document whose trailing text holds a second [<template>]:
    the text around the match comes back as it was. *)
Lemma markup_replaces_exactly_the_matched_span_witness :
  Run.outcome
    (markup Sample.host (configure Sample.noOptions)
       (MarkupInput.mk Sample.pugDocument None) Sample.world) =
    Ok (Processed.mk "<h1>x</h1>/* pug */h1 Hi<p><template></p>"
          None (Some ["pug.dep"]) None).
Proof.
  edestruct (markup_replaces_exactly_the_matched_span
               Sample.host (configure Sample.noOptions)
               Sample.pugDocument None Sample.world)
    as [_ (attributesStr & Hattrs & Hsplice)];
    [reflexivity | reflexivity | reflexivity |].
  vm_compute in Hattrs. injection Hattrs as <-.
  erewrite Hsplice; [|reflexivity].
  vm_compute. reflexivity.
Defined.

(** C6 on a document without a container. *)
Lemma markup_without_container_transforms_whole_document_witness :
  RegExp.exec (markupPattern "template") Sample.plainDocument = None
  ∧ Run.outcome
      (markup Sample.host (configure Sample.noOptions)
         (MarkupInput.mk Sample.plainDocument None) Sample.world) =
    Ok (Processed.mk Sample.plainDocument None (Some []) None).
Proof.
  split; [reflexivity|].
  rewrite (markup_without_container_transforms_whole_document
             Sample.host (configure Sample.noOptions)
             Sample.plainDocument None Sample.world Sample.plainDocument Sample.world []
             eq_refl eq_refl).
  vm_compute. reflexivity.
Defined.

(** C2 fails as stated: with two closing tags in the document the inner
    code runs up to the second one. *)
Lemma inner_code_runs_past_the_first_closing_tag :
  ∃ m, RegExp.exec (markupPattern "template") Sample.twoClosingTags = Some m
       ∧ RegExp.group Sample.twoClosingTags m 2 = Some "a</template>b"
       ∧ RegExp.group Sample.twoClosingTags m 2 ≠ Some "a".
Proof.
  eexists. split; [reflexivity|]. split; [reflexivity|]. vm_compute. discriminate.
Defined.

(** C2, as the code has it, on the same document: no closing tag starts
    after the end of the inner code. *)
Lemma inner_code_ends_at_last_closing_tag_witness :
  ∃ m, RegExp.exec (markupPattern "template") Sample.twoClosingTags = Some m
       ∧ RegExp.matched Sample.twoClosingTags m =
           "<template" +:+ "" +:+ ">" +:+ "a</template>b" +:+ "</template>"
       ∧ ∀ q, 23 < q → occursAt "</template>" Sample.twoClosingTags q = false.
Proof.
  eexists. split; [reflexivity|].
  edestruct (inner_code_ends_at_last_closing_tag "template" Sample.twoClosingTags)
    as (attributesStr & Hattrs & _ & [(inner & Hinner & Hmatched & Hlast)|[Hnone _]]);
    [reflexivity | reflexivity | |].
  - vm_compute in Hattrs. injection Hattrs as <-.
    vm_compute in Hinner. injection Hinner as <-.
    split; [exact Hmatched | exact Hlast].
  - vm_compute in Hnone. discriminate Hnone.
Defined.

(** C3 fails as stated: configured as [template], the preprocessor does
    not find a container written in capitals; the document goes through
    the markup pipeline as a whole and its inner code stays as it is. *)
Lemma upper_case_container_is_not_matched :
  Config.markupTagName (configure Sample.templateOptions) = "template"
  ∧ RegExp.exec
      (markupPattern (Config.markupTagName (configure Sample.templateOptions)))
      Sample.upperCaseDocument = None
  ∧ markup Sample.host (configure Sample.templateOptions)
      (MarkupInput.mk Sample.upperCaseDocument None) Sample.world =
    markupTransformer Sample.host (configure Sample.templateOptions)
      (SvelteFile.mk (Some Sample.upperCaseDocument) ∅ None) Sample.world
  ∧ Run.outcome
      (markup Sample.host (configure Sample.templateOptions)
         (MarkupInput.mk Sample.upperCaseDocument None) Sample.world) =
    Ok (Processed.mk Sample.upperCaseDocument None (Some []) None).
Proof. repeat split; vm_compute; reflexivity. Defined.

(** C3, as the code has it: configured as [Template], the preprocessor
    looks for [<template]. *)
Lemma container_tag_is_matched_in_lower_case_only_witness :
  let options : AutoPreprocessOptions.t unit :=
    AutoPreprocessOptions.mk None (Some "Template") None None None ∅ in
  Config.markupTagName (configure options) = "template"
  ∧ Run.outcome
      (markup Sample.host (configure options)
         (MarkupInput.mk Sample.upperCaseDocument None) Sample.world) =
    Ok (Processed.mk Sample.upperCaseDocument None (Some []) None).
Proof.
  intros options.
  edestruct (container_tag_is_matched_in_lower_case_only
               Sample.host options "Template" Sample.upperCaseDocument None Sample.world)
    as (Htag & _ & Hmarkup);
    [reflexivity | reflexivity | reflexivity | |].
  - intros j.
    do 38 (destruct j as [|j]; [reflexivity|]). reflexivity.
  - split; [exact Htag|]. rewrite Hmarkup. vm_compute. reflexivity.
Defined.

(** C5 on a plain style block with [css] on the preserve list: the
    dependency of the tag info is not in the result. *)
Lemma preserved_block_is_returned_as_is_witness :
  (Sample.getTagInfo Sample.plainStyle Sample.world).1 = Ok Sample.plainStyleInfo
  ∧ getTransformerTo Sample.host (configure Sample.preserveCssOptions)
      Style "css" Sample.plainStyle Sample.world =
    Run.mk (Ok (Processed.mk "a{}" None None None)) Sample.world
      [EGetTagInfo Sample.plainStyle].
Proof.
  split; [reflexivity|].
  apply (preserved_block_is_returned_as_is
           Sample.host (configure Sample.preserveCssOptions)
           Style "css" Sample.plainStyle Sample.world Sample.plainStyleInfo Sample.world
           "css" "css");
    [reflexivity | reflexivity |].
  left. apply list_elem_of_here.
Defined.

(** C4 fails as stated, in two ways.  A plain style block has the target
    language [css]; with [css] on the preserve list it comes back without
    the dependency that its tag info carries.  And a block in the target
    language comes back prepared: here without the carriage return that
    its content has. *)
Lemma target_language_block_is_not_returned_as_is :
  ((Sample.getTagInfo Sample.plainStyle Sample.world).1 = Ok Sample.plainStyleInfo
   ∧ withDefaultLanguage (configure Sample.preserveCssOptions) Style
       (World.registry Sample.world)
       (TagInfo.lang Sample.plainStyleInfo) (TagInfo.alias Sample.plainStyleInfo) =
       (Some "css", Some "css")
   ∧ TagInfo.dependencies Sample.plainStyleInfo = Some ["./a.css"]
   ∧ Run.outcome
       (cssTransformer Sample.host (configure Sample.preserveCssOptions)
          Sample.plainStyle Sample.world) =
       Ok (Processed.mk "a{}" None None None))
  ∧ (SvelteFile.content Sample.windowsStyle =
       Some (str ["a"%char; Sample.CR; Sample.LF; "b"%char])
     ∧ Run.outcome
         (cssTransformer Sample.host (configure Sample.noOptions)
            Sample.windowsStyle Sample.world) =
         Ok (Processed.mk (str ["a"%char; Sample.LF; "b"%char])
               None (Some []) None)
     ∧ str ["a"%char; Sample.LF; "b"%char]
         ≠ str ["a"%char; Sample.CR; Sample.LF; "b"%char]).
Proof.
  split.
  - repeat split; vm_compute; reflexivity.
  - split; [reflexivity|]. split; [vm_compute; reflexivity|].
    vm_compute. discriminate.
Defined.

(** C4, as the code has it, on the same block with nothing preserved. *)
Lemma target_language_block_is_prepared_only_witness :
  Run.outcome
    (cssTransformer Sample.host (configure Sample.noOptions)
       Sample.plainStyle Sample.world) =
    Ok (Processed.mk "a{}" None (Some ["./a.css"]) None).
Proof.
  edestruct (target_language_block_is_prepared_only
               Sample.host (configure Sample.noOptions)
               Style "css" Sample.plainStyle Sample.world Sample.plainStyleInfo Sample.world
               "css" "css") as [_ Hsame];
    [reflexivity | reflexivity | | | reflexivity |].
  - vm_compute. apply not_elem_of_nil.
  - vm_compute. apply not_elem_of_nil.
  - apply Hsame. reflexivity.
Defined.

(** C7 with options given under [scss] and none under [sass]. *)
Lemma alias_override_is_layered_witness :
  ∃ opts,
    getTransformerOptions Sample.host (configure Sample.scssOptions)
      (Some "scss") (Some "sass") =
      OObject opts
    ∧ opts !! "indentedSyntax" = Some (VBool true)
    ∧ opts !! "precision" = Some (VNumber 8).
Proof.
  destruct (alias_override_is_layered
              Sample.host (configure Sample.scssOptions) "scss" "sass"
              {[ "indentedSyntax" := VBool true ]})
    as (opts & Hopts & Hkeys);
    [discriminate | reflexivity | reflexivity | reflexivity
     | reflexivity | reflexivity |].
  exists opts. split; [exact Hopts|]. split.
  - destruct (Hkeys "indentedSyntax") as (_ & Hoverride & _).
    + intros [Hsm _]. discriminate Hsm.
    + apply Hoverride; reflexivity.
  - destruct (Hkeys "precision") as (_ & _ & Hname).
    + intros [Hsm _]. discriminate Hsm.
    + rewrite Hname; reflexivity.
Defined.

(** C10: the sample global-style transformer reports [globalStyle.dep],
    which is not in the result. *)
Lemma style_drops_global_style_dependencies_witness :
  Run.outcome
    (style Sample.host (configure Sample.postcssOptions) Sample.sassBlock Sample.world) =
    Ok (Processed.mk "/* globalStyle *//* postcss *//* scss */a{}" None
          (Some ["scss.dep"; "postcss.dep"]) None).
Proof.
  edestruct (style_drops_global_style_dependencies
               Sample.host (configure Sample.postcssOptions)
               "a{}" {[ "lang" := VString "sass" ]} None Sample.world)
    as [_ Hon]; [reflexivity | reflexivity |].
  edestruct (Hon eq_refl) as [Hstyle _]; [reflexivity | reflexivity |].
  unfold Sample.sassBlock. rewrite Hstyle. vm_compute. reflexivity.
Defined.

(** * Further properties *)

(** ** The option resolver, beyond the alias override *)

Section MoreOptionProperties.

Context {Ext : Type} (host : Host.t Ext) (cfg : Config.t Ext).

(** X1. Take a name and an alias that are not names of members of
    [Object.prototype].  The resolver returns a function, [false] or an
    object, never [true], [null] or [undefined].  When neither the
    option under the alias nor the one under the name is a function or
    [false], that is when each of them is missing, [null], [true] or an
    object, it returns an object: [true], [null] and a missing option all
    become an object.  When that object has a property, the property was
    given by the user under the name or the alias, or comes from the
    alias-override table or from the source-map table: [true], [null] and
    a missing option, on both sides and with neither table involved, give
    the empty object. *)
Theorem getTransformerOptions_shape name alias :
  isInherited (propertyKey name) = false →
  isInherited (propertyKey alias) = false →
  let nameOpts := transformerOption cfg (propertyKey name) in
  let aliasOpts := transformerOption cfg (propertyKey alias) in
  match getTransformerOptions host cfg name alias with
  | OFunction _ | OBool false | OObject _ => True
  | OUndefined | ONull | OBool true => False
  end
  ∧ (isFunction aliasOpts = false → isFunction nameOpts = false →
     isDisabled aliasOpts = false → isDisabled nameOpts = false →
     ∃ opts,
       getTransformerOptions host cfg name alias = OObject opts
       ∧ ∀ key v, opts !! key = Some v →
           ownProperties nameOpts !! key = Some v
           ∨ ownProperties aliasOpts !! key = Some v
           ∨ (∃ override,
                 ALIAS_OPTION_OVERRIDES !! propertyKey alias = Some override
                 ∧ override !! key = Some v)
           ∨ Host.SOURCE_MAP_PROP_MAP host !! propertyKey name = Some (key, v)).
Proof.
  intros _ _ nameOpts aliasOpts. split.
  - unfold getTransformerOptions. fold nameOpts aliasOpts.
    destruct nameOpts as [| |[|]| |], aliasOpts as [| |[|]| |]; exact I.
  - intros Hfa Hfn Hda Hdn.
    assert (∃ layered : gmap string Value,
              getTransformerOptions host cfg name alias =
                OObject
                  (if Config.sourceMap cfg then
                     match Host.SOURCE_MAP_PROP_MAP host !! propertyKey name with
                     | Some (propName, value) => <[propName := value]> layered
                     | None => layered
                     end
                   else layered)
              ∧ ∀ key v, layered !! key = Some v →
                  ownProperties nameOpts !! key = Some v
                  ∨ ownProperties aliasOpts !! key = Some v
                  ∨ (∃ override,
                        ALIAS_OPTION_OVERRIDES !! propertyKey alias = Some override
                        ∧ override !! key = Some v))
      as (layered & -> & Hlayered).
    { unfold getTransformerOptions. fold nameOpts aliasOpts.
      destruct (decide (name ≠ alias)).
      - exists (assign
                  (assign
                     (assign ∅ (ownProperties nameOpts))
                     (match ALIAS_OPTION_OVERRIDES !! propertyKey alias with
                      | Some override => override
                      | None => ∅
                      end))
                  (ownProperties aliasOpts)).
        split.
        + destruct nameOpts as [| |[|]| |], aliasOpts as [| |[|]| |];
            try done; reflexivity.
        + unfold assign. intros key v.
          rewrite !lookup_union_Some_raw, lookup_empty.
          intros [?|[_ [Hover|[_ [?|[_ [=]]]]]]]; [by right; left| |by left].
          right. right.
          destruct (ALIAS_OPTION_OVERRIDES !! propertyKey alias) as [override|];
            [eauto | by rewrite lookup_empty in Hover].
      - exists (assign ∅ (ownProperties nameOpts)). split.
        + destruct nameOpts as [| |[|]| |], aliasOpts as [| |[|]| |];
            try done; reflexivity.
        + unfold assign. intros key v.
          rewrite lookup_union_Some_raw, lookup_empty.
          intros [?|[_ [=]]]. by left. }
    eexists. split; [reflexivity|]. intros key v.
    destruct (Config.sourceMap cfg); [|by intros ?%Hlayered; tauto].
    destruct (Host.SOURCE_MAP_PROP_MAP host !! propertyKey name)
      as [[propName value]|]; [|by intros ?%Hlayered; tauto].
    destruct (decide (propName = key)) as [->|Hne].
    + rewrite lookup_insert_eq. intros [= ->]. by right; right; right.
    + rewrite lookup_insert_ne by done. intros ?%Hlayered. tauto.
Qed.

(** X2. Functions come first and are returned as they are: a function
    under the alias wins over everything under the name, [false]
    included; a function under the name wins over [false] under the
    alias.  Without a function, [false] on either side disables. *)
Theorem getTransformerOptions_precedence name alias :
  (∀ f, transformerOption cfg (propertyKey alias) = OFunction f →
        getTransformerOptions host cfg (Some name) alias = OFunction f)
  ∧ (∀ f, isFunction (transformerOption cfg (propertyKey alias)) = false →
          transformerOption cfg name = OFunction f →
          getTransformerOptions host cfg (Some name) alias = OFunction f)
  ∧ (isFunction (transformerOption cfg (propertyKey alias)) = false →
     isFunction (transformerOption cfg name) = false →
     isDisabled (transformerOption cfg (propertyKey alias)) = true
     ∨ isDisabled (transformerOption cfg name) = true →
     getTransformerOptions host cfg (Some name) alias = OBool false).
Proof.
  unfold getTransformerOptions. cbn [propertyKey]. split; [|split].
  - intros f ->. reflexivity.
  - intros f Hfa ->.
    by destruct (transformerOption cfg (propertyKey alias)) as [| |[|]| |].
  - intros Hfa Hfn Hd.
    destruct (transformerOption cfg name) as [| |[|]| |],
             (transformerOption cfg (propertyKey alias)) as [| |[|]| |];
      simpl in *; try done; destruct Hd; done.
Qed.

(** X3. With [sourceMap] set and a source-map property registered for
    the language, the resolved object carries that property with the
    registered value, whatever the user gave for it under the name or
    the alias. *)
Theorem source_map_property_wins name alias propName value :
  Config.sourceMap cfg = true →
  Host.SOURCE_MAP_PROP_MAP host !! name = Some (propName, value) →
  isFunction (transformerOption cfg name) = false →
  isFunction (transformerOption cfg (propertyKey alias)) = false →
  isDisabled (transformerOption cfg name) = false →
  isDisabled (transformerOption cfg (propertyKey alias)) = false →
  ∃ opts,
    getTransformerOptions host cfg (Some name) alias = OObject opts
    ∧ opts !! propName = Some value.
Proof.
  intros Hsm Hprop Hfn Hfa Hdn Hda. unfold getTransformerOptions.
  cbn [propertyKey]. rewrite Hsm, Hprop.
  destruct (transformerOption cfg name) as [| |[|]| |],
           (transformerOption cfg (propertyKey alias)) as [| |[|]| |];
    try done; eexists; (split; [reflexivity|]); apply lookup_insert_eq.
Qed.

(** X4. When the alias is the name itself, the alias-override table is
    not consulted: without the source-map step the resolved object is
    exactly what the user gave under that name.  A block whose language
    is [sass] by name gets no [indentedSyntax]. *)
Theorem no_override_when_alias_is_name name :
  Config.sourceMap cfg = false →
  isFunction (transformerOption cfg name) = false →
  isDisabled (transformerOption cfg name) = false →
  getTransformerOptions host cfg (Some name) (Some name) =
    OObject (ownProperties (transformerOption cfg name)).
Proof.
  intros Hsm Hfn Hdn. unfold getTransformerOptions. rewrite Hsm.
  simpl propertyKey.
  destruct (decide (Some name ≠ Some name)) as [Hne|_]; [done|].
  unfold assign.
  destruct (transformerOption cfg name) as [| |[|]| |]; try done;
    by rewrite (right_id_L ∅ (∪)).
Qed.

End MoreOptionProperties.

(** ** The pipeline on a block that is transformed *)

Section MorePipelineProperties.

Context {Ext : Type} (host : Host.t Ext) (cfg : Config.t Ext).

Lemma runTransformer_imports name options args w n :
  EImport n ∈ Run.trace (runTransformer host name options args w) →
  n = interpolate name.
Proof.
  destruct args as [content map filename attributes].
  assert (∀ c : TransformerCall.t Ext,
            EImport n ∈ Run.trace
              ((transformer <-
                  call (EImport (interpolate name))
                       (Host.importTransformer host (interpolate name)) ;;
                call (ETransformer (interpolate name) c) (transformer c)) w) →
            n = interpolate name)
    as Hmodule.
  { intros c. unfold bind, call.
    destruct (Host.importTransformer host (interpolate name) w) as [[t|e] w1];
      cbn [Run.outcome Run.world Run.trace].
    - destruct (t c w1). cbn [Run.trace app].
      rewrite !elem_of_cons, elem_of_nil. intros [[=]|[[=]|[]]]. done.
    - rewrite elem_of_cons, elem_of_nil. intros [[=]|[]]. done. }
  destruct options as [| |[|]|f|o]; cbn [runTransformer]; try apply Hmodule.
  - unfold ret. cbn [Run.trace]. by rewrite elem_of_nil.
  - unfold call. destruct (f _ w). cbn [Run.trace].
    rewrite elem_of_cons, elem_of_nil. intros [[=]|[]].
Qed.

(** The pipeline past the target-language test. *)
Lemma getTransformerTo_transforms type targetLanguage file w info w1 lang alias :
  Host.getTagInfo host file w = (Ok info, w1) →
  withDefaultLanguage cfg type (World.registry w1)
    (TagInfo.lang info) (TagInfo.alias info) = (lang, alias) →
  includes (Config.preserve cfg) lang = false →
  includes (Config.preserve cfg) alias = false →
  lang ≠ Some targetLanguage →
  let options := getTransformerOptions host cfg lang alias in
  let prepared := Host.prepareContent host options (TagInfo.content info) in
  let r :=
    runTransformer host lang options
      (TransformerArgs.mk prepared None (TagInfo.filename info)
         (Some (TagInfo.attributes info))) w1 in
  getTransformerTo host cfg type targetLanguage file w =
    Run.mk
      (match Run.outcome r with
       | Ok transformed =>
           Ok (Processed.mk
                 (Processed.code transformed)
                 (Processed.map transformed)
                 (Host.concat host (TagInfo.dependencies info)
                    (Processed.dependencies transformed))
                 (Processed.diagnostics transformed))
       | Throw e => Throw e
       end)
      (Run.world r)
      ([EGetTagInfo file;
        EGetTransformerOptions lang alias;
        EPrepareContent options (TagInfo.content info)] ++ Run.trace r).
Proof.
  intros Hinfo Hlang Hl Ha Htarget options prepared r.
  subst r prepared options.
  rewrite (getTransformerTo_entry _ _ _ _ _ _ _ _ _ _ Hinfo Hlang).
  rewrite Hl, Ha.
  cbn [orb]. cbv zeta.
  destruct (decide (lang = Some targetLanguage)) as [|_]; [done|].
  unfold bind, callPure, ret. cbn [Run.outcome Run.world Run.trace].
  destruct (runTransformer host lang _ _ w1) as [[t|e] w2 t2];
    cbn [Run.outcome Run.world Run.trace]; by rewrite ?app_nil_r.
Qed.

Lemma getTransformerTo_trace_preserved type targetLanguage file w info w1 lang alias :
  Host.getTagInfo host file w = (Ok info, w1) →
  withDefaultLanguage cfg type (World.registry w1)
    (TagInfo.lang info) (TagInfo.alias info) = (lang, alias) →
  includes (Config.preserve cfg) lang || includes (Config.preserve cfg) alias = true →
  Run.trace (getTransformerTo host cfg type targetLanguage file w) =
    [EGetTagInfo file].
Proof.
  intros Hinfo Hlang Hin.
  rewrite (getTransformerTo_entry _ _ _ _ _ _ _ _ _ _ Hinfo Hlang).
  by rewrite Hin.
Qed.

Lemma getTransformerTo_trace_target type file w info w1 lang alias :
  Host.getTagInfo host file w = (Ok info, w1) →
  withDefaultLanguage cfg type (World.registry w1)
    (TagInfo.lang info) (TagInfo.alias info) = (Some lang, alias) →
  includes (Config.preserve cfg) (Some lang) = false →
  includes (Config.preserve cfg) alias = false →
  ¬ ∃ n, EImport n ∈ Run.trace (getTransformerTo host cfg type lang file w).
Proof.
  intros Hinfo Hlang Hl Ha [n Hn]. revert Hn.
  rewrite (getTransformerTo_entry _ _ _ _ _ _ _ _ _ _ Hinfo Hlang).
  rewrite Hl, Ha.
  cbn [orb]. cbv zeta.
  destruct (decide (Some lang = Some lang)) as [_|]; [|done].
  unfold bind, callPure, ret. cbn [Run.outcome Run.world Run.trace app].
  rewrite !elem_of_cons, elem_of_nil. intros [|[|[|]]]; done.
Qed.

(** X5. A block in a language other than the target, not preserved, is
    run through [runTransformer] under the resolved options, on the
    prepared content, with the file name and the attributes of the tag
    info and no map.  On success the result is the transformer's, with
    the dependencies of the tag info put in front of the transformer's by
    [concat]; an error is passed on as it is. *)
Theorem other_language_block_is_transformed
    type targetLanguage file w info w1 lang alias :
  Host.getTagInfo host file w = (Ok info, w1) →
  withDefaultLanguage cfg type (World.registry w1)
    (TagInfo.lang info) (TagInfo.alias info) = (Some lang, Some alias) →
  lang ∉ Config.preserve cfg →
  alias ∉ Config.preserve cfg →
  lang ≠ targetLanguage →
  let options := getTransformerOptions host cfg (Some lang) (Some alias) in
  let prepared := Host.prepareContent host options (TagInfo.content info) in
  let r :=
    runTransformer host (Some lang) options
      (TransformerArgs.mk prepared None (TagInfo.filename info)
         (Some (TagInfo.attributes info))) w1 in
  (∀ transformed, Run.outcome r = Ok transformed →
     Run.outcome (getTransformerTo host cfg type targetLanguage file w) =
       Ok (Processed.mk
             (Processed.code transformed)
             (Processed.map transformed)
             (Host.concat host (TagInfo.dependencies info)
                (Processed.dependencies transformed))
             (Processed.diagnostics transformed)))
  ∧ (∀ e, Run.outcome r = Throw e →
       Run.outcome (getTransformerTo host cfg type targetLanguage file w) = Throw e)
  ∧ Run.world (getTransformerTo host cfg type targetLanguage file w) = Run.world r.
Proof.
  intros Hinfo Hlang Hl Ha Htarget options prepared r.
  rewrite (getTransformerTo_transforms _ _ _ _ _ _ _ _ Hinfo Hlang
             (bool_decide_eq_false_2 _ Hl) (bool_decide_eq_false_2 _ Ha))
    by congruence.
  fold options. fold prepared. fold r. cbn [Run.outcome Run.world].
  split; [|split]; [intros t -> | intros e -> |]; reflexivity.
Qed.

(** X6. A language disabled with [false] (and no function under the
    alias) is passed through: the block comes back with its prepared
    content as code, its own dependencies, and no map; no module is
    loaded and no function is called. *)
Theorem disabled_language_is_passed_through
    type targetLanguage file w info w1 lang alias :
  Host.getTagInfo host file w = (Ok info, w1) →
  withDefaultLanguage cfg type (World.registry w1)
    (TagInfo.lang info) (TagInfo.alias info) = (Some lang, Some alias) →
  lang ∉ Config.preserve cfg →
  alias ∉ Config.preserve cfg →
  lang ≠ targetLanguage →
  transformerOption cfg lang = OBool false →
  isFunction (transformerOption cfg alias) = false →
  getTransformerTo host cfg type targetLanguage file w =
    Run.mk
      (Ok (Processed.mk
             (Host.prepareContent host (OBool false) (TagInfo.content info))
             None
             (Host.concat host (TagInfo.dependencies info) None)
             None))
      w1
      [EGetTagInfo file;
       EGetTransformerOptions (Some lang) (Some alias);
       EPrepareContent (OBool false) (TagInfo.content info)].
Proof.
  intros Hinfo Hlang Hl Ha Htarget Hoff Hfa.
  rewrite (getTransformerTo_transforms _ _ _ _ _ _ _ _ Hinfo Hlang
             (bool_decide_eq_false_2 _ Hl) (bool_decide_eq_false_2 _ Ha))
    by congruence.
  assert (getTransformerOptions host cfg (Some lang) (Some alias) = OBool false) as ->.
  { unfold getTransformerOptions. simpl propertyKey. rewrite Hoff.
    by destruct (transformerOption cfg alias) as [| |[|]| |]. }
  reflexivity.
Qed.

(** X7. A function given under the alias of a block replaces the
    transformer module: it is called once, on the prepared content, and
    its result comes back with the dependencies merged.  No module is
    loaded. *)
Theorem function_option_replaces_the_module
    type targetLanguage file w info w1 lang alias f :
  Host.getTagInfo host file w = (Ok info, w1) →
  withDefaultLanguage cfg type (World.registry w1)
    (TagInfo.lang info) (TagInfo.alias info) = (Some lang, Some alias) →
  lang ∉ Config.preserve cfg →
  alias ∉ Config.preserve cfg →
  lang ≠ targetLanguage →
  transformerOption cfg alias = OFunction f →
  let args :=
    TransformerArgs.mk
      (Host.prepareContent host (OFunction f) (TagInfo.content info))
      None (TagInfo.filename info) (Some (TagInfo.attributes info)) in
  getTransformerTo host cfg type targetLanguage file w =
    Run.mk
      (match (f args w1).1 with
       | Ok transformed =>
           Ok (Processed.mk
                 (Processed.code transformed)
                 (Processed.map transformed)
                 (Host.concat host (TagInfo.dependencies info)
                    (Processed.dependencies transformed))
                 (Processed.diagnostics transformed))
       | Throw e => Throw e
       end)
      (f args w1).2
      [EGetTagInfo file;
       EGetTransformerOptions (Some lang) (Some alias);
       EPrepareContent (OFunction f) (TagInfo.content info);
       EOptionFunction args].
Proof.
  intros Hinfo Hlang Hl Ha Htarget Hf args.
  rewrite (getTransformerTo_transforms _ _ _ _ _ _ _ _ Hinfo Hlang
             (bool_decide_eq_false_2 _ Hl) (bool_decide_eq_false_2 _ Ha))
    by congruence.
  assert (getTransformerOptions host cfg (Some lang) (Some alias) = OFunction f) as ->.
  { unfold getTransformerOptions. simpl propertyKey. by rewrite Hf. }
  fold args. unfold args at 1 2 3. cbn [runTransformer]. fold args.
  unfold call. by destruct (f args w1).
Qed.

(** X8. The only transformer module that a run of a pipeline can load is
    the one named by the effective language of the block (by the text
    [undefined] when that language is undefined), and only when that
    language is not the target and neither it nor the alias is
    preserved. *)
Theorem pipeline_imports_only_the_block_language
    type targetLanguage file w n :
  EImport n ∈ Run.trace (getTransformerTo host cfg type targetLanguage file w) →
  ∃ info w1 lang alias,
    Host.getTagInfo host file w = (Ok info, w1)
    ∧ withDefaultLanguage cfg type (World.registry w1)
        (TagInfo.lang info) (TagInfo.alias info) = (lang, alias)
    ∧ n = interpolate lang
    ∧ lang ≠ Some targetLanguage
    ∧ (∀ l, lang = Some l → l ∉ Config.preserve cfg)
    ∧ (∀ a, alias = Some a → a ∉ Config.preserve cfg).
Proof.
  destruct (Host.getTagInfo host file w) as [[info|e] w1] eqn:Hinfo.
  - destruct (withDefaultLanguage cfg type (World.registry w1)
                (TagInfo.lang info) (TagInfo.alias info)) as [lang alias] eqn:Hlang.
    destruct (includes (Config.preserve cfg) lang
              || includes (Config.preserve cfg) alias) eqn:Hin.
    { rewrite (getTransformerTo_trace_preserved _ _ _ _ _ _ _ _ Hinfo Hlang Hin).
      rewrite elem_of_cons, elem_of_nil. intros [[=]|[]]. }
    apply orb_false_elim in Hin as [Hl Ha].
    destruct (decide (lang = Some targetLanguage)) as [->|Ht].
    { intros Hn. exfalso.
      apply (getTransformerTo_trace_target _ _ _ _ _ _ _ Hinfo Hlang Hl Ha).
      eauto. }
    rewrite (getTransformerTo_transforms _ _ _ _ _ _ _ _ Hinfo Hlang Hl Ha Ht).
    cbn [Run.trace]. rewrite elem_of_app, !elem_of_cons, elem_of_nil.
    intros [[[=]|[[=]|[[=]|[]]]]|Himp].
    apply runTransformer_imports in Himp as ->.
    exists info, w1, lang, alias.
    split; [done|]. split; [done|]. split; [done|]. split; [done|].
    split.
    + intros l ->. by apply bool_decide_eq_false_1 in Hl.
    + intros a ->. by apply bool_decide_eq_false_1 in Ha.
  - unfold getTransformerTo, bind, call. rewrite Hinfo.
    cbn [Run.outcome Run.trace]. rewrite elem_of_cons, elem_of_nil.
    intros [[=]|[]].
Qed.

End MorePipelineProperties.

(** ** The default language of a category *)

Section DefaultLanguageProperties.

Context {Ext : Type} (host : Host.t Ext).

(** C9, where the code breaks it.  The default languages are the
    built-in ones with [defaults] spread over them, and the spread copies
    an entry that is present with the value [undefined].  For a category
    with such an entry, a block whose tag info lacks the language or the
    alias leaves the fall-back with both undefined: the alias is the
    default of the category, and the registry gives an undefined alias
    back as it is.  The pipeline then goes on without a language: the
    block is not preserved and not in the target language, its options
    are resolved under the key [undefined], and [runTransformer] is
    called with an undefined name. *)
Theorem undefined_default_leaves_lang_undefined
    (options : AutoPreprocessOptions.t Ext) defaults
    type targetLanguage file w info w1 :
  AutoPreprocessOptions.defaults options = Some defaults →
  Defaults.get defaults type = Some None →
  Host.getTagInfo host file w = (Ok info, w1) →
  TagInfo.lang info = None ∨ TagInfo.alias info = None →
  let cfg := configure options in
  DefaultLanguages.get (Config.defaultLanguages cfg) type = None
  ∧ withDefaultLanguage cfg type (World.registry w1)
      (TagInfo.lang info) (TagInfo.alias info) = (None, None)
  ∧ let transformerOptions := getTransformerOptions host cfg None None in
    let prepared :=
      Host.prepareContent host transformerOptions (TagInfo.content info) in
    let r :=
      runTransformer host None transformerOptions
        (TransformerArgs.mk prepared None (TagInfo.filename info)
           (Some (TagInfo.attributes info))) w1 in
    getTransformerTo host cfg type targetLanguage file w =
      Run.mk
        (match Run.outcome r with
         | Ok transformed =>
             Ok (Processed.mk
                   (Processed.code transformed)
                   (Processed.map transformed)
                   (Host.concat host (TagInfo.dependencies info)
                      (Processed.dependencies transformed))
                   (Processed.diagnostics transformed))
         | Throw e => Throw e
         end)
        (Run.world r)
        ([EGetTagInfo file;
          EGetTransformerOptions None None;
          EPrepareContent transformerOptions (TagInfo.content info)]
         ++ Run.trace r).
Proof.
  intros Hdefaults Hentry Hinfo Hmissing cfg.
  assert (DefaultLanguages.get (Config.defaultLanguages cfg) type = None)
    as Hdefault.
  { subst cfg. unfold configure. rewrite Hdefaults.
    cbn [Config.defaultLanguages].
    destruct type; cbn [Defaults.get DefaultLanguages.get
                        DefaultLanguages.markup DefaultLanguages.style
                        DefaultLanguages.script] in *;
      by rewrite Hentry. }
  assert (withDefaultLanguage cfg type (World.registry w1)
            (TagInfo.lang info) (TagInfo.alias info) = (None, None)) as Hlang.
  { unfold withDefaultLanguage. rewrite Hdefault.
    by destruct Hmissing as [-> | ->]; [|destruct (TagInfo.lang info)]. }
  split; [done|]. split; [done|].
  by apply (getTransformerTo_transforms host cfg _ _ _ _ _ _ _ _ Hinfo Hlang).
Qed.

End DefaultLanguageProperties.

(** ** The entry points, beyond the claims *)

Lemma append_assoc s1 s2 s3 : (s1 +:+ s2) +:+ s3 = s1 +:+ s2 +:+ s3.
Proof.
  rewrite <- (str_chars ((s1 +:+ s2) +:+ s3)), <- (str_chars (s1 +:+ s2 +:+ s3)).
  by rewrite !chars_append, app_assoc.
Qed.

(** The text of a match that has an inner code. *)
Lemma markupPattern_inner_text tag content m inner :
  RegExp.exec (markupPattern tag) content = Some m →
  RegExp.group content m 2 = Some inner →
  ∃ attributesStr,
    RegExp.group content m 1 = Some attributesStr
    ∧ RegExp.matched content m =
        openingTag tag +:+ attributesStr +:+ ">" +:+ inner +:+ closingTag tag.
Proof.
  intros Hexec Hinner.
  destruct (markupPattern_exec _ _ _ Hexec)
    as (a & Hopen & Hpa & Hg1 & _ & Hend).
  exists (slice content (RegExp.index m + String.length (openingTag tag)) a).
  split; [unfold RegExp.group; by rewrite Hg1|].
  destruct Hend as [(b & Hgt & Hab & Hg2 & Hclose & Hstop & _)|(Hg2 & _)].
  - unfold RegExp.group in Hinner. rewrite Hg2 in Hinner.
    injection Hinner as <-. cbn [fst snd].
    unfold RegExp.matched. rewrite Hstop.
    rewrite (slice_segments _ (RegExp.index m)
               (RegExp.index m + String.length (openingTag tag))) by lia.
    rewrite (slice_segments _ (RegExp.index m + String.length (openingTag tag)) a)
      by lia.
    rewrite (slice_segments _ a (a + 1)) by lia.
    rewrite (slice_segments _ (a + 1) b) by lia.
    rewrite (slice_occurrence _ _ _ Hclose).
    change (a + 1) with (a + String.length ">") at 1.
    rewrite (slice_occurrence ">" _ _ Hgt).
    by rewrite (slice_occurrence _ _ _ Hopen).
  - unfold RegExp.group in Hinner. by rewrite Hg2 in Hinner.
Qed.

Section MoreEntryPointProperties.

Context {Ext : Type} (host : Host.t Ext) (cfg : Config.t Ext).

(** X9. The container tags and the attribute string are not part of
    what [markup] returns.  For a container tag name free of pattern
    syntax, when the match has an inner code, the document is [before],
    the opening tag, the attribute string, [>], the inner code, the
    closing tag and [after]; the pipeline receives the inner code and
    the parsed attributes; the result is [before], the transformed code
    and [after]. *)
Theorem markup_drops_the_container_tags
    content filename w content' w1 t1 m inner :
  plainTagName (Config.markupTagName cfg) = true →
  replacePass host cfg content filename w = Run.mk (Ok content') w1 t1 →
  RegExp.exec (markupPattern (Config.markupTagName cfg)) content' = Some m →
  RegExp.group content' m 2 = Some inner →
  ∃ attributesStr before after,
    content' =
      before +:+ openingTag (Config.markupTagName cfg) +:+ attributesStr
      +:+ ">" +:+ inner +:+ closingTag (Config.markupTagName cfg) +:+ after
    ∧ ∀ transformed w2 t2,
        markupTransformer host cfg
          (SvelteFile.mk (Some inner) (parseAttributes attributesStr) filename) w1 =
          Run.mk (Ok transformed) w2 t2 →
        Run.outcome (markup host cfg (MarkupInput.mk content filename) w) =
          Ok (Processed.mk
                (before +:+ Processed.code transformed +:+ after)
                (Processed.map transformed)
                (Processed.dependencies transformed)
                None).
Proof.
  intros _ Hreplace Hexec Hinner.
  destruct (markupPattern_inner_text _ _ _ _ Hexec Hinner)
    as (attributesStr & Hattrs & Htext).
  exists attributesStr, (slice content' 0 (RegExp.index m)),
    (sliceFrom content'
       (RegExp.index m + String.length (RegExp.matched content' m))).
  split.
  - rewrite (exec_matched_length _ _ _ Hexec).
    rewrite (slice_partition content' (RegExp.index m) (RegExp.stop m)) at 1
      by (by apply exec_span in Hexec as [? _]).
    change (slice content' (RegExp.index m) (RegExp.stop m))
      with (RegExp.matched content' m).
    by rewrite Htext, !append_assoc.
  - intros transformed w2 t2 Hpipe.
    rewrite <- Hinner in Hpipe.
    by rewrite (markup_match host cfg _ _ _ _ _ _ _ _ _ _ _
                  Hreplace Hexec Hattrs Hpipe).
Qed.

(** X10. With a container tag name free of pattern syntax, [markup]
    raises nothing of its own: when it throws, the replace pass threw
    that error, or the markup pipeline did.  A match of the container
    pattern always has an attribute string, be it empty, so that
    splitting it cannot fail. *)
Theorem markup_raises_nothing_of_its_own content filename w e :
  plainTagName (Config.markupTagName cfg) = true →
  Run.outcome (markup host cfg (MarkupInput.mk content filename) w) = Throw e →
  Run.outcome (replacePass host cfg content filename w) = Throw e
  ∨ ∃ content' w1 t1 file,
      replacePass host cfg content filename w = Run.mk (Ok content') w1 t1
      ∧ Run.outcome (markupTransformer host cfg file w1) = Throw e.
Proof.
  intros _.
  destruct (replacePass host cfg content filename w)
    as [[content'|e'] w1 t1] eqn:Hreplace.
  - intros Hthrow. right. exists content', w1, t1.
    destruct (RegExp.exec (markupPattern (Config.markupTagName cfg)) content')
      as [m|] eqn:Hexec.
    + destruct (markupPattern_exec _ _ _ Hexec) as (a & _ & _ & Hg1 & _).
      assert (∃ attributesStr, RegExp.group content' m 1 = Some attributesStr)
        as [attributesStr Hattrs]
        by (unfold RegExp.group; rewrite Hg1; eauto).
      exists (SvelteFile.mk (RegExp.group content' m 2)
                (parseAttributes attributesStr) filename).
      split; [done|].
      revert Hthrow. unfold markup.
      rewrite (run_bind_tail _ _ _ _ _ _ Hreplace). rewrite Hexec, Hattrs.
      unfold bind, ret. cbn [Run.outcome].
      destruct (markupTransformer host cfg _ w1) as [[t|e''] w2 t2];
        cbn [Run.outcome]; [done|]. intros Hthrow. exact Hthrow.
    + eexists. split; [done|].
      rewrite (markup_no_match host cfg _ _ _ _ _ _ Hreplace Hexec) in Hthrow.
      exact Hthrow.
  - intros Hthrow. left. revert Hthrow. unfold markup, bind.
    rewrite Hreplace. cbn [Run.outcome]. intros [= ->]. reflexivity.
Qed.

(** X11. [script] without a [babel] option returns what the script
    pipeline returns, diagnostics included.  With one, the babel stage
    receives the code and the map of the pipeline; the result takes its
    code and map from that stage, and both the dependencies and the
    diagnostics of the two are merged by [concat], the pipeline's
    first. *)
Theorem script_merges_the_babel_stage
    content attributes filename w piped w0 t0 :
  scriptTransformer host cfg (SvelteFile.mk (Some content) attributes filename) w =
    Run.mk (Ok piped) w0 t0 →
  (truthy (transformerOption cfg "babel") = false →
   script host cfg (BlockInput.mk content attributes filename) w =
     Run.mk (Ok piped) w0 t0)
  ∧ (truthy (transformerOption cfg "babel") = true →
     ∀ babeled w1 t1,
       runTransformer host (Some "babel") (getTransformerOptions host cfg (Some "babel") None)
         (TransformerArgs.mk (Processed.code piped) (Processed.map piped)
            filename (Some attributes)) w0 =
         Run.mk (Ok babeled) w1 t1 →
       script host cfg (BlockInput.mk content attributes filename) w =
         Run.mk
           (Ok (Processed.mk
                  (Processed.code babeled)
                  (Processed.map babeled)
                  (Host.concat host (Processed.dependencies piped)
                     (Processed.dependencies babeled))
                  (Host.concat host (Processed.diagnostics piped)
                     (Processed.diagnostics babeled))))
           w1 (t0 ++ [EGetTransformerOptions (Some "babel") None] ++ t1)).
Proof.
  intros Hpipe. destruct piped as [code map deps diags].
  split; intros Hbabel.
  - unfold script. rewrite (run_bind_tail _ _ _ _ _ _ Hpipe).
    rewrite Hbabel. unfold ret. cbn [Run.outcome Run.world Run.trace].
    by rewrite app_nil_r.
  - intros babeled w1 t1 Hrun. unfold script.
    rewrite (run_bind_tail _ _ _ _ _ _ Hpipe). rewrite Hbabel.
    cbn [Processed.code Processed.map Processed.dependencies
         Processed.diagnostics] in Hrun.
    unfold bind, callPure, ret. cbn [Run.outcome Run.world Run.trace].
    rewrite Hrun. cbn [Run.outcome Run.world Run.trace app].
    by rewrite app_nil_r.
Qed.

(** X12. With the toolchain detected and [globalStyle] disabled with
    [false], [style] returns the code and the dependencies of the stage
    before, and no map: the pass-through of [runTransformer] has none,
    and the map of the earlier stages is overwritten with it. *)
Theorem disabled_global_style_drops_the_map
    content attributes filename w piped w0 t0 w1 code map dependencies w2 t2 :
  cssTransformer host cfg (SvelteFile.mk (Some content) attributes filename) w =
    Run.mk (Ok piped) w0 t0 →
  Host.hasDepInstalled host "postcss" w0 = (Ok true, w1) →
  postcssStage host cfg attributes filename
    (Processed.code piped) (Processed.map piped)
    (Processed.dependencies piped) w1 =
    Run.mk (Ok (code, map, dependencies)) w2 t2 →
  transformerOption cfg "globalStyle" = OBool false →
  isFunction (transformerOption cfg "undefined") = false →
  style host cfg (BlockInput.mk content attributes filename) w =
    Run.mk (Ok (Processed.mk code None dependencies None)) w2
      (t0 ++ [EHasDepInstalled "postcss"] ++ t2
       ++ [EGetTransformerOptions (Some "globalStyle") None]).
Proof.
  intros Hpipe Hdep Hstage Hoff Hfn. destruct piped as [code0 map0 deps0 diags0].
  assert (getTransformerOptions host cfg (Some "globalStyle") None = OBool false) as Hopts.
  { unfold getTransformerOptions. simpl propertyKey. rewrite Hoff.
    by destruct (transformerOption cfg "undefined") as [| |[|]| |]. }
  unfold style.
  rewrite (run_bind_tail _ _ _ _ _ _ Hpipe).
  rewrite (run_bind_tail _ _ _ _ _ _ (run_call _ _ _ _ _ Hdep)).
  rewrite (run_bind_tail _ _ _ _ _ _ Hstage).
  unfold globalStyleStage, bind, callPure, ret. rewrite Hopts.
  cbn [Run.outcome Run.world Run.trace runTransformer]. unfold ret.
  cbn [Run.outcome Run.world Run.trace codeOnly Processed.code Processed.map app].
  by rewrite ?app_nil_r.
Qed.

(** X13. When the extraction of the tag info fails, [style] and [script]
    fail with the same error and stop there: the toolchain is not looked
    for, no options are resolved, no module is loaded. *)
Theorem tag_info_failure_stops_the_entry_point
    content attributes filename w e w1 :
  Host.getTagInfo host (SvelteFile.mk (Some content) attributes filename) w =
    (Throw e, w1) →
  style host cfg (BlockInput.mk content attributes filename) w =
    Run.mk (Throw e) w1 [EGetTagInfo (SvelteFile.mk (Some content) attributes filename)]
  ∧ script host cfg (BlockInput.mk content attributes filename) w =
    Run.mk (Throw e) w1 [EGetTagInfo (SvelteFile.mk (Some content) attributes filename)].
Proof.
  intros Hinfo.
  assert (∀ type target,
            getTransformerTo host cfg type target
              (SvelteFile.mk (Some content) attributes filename) w =
            Run.mk (Throw e) w1
              [EGetTagInfo (SvelteFile.mk (Some content) attributes filename)])
    as Hpipe.
  { intros type target. unfold getTransformerTo, bind, call. by rewrite Hinfo. }
  split.
  - unfold style, bind, cssTransformer. by rewrite Hpipe.
  - unfold script, bind, scriptTransformer. by rewrite Hpipe.
Qed.

End MoreEntryPointProperties.

(** ** Which documents have a container *)

Section MatchExistence.

Import RegExp.

Lemma lazyStar_complete {X} (k : list ascii → nat → option X) s pos n :
  n ≤ length s → is_Some (k (drop n s) (pos + n)) → is_Some (lazyStar k s pos).
Proof.
  revert pos n. induction s as [|c s IH]; intros pos n Hn Hk; simpl.
  - assert (n = 0) as -> by (simpl in Hn; lia).
    rewrite Nat.add_0_r in Hk. simpl in Hk. by destruct (k [] pos).
  - destruct (k (c :: s) pos) eqn:Hhere; [done|].
    destruct n as [|n].
    + rewrite Nat.add_0_r in Hk. simpl in Hk. rewrite Hhere in Hk.
      by destruct Hk.
    + apply (IH (S pos) n); [simpl in Hn; lia|].
      simpl in Hk. by replace (S pos + n) with (pos + S n) by lia.
Qed.

Lemma greedyStar_complete {X} (k : list ascii → nat → option X) s pos n :
  n ≤ length s → is_Some (k (drop n s) (pos + n)) → is_Some (greedyStar k s pos).
Proof.
  intros Hn Hk. destruct (greedyStar k s pos) eqn:Hstar; [done|].
  rewrite (greedyStar_None _ _ _ Hstar n Hn) in Hk. by destruct Hk.
Qed.

Lemma search_first r s start m :
  search r s start = Some m →
  ∃ n, n ≤ length s
       ∧ run r (drop n s) (start + n) ∅ (finish (start + n)) = Some m
       ∧ ∀ j, j < n → run r (drop j s) (start + j) ∅ (finish (start + j)) = None.
Proof.
  revert start. induction s as [|c s IH]; intros start; simpl.
  - destruct (run r [] start ∅ _) eqn:Hr; [|done]. intros [= ->].
    exists 0. rewrite Nat.add_0_r. split; [done|]. split; [done|].
    intros j Hj. lia.
  - destruct (run r (c :: s) start ∅ _) eqn:Hr.
    + intros [= ->]. exists 0. rewrite Nat.add_0_r.
      split; [lia|]. split; [done|]. intros j Hj. lia.
    + intros (n & Hn & Hx & Hfirst)%IH. exists (S n). split; [lia|]. split.
      * simpl. by replace (start + S n) with (S start + n) by lia.
      * intros [|j] Hj; [by rewrite Nat.add_0_r|].
        simpl. replace (start + S j) with (S start + j) by lia.
        apply Hfirst. lia.
Qed.

Lemma search_None_inv r s start n :
  search r s start = None → n ≤ length s →
  run r (drop n s) (start + n) ∅ (finish (start + n)) = None.
Proof.
  revert start n. induction s as [|c s IH]; intros start n; simpl.
  - destruct (run r [] start ∅ (finish start)) eqn:Hr; [done|]. intros _ Hn.
    assert (n = 0) as -> by lia. by rewrite Nat.add_0_r.
  - destruct (run r (c :: s) start ∅ (finish start)) eqn:Hr; [done|].
    intros Hs Hn. destruct n as [|n]; [by rewrite Nat.add_0_r|].
    simpl. replace (start + S n) with (S start + n) by lia.
    apply IH; [done | lia].
Qed.

Variable tag : string.

Lemma length_append s1 s2 :
  String.length (s1 +:+ s2) = String.length s1 + String.length s2.
Proof. by rewrite <- !length_chars, chars_append, length_app. Qed.

Lemma length_openingTag : 0 < String.length (openingTag tag).
Proof. unfold openingTag. rewrite length_append. simpl. lia. Qed.

Lemma length_closingTag : 0 < String.length (closingTag tag).
Proof. unfold closingTag. rewrite length_append. simpl. lia. Qed.

Lemma occursAt_within needle content j :
  0 < String.length needle →
  occursAt needle content j = true →
  j + String.length needle ≤ String.length content.
Proof.
  unfold occursAt. intros Hpos [_ Hlen]%isPrefix_take.
  rewrite length_drop, !length_chars in Hlen. lia.
Qed.

Lemma innerAlternative_complete content a b start caps :
  occursAt ">" content a = true →
  a + 1 ≤ b →
  occursAt (closingTag tag) content b = true →
  is_Some (run (innerAlternative tag) (drop a (chars content)) a caps (finish start)).
Proof.
  unfold occursAt. intros Hgt Hab Hclose.
  pose proof (occursAt_within _ _ _ length_closingTag Hclose) as Hb.
  unfold innerAlternative. cbn [run]. rewrite Hgt.
  change (length (chars ">")) with 1.
  apply (greedyStar_complete _ _ _ (b - (a + 1))).
  - rewrite !length_drop, length_chars. lia.
  - cbv beta. cbn [run]. rewrite !drop_drop.
    replace (a + (1 + (b - (a + 1)))) with b by lia.
    by rewrite Hclose.
Qed.

(** An opening that can be completed starts a match. *)
Lemma completable_runs content i :
  completableAt tag content i →
  is_Some (run (markupPattern tag) (drop i (chars content)) i ∅ (finish i)).
Proof.
  intros (Hopen & a & Hia & Hend).
  rewrite markupPattern_run. unfold occursAt in Hopen. rewrite Hopen.
  cbv zeta. rewrite length_chars.
  assert (a ≤ String.length content) as Ha.
  { destruct Hend as [H|[H _]]; apply occursAt_within in H; simpl; lia. }
  apply (lazyStar_complete _ _ _ (a - (i + String.length (openingTag tag)))).
  - rewrite !length_drop, length_chars. lia.
  - rewrite !drop_drop.
    replace (i + (String.length (openingTag tag)
                  + (a - (i + String.length (openingTag tag))))) with a by lia.
    replace (i + String.length (openingTag tag)
             + (a - (i + String.length (openingTag tag)))) with a by lia.
    destruct Hend as [Hself|(Hgt & b & Hab & Hclose)].
    + destruct (run (innerAlternative tag) _ _ _ _); [done|].
      unfold occursAt in Hself. by rewrite Hself.
    + destruct (innerAlternative_complete content a b i
                  (<[1 := (i + String.length (openingTag tag), a)]> ∅)
                  Hgt Hab Hclose) as [m ->].
      done.
Qed.

(** A match starts at an opening that can be completed. *)
Lemma match_is_completable content m :
  exec (markupPattern tag) content = Some m →
  completableAt tag content (index m).
Proof.
  intros Hexec.
  destruct (markupPattern_exec _ _ _ Hexec)
    as (a & Hopen & Hpa & _ & _ & Hend).
  split; [done|]. exists a. split; [done|].
  destruct Hend as [(b & Hgt & Hab & _ & Hclose & _)|(_ & Hself & _)].
  - right. split; [done|]. eauto.
  - by left.
Qed.

(** X14. A document has a container exactly when it has an opening
    [<tag] that is followed, at once or later, by [/>] or by [>] with a
    closing tag after it.  In particular a tag that is opened and never
    closed, with no [/>] after it, is no container. *)
Theorem container_exists_iff_completable content :
  exec (markupPattern tag) content = None
  ↔ ∀ i, ¬ completableAt tag content i.
Proof.
  split.
  - intros Hnone i Hi.
    pose proof (proj1 Hi) as Hopen.
    apply occursAt_within in Hopen; [|apply length_openingTag].
    destruct (completable_runs _ _ Hi) as [m Hrun].
    unfold exec in Hnone.
    destruct (search (markupPattern tag) (chars content) 0) eqn:Hsearch; [done|].
    pose proof (search_None_inv _ _ 0 i Hsearch) as Hall.
    rewrite length_chars in Hall.
    change (0 + i) with i in Hall. rewrite Hall in Hrun; [done | lia].
  - intros Hnone.
    destruct (exec (markupPattern tag) content) as [m|] eqn:Hexec; [|done].
    destruct (Hnone _ (match_is_completable _ _ Hexec)).
Qed.

Lemma match_is_leftmost_completable content m :
  exec (markupPattern tag) content = Some m →
  ∀ j, j < index m → ¬ completableAt tag content j.
Proof.
  intros Hexec. unfold exec in Hexec.
  apply search_first in Hexec as (n & _ & Hrun & Hfirst).
  change (0 + n) with n in Hrun.
  assert (index m = n) as ->.
  { apply run_span in Hrun as (d & caps & _ & [= <-]). done. }
  intros j Hj Hcompletable.
  destruct (completable_runs _ _ Hcompletable) as [m' Hrun'].
  specialize (Hfirst j Hj). change (0 + j) with j in Hfirst.
  by rewrite Hfirst in Hrun'.
Qed.

(** X15. For a tag name free of pattern syntax, when there is a
    container, it starts at the first [<tag] of the document: no [<tag]
    occurs before the start of the match.  An earlier opening is never
    skipped, since the ending that completes the match completes it as
    well. *)
Theorem container_starts_at_the_first_opening content m :
  plainTagName tag = true →
  exec (markupPattern tag) content = Some m →
  occursAt (openingTag tag) content (index m) = true
  ∧ ∀ j, j < index m → occursAt (openingTag tag) content j = false.
Proof.
  intros _ Hexec.
  destruct (match_is_completable _ _ Hexec) as (Hopen & a & Hia & Hend).
  split; [done|]. intros j Hj.
  destruct (occursAt (openingTag tag) content j) eqn:Hj'; [|done].
  destruct (match_is_leftmost_completable _ _ Hexec j Hj).
  split; [done|]. exists a. split; [lia | done].
Qed.

End MatchExistence.

(** ** The attributes of the container tag *)

Section AttributeProperties.

Lemma splitOn_nonempty p s : splitOn p s ≠ [].
Proof.
  destruct s as [|c s]; simpl; [done|].
  destruct (p c); [done|]. by destruct (splitOn p s).
Qed.

(** No piece holds a separator, and every unit of a piece is a unit of
    the string. *)
Lemma splitOn_pieces p s :
  Forall (fun piece => ∀ c, c ∈ piece → p c = false ∧ c ∈ s) (splitOn p s).
Proof.
  induction s as [|c s IH]; simpl.
  - constructor; [|constructor]. intros c Hc. by apply elem_of_nil in Hc.
  - destruct (p c) eqn:Hp.
    + constructor.
      * intros d Hd. by apply elem_of_nil in Hd.
      * eapply Forall_impl; [exact IH|]. intros piece Hpiece d Hd.
        split; [by apply Hpiece | apply elem_of_cons; right; by apply Hpiece].
    + pose proof (splitOn_nonempty p s) as Hne.
      destruct (splitOn p s) as [|piece pieces]; [done|].
      inversion IH as [|?? Hpiece Hpieces]; subst. constructor.
      * intros d [->|Hd]%elem_of_cons; [split; [done | by left]|].
        split; [by apply Hpiece | apply elem_of_cons; right; by apply Hpiece].
      * eapply Forall_impl; [exact Hpieces|]. intros q Hq d Hd.
        split; [by apply Hq | apply elem_of_cons; right; by apply Hq].
Qed.

Lemma splitOn_separator p s1 c s2 :
  p c = true → splitOn p (s1 ++ c :: s2) = splitOn p s1 ++ splitOn p s2.
Proof.
  intros Hc. induction s1 as [|d s1 IH]; simpl.
  - by rewrite Hc.
  - destruct (p d); [by rewrite IH|]. rewrite IH.
    pose proof (splitOn_nonempty p s1) as Hne.
    by destruct (splitOn p s1) as [|piece pieces].
Qed.

Lemma splitOn_no_separator p s :
  (∀ c, c ∈ s → p c = false) → splitOn p s = [s].
Proof.
  induction s as [|c s IH]; intros Hs; simpl; [done|].
  rewrite (Hs c) by (by left). rewrite IH; [done|].
  intros d Hd. apply Hs. by right.
Qed.

Lemma splitOn_only_separators p s :
  (∀ c, c ∈ s → p c = true) →
  filter (fun piece => negb (isEmpty piece)) (splitOn p s) = [].
Proof.
  induction s as [|c s IH]; intros Hs; simpl; [done|].
  rewrite (Hs c) by (by left).
  rewrite filter_cons_False by (simpl; tauto).
  apply IH. intros d Hd. apply Hs. by right.
Qed.

(** The pieces that [parseAttributes] folds over hold no white space. *)
Lemma attribute_tokens attributesStr :
  Forall (fun token => ∀ c, c ∈ token → isWhiteSpace c = false)
    (filter (fun piece => negb (isEmpty piece))
       (splitOn isWhiteSpace (chars attributesStr))).
Proof.
  apply Forall_forall. intros token [_ Hin]%list_elem_of_filter c Hc.
  pose proof (splitOn_pieces isWhiteSpace (chars attributesStr)) as Hpieces.
  rewrite Forall_forall in Hpieces. by apply (Hpieces token Hin c).
Qed.

Lemma addAttribute_clean (acc : gmap string Value) token :
  (∀ c, c ∈ token → isWhiteSpace c = false) →
  (∀ name v, acc !! name = Some v →
     (∀ c, c ∈ chars name → cleanUnit c)
     ∧ (v = VBool true
        ∨ ∃ text, v = VString text
                  ∧ ∀ c, c ∈ chars text → cleanUnit c ∧ isQuote c = false)) →
  ∀ name v, addAttribute acc token !! name = Some v →
    (∀ c, c ∈ chars name → cleanUnit c)
    ∧ (v = VBool true
       ∨ ∃ text, v = VString text
                 ∧ ∀ c, c ∈ chars text → cleanUnit c ∧ isQuote c = false).
Proof.
  intros Htoken Hacc name v. unfold addAttribute.
  pose proof (splitOn_pieces (fun c => bool_decide (c = "="%char)) token) as Hpieces.
  set (pieces := splitOn (fun c => bool_decide (c = "="%char)) token) in *.
  assert (∀ piece c, piece ∈ pieces → c ∈ piece → cleanUnit c) as Hclean.
  { intros piece c Hpiece Hc. rewrite Forall_forall in Hpieces.
    destruct (Hpieces piece Hpiece c Hc) as [Hne Hin]. split; [by apply Htoken|].
    by apply bool_decide_eq_false in Hne. }
  destruct (decide (str (hd [] pieces) = "__proto__")) as [|_]; [by apply Hacc|].
  destruct (decide (name = str (hd [] pieces))) as [->|Hname].
  - rewrite lookup_insert_eq. intros [= <-]. split.
    + rewrite chars_str. intros c Hc.
      destruct pieces as [|piece rest]; [by apply elem_of_nil in Hc|].
      apply (Hclean piece c); [by left | done].
    + destruct (pieces !! 1) as [[|d ds]|] eqn:Hvalue; [by left | | by left].
      right. eexists. split; [reflexivity|]. rewrite chars_str.
      intros c [Hq Hc]%list_elem_of_filter. split.
      * apply (Hclean (d :: ds) c); [|done].
        by apply list_elem_of_lookup_2 in Hvalue.
      * by destruct (isQuote c).
  - rewrite lookup_insert_ne by done. apply Hacc.
Qed.

(** X16. Whatever the attribute string, the parsed attributes are clean:
    a name holds no white space and no [=]; a value is [true] or a text
    that holds no white space, no [=] and no quote character.  A value
    is never [false], a number or an object. *)
Theorem parsed_attributes_are_clean attributesStr name v :
  parseAttributes attributesStr !! name = Some v →
  (∀ c, c ∈ chars name → isWhiteSpace c = false ∧ c ≠ "="%char)
  ∧ (v = VBool true
     ∨ ∃ text, v = VString text
               ∧ ∀ c, c ∈ chars text →
                   (isWhiteSpace c = false ∧ c ≠ "="%char) ∧ isQuote c = false).
Proof.
  unfold parseAttributes.
  pose proof (attribute_tokens attributesStr) as Htokens.
  revert Htokens name v.
  generalize (filter (fun piece => negb (isEmpty piece))
                (splitOn isWhiteSpace (chars attributesStr))).
  intros tokens Htokens.
  assert (∀ acc : gmap string Value,
            (∀ name v, acc !! name = Some v →
               (∀ c, c ∈ chars name → cleanUnit c)
               ∧ (v = VBool true
                  ∨ ∃ text, v = VString text
                            ∧ ∀ c, c ∈ chars text → cleanUnit c ∧ isQuote c = false)) →
            ∀ name v, fold_left addAttribute tokens acc !! name = Some v →
               (∀ c, c ∈ chars name → cleanUnit c)
               ∧ (v = VBool true
                  ∨ ∃ text, v = VString text
                            ∧ ∀ c, c ∈ chars text → cleanUnit c ∧ isQuote c = false))
    as Hfold.
  { induction Htokens as [|token tokens Htoken _ IH]; intros acc Hacc; simpl.
    - exact Hacc.
    - apply IH. by apply addAttribute_clean. }
  apply Hfold. intros name v Hlookup. by rewrite lookup_empty in Hlookup.
Qed.

(** X17. The attributes are parsed token by token, from left to right:
    a further token, set off by a space, is added to what the string
    before it gives.  So a later attribute replaces an earlier one of
    the same name. *)
Theorem parseAttributes_further_token attributesStr token :
  token ≠ EmptyString →
  (∀ c, c ∈ chars token → isWhiteSpace c = false) →
  parseAttributes (attributesStr +:+ " " +:+ token) =
    addAttribute (parseAttributes attributesStr) (chars token).
Proof.
  intros Hne Htoken. unfold parseAttributes.
  rewrite !chars_append. change (chars " ") with [" "%char]. simpl app.
  rewrite (splitOn_separator isWhiteSpace _ " "%char) by reflexivity.
  rewrite (splitOn_no_separator isWhiteSpace (chars token)) by done.
  rewrite filter_app, fold_left_app.
  rewrite filter_cons_True, filter_nil; [done|].
  destruct token; [done | by simpl].
Qed.

(** X18. What a token means.  A bare name is a flag: it is stored as
    [true].  [name=value] with a value that is not empty is stored as
    the value without its quote characters.  (The name [__proto__] is
    the exception: it is not stored.) *)
Theorem attribute_token_meaning (acc : gmap string Value) name :
  name ≠ "__proto__" →
  (∀ c, c ∈ chars name → c ≠ "="%char) →
  addAttribute acc (chars name) = <[name := VBool true]> acc
  ∧ addAttribute acc (chars (name +:+ "=")) = <[name := VBool true]> acc
  ∧ ∀ value,
      value ≠ EmptyString →
      (∀ c, c ∈ chars value → c ≠ "="%char) →
      addAttribute acc (chars (name +:+ "=" +:+ value)) =
        <[name := VString (str (filter (fun c => negb (isQuote c)) (chars value)))]> acc.
Proof.
  intros Hproto Hname.
  assert (∀ s, (∀ c, c ∈ chars s → c ≠ "="%char) →
            splitOn (fun c => bool_decide (c = "="%char)) (chars s) = [chars s])
    as Hwhole.
  { intros s Hs. apply splitOn_no_separator. intros c Hc.
    apply bool_decide_eq_false. by apply Hs. }
  split; [|split].
  - unfold addAttribute. rewrite (Hwhole name Hname). simpl.
    rewrite str_chars. by destruct (decide (name = "__proto__")).
  - unfold addAttribute. rewrite chars_append.
    change (chars "=") with ["="%char].
    rewrite (splitOn_separator _ _ "="%char) by reflexivity.
    rewrite (Hwhole name Hname). simpl.
    rewrite str_chars. by destruct (decide (name = "__proto__")).
  - intros value Hne Hvalue. unfold addAttribute. rewrite !chars_append.
    change (chars "=") with ["="%char]. simpl app.
    rewrite (splitOn_separator _ _ "="%char) by reflexivity.
    rewrite (Hwhole name Hname), (Hwhole value Hvalue). simpl.
    rewrite str_chars. destruct (decide (name = "__proto__")); [done|].
    destruct (chars value) as [|c cs] eqn:Hchars; [|done].
    destruct value; [done | discriminate Hchars].
Qed.

(** X19. An attribute string of white space only, the empty one among
    them, gives no attributes. *)
Theorem blank_attribute_string_gives_no_attributes attributesStr :
  (∀ c, c ∈ chars attributesStr → isWhiteSpace c = true) →
  parseAttributes attributesStr = ∅.
Proof.
  intros Hblank. unfold parseAttributes.
  by rewrite splitOn_only_separators.
Qed.

End AttributeProperties.

(** ** The stand-alone babel processor *)

Section BabelProcessorProperties.

Context {Ext : Type} (host : Host.t Ext).

(** X20. The processor loads the babel transformer before it looks at
    the block: when the module cannot be loaded, the error is the
    result and the tag info is never extracted. *)
Theorem babel_processor_loads_the_module_first options file w e w1 :
  Host.importTransformer host "babel" w = (Throw e, w1) →
  BabelProcessor.script host options file w =
    Run.mk (Throw e) w1 [EImport "babel"].
Proof.
  intros Himport. unfold BabelProcessor.script, bind, call.
  by rewrite Himport.
Qed.

(** X21. The processor has no language test and no preserve list: every
    block whose tag info can be extracted is prepared and handed to the
    babel transformer, with the options of the processor and no map,
    whatever its language and alias.  The result is the transformer's,
    with the dependencies of the tag info put in front by [concat]. *)
Theorem babel_processor_transforms_every_block
    options file w transformer w1 info w2 :
  Host.importTransformer host "babel" w = (Ok transformer, w1) →
  Host.getTagInfo host file w1 = (Ok info, w2) →
  let prepared := Host.prepareContent host options (TagInfo.content info) in
  let c :=
    TransformerCall.mk prepared (TagInfo.filename info) None
      (Some (TagInfo.attributes info)) options in
  BabelProcessor.script host options file w =
    Run.mk
      (match (transformer c w2).1 with
       | Ok transformed =>
           Ok (Processed.mk
                 (Processed.code transformed)
                 (Processed.map transformed)
                 (Host.concat host (TagInfo.dependencies info)
                    (Processed.dependencies transformed))
                 (Processed.diagnostics transformed))
       | Throw e => Throw e
       end)
      (transformer c w2).2
      [EImport "babel"; EGetTagInfo file;
       EPrepareContent options (TagInfo.content info);
       ETransformer "babel" c].
Proof.
  intros Himport Hinfo prepared c. subst c prepared.
  unfold BabelProcessor.script.
  rewrite (run_bind_tail _ _ _ _ _ _ (run_call _ _ _ _ _ Himport)).
  rewrite (run_bind_tail _ _ _ _ _ _ (run_call _ _ _ _ _ Hinfo)).
  destruct info as [content filename lang alias dependencies attributes].
  unfold bind, callPure, call, ret.
  cbn [Run.outcome Run.world Run.trace TagInfo.content TagInfo.filename
       TagInfo.attributes TagInfo.dependencies].
  destruct (transformer _ w2) as [[transformed|e] w3];
    cbn [Run.outcome Run.world Run.trace fst snd app]; reflexivity.
Qed.

End BabelProcessorProperties.

(** ** The sass transformer *)

Section SassProperties.

Context {Ext : Type} (utils : Sass.Utils.t Ext).

Lemma dataOf_empty (options : Sass.Options.t Ext) content :
  String.length (Sass.dataOf options content) = 0
  ↔ content = EmptyString
    ∧ (Sass.Options.data options = None
       ∨ Sass.Options.data options = Some EmptyString).
Proof.
  unfold Sass.dataOf. destruct (Sass.Options.data options) as [[|c d]|].
  - split.
    + intros Hlen. destruct content; [eauto | done].
    + intros [-> _]. done.
  - rewrite <- length_chars, chars_append. simpl. split; [done|].
    intros [_ [[=]|[=]]].
  - split.
    + intros Hlen. destruct content; [eauto | done].
    + intros [-> _]. done.
Qed.

(** With an implementation at hand, passed or cached, nothing is
    imported and the cache stays as it is. *)
Lemma resolveImplementation_at_hand (passed : option (Sass.Implementation.t Ext)) st :
  is_Some passed ∨ is_Some (Sass.State.sass st) →
  ∃ implementation,
    Sass.resolveImplementation utils passed st = (Ok implementation, st, [])
    ∧ (passed = Some implementation
       ∨ (passed = None ∧ Sass.State.sass st = Some implementation)).
Proof.
  unfold Sass.resolveImplementation.
  destruct passed as [i|]; [eauto|].
  destruct (Sass.State.sass st) as [i|]; [eauto|].
  intros [[? [=]]|[? [=]]].
Qed.

Lemma transformer_at_hand (args : Sass.Args.t Ext) st :
  is_Some (Sass.Options.implementation (Sass.optionsOf args))
  ∨ is_Some (Sass.State.sass st) →
  Sass.State.sass (Sass.Run.state (Sass.transformer utils args st)) =
    Sass.State.sass st
  ∧ ∀ names, Sass.CImportAny names ∉ Sass.Run.calls (Sass.transformer utils args st).
Proof.
  intros Hhand.
  destruct (resolveImplementation_at_hand _ _ Hhand) as (i & Hres & _).
  unfold Sass.transformer. rewrite Hres.
  destruct (decide (String.length _ = 0)).
  - split; [done|]. intros names Hin. by apply elem_of_nil in Hin.
  - destruct (Sass.Options.renderSync (Sass.optionsOf args)) as [[|]|].
    + destruct (Sass.Implementation.renderSync i _ _). split; [done|].
      intros names [[=]|[]%elem_of_nil]%elem_of_cons.
    + destruct (Sass.Implementation.render i _ _). split; [done|].
      intros names [[=]|[]%elem_of_nil]%elem_of_cons.
    + destruct (Sass.Implementation.render i _ _). split; [done|].
      intros names [[=]|[]%elem_of_nil]%elem_of_cons.
Qed.

(** X22. When there is nothing to compile (empty content and no data to
    put in front), neither [render] nor [renderSync] is called.  With
    an implementation at hand the transformer resolves at once to
    [{ code: options.data }], whose code is undefined or the empty
    string, and leaves the state alone.  The implementation is still
    looked for first, so a failing import fails the call even then. *)
Theorem sass_empty_data_is_not_rendered (args : Sass.Args.t Ext) st :
  Sass.Args.content args = EmptyString →
  Sass.Options.data (Sass.optionsOf args) = None
  ∨ Sass.Options.data (Sass.optionsOf args) = Some EmptyString →
  (∀ o, (Sass.CRender o ∉ Sass.Run.calls (Sass.transformer utils args st))
        ∧ (Sass.CRenderSync o ∉ Sass.Run.calls (Sass.transformer utils args st)))
  ∧ (is_Some (Sass.Options.implementation (Sass.optionsOf args))
     ∨ is_Some (Sass.State.sass st) →
     Sass.transformer utils args st =
       Sass.Run.mk
         (Ok (Sass.Resolved.mk (Sass.Options.data (Sass.optionsOf args)) None None))
         st [])
  ∧ (∀ err e,
       Sass.Options.implementation (Sass.optionsOf args) = None →
       Sass.State.sass st = None →
       Sass.Utils.importAny utils ["sass"; "node-sass"] (Sass.State.ext st) =
         (Throw err, e) →
       Sass.Run.outcome (Sass.transformer utils args st) = Throw err).
Proof.
  intros Hcontent Hdata.
  assert (String.length
            (Sass.RenderOptions.data (Sass.renderOptions utils args)) = 0) as Hempty.
  { unfold Sass.renderOptions. cbn [Sass.RenderOptions.data].
    apply dataOf_empty. by rewrite Hcontent. }
  split; [|split].
  - intros o. unfold Sass.transformer.
    destruct (Sass.resolveImplementation utils _ st) as [[[i|err] st'] calls] eqn:Hres.
    + rewrite decide_True by done. cbn [Sass.Run.calls].
      unfold Sass.resolveImplementation in Hres.
      destruct (Sass.Options.implementation _);
        [injection Hres as _ _ <-; split; apply not_elem_of_nil|].
      destruct (Sass.State.sass st);
        [injection Hres as _ _ <-; split; apply not_elem_of_nil|].
      destruct (Sass.Utils.importAny utils _ _) as [[?|?] ?];
        injection Hres as _ _ <-;
        split; intros [[=]|[]%elem_of_nil]%elem_of_cons.
    + cbn [Sass.Run.calls].
      unfold Sass.resolveImplementation in Hres.
      destruct (Sass.Options.implementation _); [done|].
      destruct (Sass.State.sass st); [done|].
      destruct (Sass.Utils.importAny utils _ _) as [[?|?] ?];
        injection Hres as _ _ <-;
        split; intros [[=]|[]%elem_of_nil]%elem_of_cons.
  - intros Hhand.
    destruct (resolveImplementation_at_hand _ _ Hhand) as (i & Hres & _).
    unfold Sass.transformer. rewrite Hres. by rewrite decide_True.
  - intros err e Hpassed Hcache Himport.
    unfold Sass.transformer, Sass.resolveImplementation.
    by rewrite Hpassed, Hcache, Himport.
Qed.

(** X23. With an implementation at hand, passed with the options or
    cached, a call imports nothing and leaves the cache as it is: a
    cached implementation is never replaced, and an implementation
    passed with the options is used for that call only, without being
    cached. *)
Theorem sass_cache_is_kept (args : Sass.Args.t Ext) st :
  is_Some (Sass.Options.implementation (Sass.optionsOf args))
  ∨ is_Some (Sass.State.sass st) →
  Sass.State.sass (Sass.Run.state (Sass.transformer utils args st)) =
    Sass.State.sass st
  ∧ ∀ names, Sass.CImportAny names ∉ Sass.Run.calls (Sass.transformer utils args st).
Proof. apply transformer_at_hand. Qed.

(** X24. The implementation is imported at most once.  The first call
    that finds none, neither passed nor cached, imports [sass] or
    [node-sass] and caches what it finds; every later call, whatever
    its arguments, imports nothing and keeps that cache.  When the
    import fails, the call fails with its error, nothing is cached and
    nothing is rendered. *)
Theorem sass_implementation_is_imported_once (args : Sass.Args.t Ext) st :
  Sass.Options.implementation (Sass.optionsOf args) = None →
  Sass.State.sass st = None →
  (∀ implementation e,
     Sass.Utils.importAny utils ["sass"; "node-sass"] (Sass.State.ext st) =
       (Ok implementation, e) →
     let st1 := Sass.Run.state (Sass.transformer utils args st) in
     Sass.State.sass st1 = Some implementation
     ∧ ∀ args' : Sass.Args.t Ext,
         Sass.State.sass (Sass.Run.state (Sass.transformer utils args' st1)) =
           Some implementation
         ∧ ∀ names,
             Sass.CImportAny names ∉ Sass.Run.calls (Sass.transformer utils args' st1))
  ∧ (∀ err e,
       Sass.Utils.importAny utils ["sass"; "node-sass"] (Sass.State.ext st) =
         (Throw err, e) →
       Sass.transformer utils args st =
         Sass.Run.mk (Throw err) (Sass.State.mk None e)
           [Sass.CImportAny ["sass"; "node-sass"]]).
Proof.
  intros Hpassed Hcache. split.
  - intros implementation e Himport st1.
    assert (Sass.State.sass st1 = Some implementation) as Hst1.
    { subst st1. unfold Sass.transformer, Sass.resolveImplementation.
      rewrite Hpassed, Hcache, Himport.
      destruct (decide (String.length _ = 0)); [done|].
      destruct (Sass.Options.renderSync (Sass.optionsOf args)) as [[|]|];
        cbn [Sass.State.ext];
        [destruct (Sass.Implementation.renderSync implementation _ _)
        |destruct (Sass.Implementation.render implementation _ _)
        |destruct (Sass.Implementation.render implementation _ _)];
        done. }
    split; [done|]. intros args'.
    destruct (transformer_at_hand args' st1) as [Hkept Hnone].
    { right. rewrite Hst1. eauto. }
    by rewrite Hkept.
  - intros err e Himport.
    unfold Sass.transformer, Sass.resolveImplementation.
    by rewrite Hpassed, Hcache, Himport.
Qed.

Lemma resolveImplementation_calls (passed : option (Sass.Implementation.t Ext)) st c :
  c ∈ (Sass.resolveImplementation utils passed st).2 →
  c = Sass.CImportAny ["sass"; "node-sass"].
Proof.
  unfold Sass.resolveImplementation.
  destruct passed; [by intros ?%elem_of_nil|].
  destruct (Sass.State.sass st); [by intros ?%elem_of_nil|].
  destruct (Sass.Utils.importAny utils _ _) as [[?|?] ?]; cbn [snd];
    by intros ->%list_elem_of_singleton.
Qed.

(** A render call of a run carries [sassOptions], and their data is not
    empty. *)
Lemma transformer_render_call (args : Sass.Args.t Ext) st given :
  Sass.CRender given ∈ Sass.Run.calls (Sass.transformer utils args st)
  ∨ Sass.CRenderSync given ∈ Sass.Run.calls (Sass.transformer utils args st) →
  given = Sass.renderOptions utils args
  ∧ String.length (Sass.RenderOptions.data given) ≠ 0.
Proof.
  unfold Sass.transformer.
  pose proof (resolveImplementation_calls
                (Sass.Options.implementation (Sass.optionsOf args)) st) as Hcalls.
  destruct (Sass.resolveImplementation utils _ st) as [[[i|err] st'] calls].
  - cbn [snd] in Hcalls.
    destruct (decide (String.length _ = 0)) as [|Hdata].
    { cbn [Sass.Run.calls]. intros [Hin|Hin]; by apply Hcalls in Hin. }
    destruct (Sass.Options.renderSync (Sass.optionsOf args)) as [[|]|].
    + destruct (Sass.Implementation.renderSync i _ _). cbn [Sass.Run.calls].
      rewrite !elem_of_app, !list_elem_of_singleton.
      intros [[Hin|[=]]|[Hin|[= ->]]]; try (by apply Hcalls in Hin). done.
    + destruct (Sass.Implementation.render i _ _). cbn [Sass.Run.calls].
      rewrite !elem_of_app, !list_elem_of_singleton.
      intros [[Hin|[= ->]]|[Hin|[=]]]; try (by apply Hcalls in Hin). done.
    + destruct (Sass.Implementation.render i _ _). cbn [Sass.Run.calls].
      rewrite !elem_of_app, !list_elem_of_singleton.
      intros [[Hin|[= ->]]|[Hin|[=]]]; try (by apply Hcalls in Hin). done.
  - cbn [snd] in Hcalls. cbn [Sass.Run.calls].
    intros [Hin|Hin]; by apply Hcalls in Hin.
Qed.

(** X25. What the implementation is given.  Whatever a run hands to
    [render] or [renderSync] has these properties: [outFile] is the file
    name followed by [.css], also when the user gave an [outFile];
    [sourceMap] is what the user gave, and [true] when the user gave
    none; every other property is the user's; the include paths are
    those that [getIncludePaths] computes; the data is the content, with
    [options.data] in front when that is not empty, and is never empty.
    And with a content that is not empty and an implementation passed,
    cached or found by the import, the run does end with such a call:
    to [renderSync] when the user asked for it, to [render] otherwise. *)
Theorem sass_render_options (args : Sass.Args.t Ext) st :
  let options := Sass.optionsOf args in
  let run := Sass.transformer utils args st in
  (∀ given,
     Sass.CRender given ∈ Sass.Run.calls run
     ∨ Sass.CRenderSync given ∈ Sass.Run.calls run →
     Sass.RenderOptions.props given !! "outFile" =
       Some (VString (Sass.templateString (Sass.Args.filename args) +:+ ".css"))
     ∧ Sass.RenderOptions.props given !! "sourceMap" =
         Some (match Sass.Options.props options !! "sourceMap" with
               | Some v => v
               | None => VBool true
               end)
     ∧ (∀ key, key ≠ "outFile" → key ≠ "sourceMap" →
          Sass.RenderOptions.props given !! key = Sass.Options.props options !! key)
     ∧ Sass.RenderOptions.includePaths given =
         Sass.Utils.getIncludePaths utils (Sass.Args.filename args)
           (Sass.Options.includePaths options)
     ∧ (∀ d, Sass.Options.data options = Some d → d ≠ EmptyString →
          Sass.RenderOptions.data given = d +:+ Sass.Args.content args)
     ∧ (Sass.Options.data options = None
        ∨ Sass.Options.data options = Some EmptyString →
        Sass.RenderOptions.data given = Sass.Args.content args)
     ∧ Sass.RenderOptions.data given ≠ EmptyString)
  ∧ (Sass.Args.content args ≠ EmptyString →
     is_Some (Sass.Options.implementation options)
     ∨ is_Some (Sass.State.sass st)
     ∨ (∃ implementation e,
           Sass.Utils.importAny utils ["sass"; "node-sass"] (Sass.State.ext st) =
             (Ok implementation, e)) →
     ∃ given,
       last (Sass.Run.calls run) =
         Some (match Sass.Options.renderSync options with
               | Some true => Sass.CRenderSync given
               | _ => Sass.CRender given
               end)).
Proof.
  intros options run. split.
  - intros given Hin.
    apply transformer_render_call in Hin as [-> Hdata].
    split; [|split; [|split; [|split; [|split; [|split]]]]].
    + unfold Sass.renderOptions, Sass.otherOptions.
      cbn [Sass.RenderOptions.props]. apply lookup_insert_eq.
    + unfold Sass.renderOptions, Sass.otherOptions.
      cbn [Sass.RenderOptions.props]. fold options.
      rewrite lookup_insert_ne by done.
      destruct (Sass.Options.props options !! "sourceMap") as [v|] eqn:Huser.
      * by apply lookup_union_Some_l.
      * rewrite lookup_union_r by done. apply lookup_singleton_eq.
    + intros key Hout Hsm.
      unfold Sass.renderOptions, Sass.otherOptions.
      cbn [Sass.RenderOptions.props]. fold options.
      rewrite lookup_insert_ne by done.
      rewrite lookup_union_l; [done|]. by apply lookup_singleton_ne.
    + reflexivity.
    + unfold Sass.renderOptions, Sass.dataOf. cbn [Sass.RenderOptions.data].
      fold options. intros d -> Hd. by destruct d.
    + unfold Sass.renderOptions, Sass.dataOf. cbn [Sass.RenderOptions.data].
      fold options. intros [->| ->]; done.
    + intros Hnil. by rewrite Hnil in Hdata.
  - intros Hcontent Hfound.
    assert (String.length
              (Sass.RenderOptions.data (Sass.renderOptions utils args)) ≠ 0)
      as Hdata.
    { unfold Sass.renderOptions. cbn [Sass.RenderOptions.data].
      rewrite dataOf_empty. by intros [? _]. }
    assert (∃ i st' calls,
              Sass.resolveImplementation utils
                (Sass.Options.implementation options) st = (Ok i, st', calls))
      as (i & st' & calls & Hres).
    { unfold Sass.resolveImplementation.
      destruct (Sass.Options.implementation options); [eauto|].
      destruct (Sass.State.sass st); [eauto|].
      destruct Hfound as [[? [=]]|[[? [=]]|(i & e & ->)]]. eauto. }
    exists (Sass.renderOptions utils args).
    subst run. unfold Sass.transformer. fold options. rewrite Hres.
    rewrite decide_False by done.
    destruct (Sass.Options.renderSync options) as [[|]|].
    + destruct (Sass.Implementation.renderSync i _ _).
      cbn [Sass.Run.calls]. apply last_snoc.
    + destruct (Sass.Implementation.render i _ _).
      cbn [Sass.Run.calls]. apply last_snoc.
    + destruct (Sass.Implementation.render i _ _).
      cbn [Sass.Run.calls]. apply last_snoc.
Qed.

End SassProperties.

(** * More concrete runs *)

(** X3: the user asks for no source map under [scss], the global flag
    wins. *)
Lemma source_map_property_wins_witness :
  ∃ opts,
    getTransformerOptions Sample.host (configure MoreSamples.sourceMapOptions)
      (Some "scss") (Some "scss") = OObject opts
    ∧ opts !! "sourceMap" = Some (VBool true).
Proof.
  apply (source_map_property_wins Sample.host
           (configure MoreSamples.sourceMapOptions) "scss" (Some "scss")
           "sourceMap" (VBool true)); reflexivity.
Defined.

(** X4: [sass] as its own name gets no [indentedSyntax]. *)
Lemma no_override_when_alias_is_name_witness :
  getTransformerOptions Sample.host (configure Sample.noOptions)
    (Some "sass") (Some "sass") = OObject ∅.
Proof.
  rewrite (no_override_when_alias_is_name Sample.host
             (configure Sample.noOptions) "sass"); reflexivity.
Defined.

(** X5: a sass block goes through the scss transformer. *)
Lemma other_language_block_is_transformed_witness :
  Run.outcome
    (cssTransformer Sample.host (configure Sample.noOptions)
       MoreSamples.sassFile Sample.world) =
    Ok (Processed.mk "/* scss */a{}" None (Some ["scss.dep"]) None).
Proof.
  edestruct (other_language_block_is_transformed
               Sample.host (configure Sample.noOptions)
               Style "css" MoreSamples.sassFile Sample.world
               MoreSamples.sassInfo Sample.world "scss" "sass")
    as [Hok _]; [reflexivity | reflexivity | | | discriminate |].
  - vm_compute. apply not_elem_of_nil.
  - vm_compute. apply not_elem_of_nil.
  - unfold cssTransformer.
    rewrite (Hok (Processed.mk "/* scss */a{}" None (Some ["scss.dep"]) None));
      vm_compute; reflexivity.
Defined.

(** X6: with [scss: false] the sass block comes back as it is. *)
Lemma disabled_language_is_passed_through_witness :
  Run.outcome
    (cssTransformer Sample.host (configure MoreSamples.scssDisabled)
       MoreSamples.sassFile Sample.world) =
    Ok (Processed.mk "a{}" None (Some []) None).
Proof.
  unfold cssTransformer.
  rewrite (disabled_language_is_passed_through
             Sample.host (configure MoreSamples.scssDisabled)
             Style "css" MoreSamples.sassFile Sample.world
             MoreSamples.sassInfo Sample.world "scss" "sass");
    [reflexivity | reflexivity | reflexivity | | | discriminate
     | reflexivity | reflexivity].
  - vm_compute. apply not_elem_of_nil.
  - vm_compute. apply not_elem_of_nil.
Defined.

(** X7: a function under [sass] takes the place of the module. *)
Lemma function_option_replaces_the_module_witness :
  Run.outcome
    (cssTransformer Sample.host (configure MoreSamples.sassCustom)
       MoreSamples.sassFile Sample.world) =
    Ok (Processed.mk "/* custom */a{}" (Some (MapString "custom.map"))
          (Some ["custom.dep"]) (Some [Diag "custom"])).
Proof.
  unfold cssTransformer.
  rewrite (function_option_replaces_the_module
             Sample.host (configure MoreSamples.sassCustom)
             Style "css" MoreSamples.sassFile Sample.world
             MoreSamples.sassInfo Sample.world "scss" "sass" MoreSamples.custom);
    [vm_compute; reflexivity | reflexivity | reflexivity | | | discriminate
     | reflexivity].
  - vm_compute. apply not_elem_of_nil.
  - vm_compute. apply not_elem_of_nil.
Defined.

(** X8: the module that the sass block loads is [scss]. *)
Lemma pipeline_imports_only_the_block_language_witness :
  ∃ info w1 lang alias,
    Host.getTagInfo Sample.host MoreSamples.sassFile Sample.world = (Ok info, w1)
    ∧ withDefaultLanguage (configure Sample.noOptions) Style (World.registry w1)
        (TagInfo.lang info) (TagInfo.alias info) = (lang, alias)
    ∧ "scss" = interpolate lang
    ∧ lang ≠ Some "css"
    ∧ (∀ l, lang = Some l → l ∉ Config.preserve (configure Sample.noOptions))
    ∧ (∀ a, alias = Some a → a ∉ Config.preserve (configure Sample.noOptions)).
Proof.
  apply (pipeline_imports_only_the_block_language
           Sample.host (configure Sample.noOptions) Style "css"
           MoreSamples.sassFile Sample.world "scss").
  vm_compute. do 3 apply list_elem_of_further. apply list_elem_of_here.
Defined.

(** X9: the pug container of the sample document leaves no tag behind. *)
Lemma markup_drops_the_container_tags_witness :
  ∃ attributesStr before after,
    Sample.pugDocument =
      before +:+ "<template" +:+ attributesStr +:+ ">" +:+ "h1 Hi"
      +:+ "</template>" +:+ after
    ∧ ∀ transformed w2 t2,
        markupTransformer Sample.host (configure Sample.noOptions)
          (SvelteFile.mk (Some "h1 Hi") (parseAttributes attributesStr) None)
          Sample.world = Run.mk (Ok transformed) w2 t2 →
        Run.outcome
          (markup Sample.host (configure Sample.noOptions)
             (MarkupInput.mk Sample.pugDocument None) Sample.world) =
          Ok (Processed.mk
                (before +:+ Processed.code transformed +:+ after)
                (Processed.map transformed)
                (Processed.dependencies transformed)
                None).
Proof.
  edestruct (markup_drops_the_container_tags
               Sample.host (configure Sample.noOptions)
               Sample.pugDocument None Sample.world)
    as (attributesStr & before & after & Htext & Hrun);
    [reflexivity | reflexivity | reflexivity | reflexivity |].
  exists attributesStr, before, after. split; [exact Htext | exact Hrun].
Defined.

(** X10: a container in a language without a module: the error is the
    pipeline's. *)
Lemma markup_raises_nothing_of_its_own_witness :
  let e := Thrown "Cannot find module ./transformers/coffee" in
  Run.outcome
    (replacePass Sample.host (configure Sample.noOptions)
       MoreSamples.coffeeDocument None Sample.world) = Throw e
  ∨ ∃ content' w1 t1 file,
      replacePass Sample.host (configure Sample.noOptions)
        MoreSamples.coffeeDocument None Sample.world =
        Run.mk (Ok content') w1 t1
      ∧ Run.outcome
          (markupTransformer Sample.host (configure Sample.noOptions) file w1) =
        Throw e.
Proof.
  intros e.
  apply (markup_raises_nothing_of_its_own Sample.host
           (configure Sample.noOptions) MoreSamples.coffeeDocument None
           Sample.world e); [reflexivity|].
  vm_compute. reflexivity.
Defined.

(** X11: a babel stage given as a function. *)
Lemma script_merges_the_babel_stage_witness :
  Run.outcome
    (script Sample.host (configure MoreSamples.babelCustom)
       MoreSamples.scriptBlock Sample.world) =
    Ok (Processed.mk "/* custom */let a" (Some (MapString "custom.map"))
          (Some ["custom.dep"]) (Some [Diag "custom"])).
Proof.
  edestruct (script_merges_the_babel_stage
               Sample.host (configure MoreSamples.babelCustom)
               "let a" ∅ None Sample.world) as [_ Hbabel]; [reflexivity|].
  unfold MoreSamples.scriptBlock.
  erewrite Hbabel; [|reflexivity|reflexivity]. vm_compute. reflexivity.
Defined.

(** X12: the map that the custom sass function reports is gone. *)
Lemma disabled_global_style_drops_the_map_witness :
  Run.outcome
    (style Sample.host (configure MoreSamples.globalStyleDisabled)
       Sample.sassBlock Sample.world) =
    Ok (Processed.mk "/* custom */a{}" None (Some ["custom.dep"]) None).
Proof.
  unfold Sample.sassBlock.
  erewrite (disabled_global_style_drops_the_map
              Sample.host (configure MoreSamples.globalStyleDisabled)
              "a{}" {[ "lang" := VString "sass" ]} None Sample.world);
    [reflexivity | reflexivity | reflexivity | reflexivity
     | reflexivity | reflexivity].
Defined.

(** X13: a block whose [src] cannot be read. *)
Lemma tag_info_failure_stops_the_entry_point_witness :
  Run.outcome
    (style MoreSamples.failingHost (configure Sample.noOptions)
       MoreSamples.srcBlock Sample.world) = Throw (Thrown "ENOENT")
  ∧ Run.trace
      (style MoreSamples.failingHost (configure Sample.noOptions)
         MoreSamples.srcBlock Sample.world) =
    [EGetTagInfo
       (SvelteFile.mk (Some "a{}") {[ "src" := VString "./gone.css" ]} None)].
Proof.
  edestruct (tag_info_failure_stops_the_entry_point
               MoreSamples.failingHost (configure Sample.noOptions)
               "a{}" {[ "src" := VString "./gone.css" ]} None Sample.world
               (Thrown "ENOENT") Sample.world) as [Hstyle _];
    [vm_compute; reflexivity|].
  unfold MoreSamples.srcBlock. rewrite Hstyle. split; reflexivity.
Defined.

(** X15: the match of the sample document starts at its first
    [<template]. *)
Lemma container_starts_at_the_first_opening_witness :
  ∃ m, RegExp.exec (markupPattern "template") Sample.pugDocument = Some m
       ∧ RegExp.index m = 10
       ∧ occursAt "<template" Sample.pugDocument 10 = true
       ∧ ∀ j, j < 10 → occursAt "<template" Sample.pugDocument j = false.
Proof.
  destruct (RegExp.exec (markupPattern "template") Sample.pugDocument)
    as [m|] eqn:Hexec; [|vm_compute in Hexec; discriminate Hexec].
  exists m. split; [reflexivity|].
  pose proof (container_starts_at_the_first_opening
                "template" Sample.pugDocument m eq_refl Hexec) as Hfirst.
  assert (RegExp.index m = 10) as Hindex
    by (vm_compute in Hexec; injection Hexec as <-; reflexivity).
  rewrite Hindex in Hfirst. split; [exact Hindex | exact Hfirst].
Defined.

(** X16: the attributes of the sample container. *)
Lemma parsed_attributes_are_clean_witness :
  (∀ c, c ∈ chars "lang" → isWhiteSpace c = false ∧ c ≠ "="%char)
  ∧ (VString "pug" = VBool true
     ∨ ∃ text, VString "pug" = VString text
               ∧ ∀ c, c ∈ chars text →
                   (isWhiteSpace c = false ∧ c ≠ "="%char) ∧ isQuote c = false).
Proof.
  apply (parsed_attributes_are_clean " lang='pug' scoped" "lang" (VString "pug")).
  vm_compute. reflexivity.
Defined.

(** X17 and X18: a second [lang] replaces the first. *)
Lemma parseAttributes_further_token_witness :
  parseAttributes (" lang='pug'" +:+ " " +:+ "lang=html") =
    addAttribute (parseAttributes " lang='pug'") (chars "lang=html").
Proof.
  apply (parseAttributes_further_token " lang='pug'" "lang=html").
  - discriminate.
  - intros c Hc. vm_compute in Hc.
    repeat (apply elem_of_cons in Hc as [->|Hc]; [reflexivity|]).
    by apply elem_of_nil in Hc.
Defined.

Lemma attribute_token_meaning_witness :
  addAttribute {[ "lang" := VString "pug" ]} (chars "lang") =
    <[ "lang" := VBool true ]> {[ "lang" := VString "pug" ]}
  ∧ addAttribute {[ "lang" := VString "pug" ]} (chars ("lang" +:+ "=")) =
    <[ "lang" := VBool true ]> {[ "lang" := VString "pug" ]}
  ∧ ∀ value,
      value ≠ EmptyString →
      (∀ c, c ∈ chars value → c ≠ "="%char) →
      addAttribute {[ "lang" := VString "pug" ]} (chars ("lang" +:+ "=" +:+ value)) =
        <[ "lang" := VString (str (filter (fun c => negb (isQuote c)) (chars value))) ]>
          {[ "lang" := VString "pug" ]}.
Proof.
  apply (attribute_token_meaning {[ "lang" := VString "pug" ]} "lang").
  - discriminate.
  - intros c Hc. vm_compute in Hc.
    repeat (apply elem_of_cons in Hc as [->|Hc]; [discriminate|]).
    by apply elem_of_nil in Hc.
Defined.

(** X19: [<template   >] has no attributes. *)
Lemma blank_attribute_string_gives_no_attributes_witness :
  parseAttributes "   " = ∅.
Proof.
  apply (blank_attribute_string_gives_no_attributes "   ").
  intros c Hc. vm_compute in Hc.
  repeat (apply elem_of_cons in Hc as [->|Hc]; [reflexivity|]).
  by apply elem_of_nil in Hc.
Defined.

(** X20: the sample host has no babel transformer. *)
Lemma babel_processor_loads_the_module_first_witness :
  BabelProcessor.script Sample.host OUndefined Sample.plainStyle Sample.world =
    Run.mk (Throw (Thrown "Cannot find module ./transformers/babel"))
      Sample.world [EImport "babel"].
Proof.
  apply (babel_processor_loads_the_module_first Sample.host OUndefined
           Sample.plainStyle Sample.world).
  reflexivity.
Defined.

(** X21: a sass block, of all blocks, run through babel. *)
Lemma babel_processor_transforms_every_block_witness :
  Run.outcome
    (BabelProcessor.script MoreSamples.babelHost OUndefined
       MoreSamples.sassFile Sample.world) =
    Ok (Processed.mk "/* babel */a{}" None (Some ["babel.dep"]) None).
Proof.
  erewrite (babel_processor_transforms_every_block MoreSamples.babelHost
              OUndefined MoreSamples.sassFile Sample.world);
    [|reflexivity|reflexivity].
  vm_compute. reflexivity.
Defined.

(** X22: nothing to compile. *)
Lemma sass_empty_data_is_not_rendered_witness :
  Sass.transformer MoreSamples.utils
    (Sass.Args.mk EmptyString (Some "App.svelte")
       (Some (Sass.Options.mk None (Some (MoreSamples.implementation "/* own */"))
                None None ∅)))
    MoreSamples.fresh =
    Sass.Run.mk (Ok (Sass.Resolved.mk None None None)) MoreSamples.fresh [].
Proof.
  edestruct (sass_empty_data_is_not_rendered MoreSamples.utils
               (Sass.Args.mk EmptyString (Some "App.svelte")
                  (Some (Sass.Options.mk None
                           (Some (MoreSamples.implementation "/* own */"))
                           None None ∅)))
               MoreSamples.fresh) as (_ & Hhand & _);
    [reflexivity | left; reflexivity |].
  apply Hhand. left. simpl. eauto.
Defined.

(** X23: an implementation passed with the options is not cached. *)
Lemma sass_cache_is_kept_witness :
  Sass.State.sass
    (Sass.Run.state
       (Sass.transformer MoreSamples.utils
          (Sass.Args.mk "a{}" None
             (Some (Sass.Options.mk None
                      (Some (MoreSamples.implementation "/* own */"))
                      None None ∅)))
          MoreSamples.fresh)) = None.
Proof.
  edestruct (sass_cache_is_kept MoreSamples.utils
               (Sass.Args.mk "a{}" None
                  (Some (Sass.Options.mk None
                           (Some (MoreSamples.implementation "/* own */"))
                           None None ∅)))
               MoreSamples.fresh) as [Hkept _].
  - left. simpl. eauto.
  - rewrite Hkept. reflexivity.
Defined.

(** X24: two calls, one import. *)
Lemma sass_implementation_is_imported_once_witness :
  let first := Sass.transformer MoreSamples.utils MoreSamples.ruleArgs MoreSamples.fresh in
  let second :=
    Sass.transformer MoreSamples.utils MoreSamples.emptyArgs (Sass.Run.state first) in
  Sass.Run.calls first ≠ []
  ∧ ∀ names, Sass.CImportAny names ∉ Sass.Run.calls second.
Proof.
  intros first second. split; [vm_compute; discriminate|].
  edestruct (sass_implementation_is_imported_once MoreSamples.utils
               MoreSamples.ruleArgs MoreSamples.fresh) as [Hfirst _];
    [reflexivity | reflexivity |].
  edestruct Hfirst as [_ Hlater]; [reflexivity|].
  apply (Hlater MoreSamples.emptyArgs).
Defined.

(** X25: what the sample implementation receives from a user who gave an
    [outFile], a [sourceMap] and data. *)
Lemma sass_render_options_witness :
  ∃ given,
    last (Sass.Run.calls
            (Sass.transformer MoreSamples.utils MoreSamples.userArgs
               MoreSamples.fresh)) = Some (Sass.CRender given)
    ∧ Sass.RenderOptions.props given !! "outFile" =
        Some (VString "App.svelte.css")
    ∧ Sass.RenderOptions.props given !! "sourceMap" = Some (VBool false)
    ∧ Sass.RenderOptions.props given !! "precision" = Some (VNumber 8)
    ∧ Sass.RenderOptions.includePaths given = ["src"]
    ∧ Sass.RenderOptions.data given = "$c: red;a{}".
Proof.
  destruct (sass_render_options MoreSamples.utils MoreSamples.userArgs
              MoreSamples.fresh) as [Hgiven Hcall].
  destruct Hcall as [given Hlast];
    [discriminate | right; right; eexists _, _; reflexivity |].
  exists given. split; [exact Hlast|].
  destruct (Hgiven given) as (Hout & Hsm & Hother & Hpaths & Hdata & _).
  { left. apply last_Some_elem_of. exact Hlast. }
  split; [exact Hout|]. split; [exact Hsm|].
  split; [rewrite Hother; [reflexivity | discriminate | discriminate]|].
  split; [exact Hpaths|].
  rewrite (Hdata "$c: red;"); [reflexivity | reflexivity | discriminate].
Defined.

(** C9 on a run: set up with [{ defaults: { style: undefined } }], the
    preprocessor takes a style block without a [lang] attribute for a
    block in no language, and looks for the transformer module
    [undefined]. *)
Lemma undefined_default_leaves_lang_undefined_witness :
  let cfg := configure MoreSamples.undefinedStyleDefault in
  let file := SvelteFile.mk (Some "a{}") ∅ None in
  Config.defaultLanguages cfg = DefaultLanguages.mk (Some "html") None (Some "javascript")
  ∧ withDefaultLanguage cfg Style (World.registry Sample.world) None None =
      (None, None)
  ∧ cssTransformer Sample.host cfg file Sample.world =
      Run.mk (Throw (Thrown "Cannot find module ./transformers/undefined"))
        Sample.world
        [EGetTagInfo file;
         EGetTransformerOptions None None;
         EPrepareContent (OObject ∅) "a{}";
         EImport "undefined"]
  ∧ Run.outcome
      (style Sample.host cfg MoreSamples.bareStyle Sample.world) =
      Throw (Thrown "Cannot find module ./transformers/undefined").
Proof.
  intros cfg file.
  edestruct (undefined_default_leaves_lang_undefined Sample.host
               MoreSamples.undefinedStyleDefault
               (Defaults.mk None (Some None) None)
               Style "css" file Sample.world
               (TagInfo.mk "a{}" None None None (Some []) ∅) Sample.world)
    as (_ & Hlang & Hrun);
    [reflexivity | reflexivity | reflexivity | left; reflexivity |].
  split; [reflexivity|]. split; [exact Hlang|]. split.
  - unfold cssTransformer. subst cfg. rewrite Hrun. reflexivity.
  - unfold style, MoreSamples.bareStyle, bind. unfold cssTransformer.
    subst cfg. fold file. rewrite Hrun. reflexivity.
Defined.

(** X1: [typescript: true] and nothing under the alias [ts] resolve to
    the empty object. *)
Lemma getTransformerOptions_shape_witness :
  ∃ opts,
    getTransformerOptions Sample.host (configure MoreSamples.typescriptOn)
      (Some "typescript") (Some "ts") = OObject opts
    ∧ ∀ key, opts !! key = None.
Proof.
  edestruct (getTransformerOptions_shape Sample.host
               (configure MoreSamples.typescriptOn)
               (Some "typescript") (Some "ts")) as [_ Hobject];
    [reflexivity | reflexivity |].
  destruct Hobject as (opts & Hopts & Hkeys);
    [reflexivity | reflexivity | reflexivity | reflexivity |].
  exists opts. split; [exact Hopts|]. intros key.
  destruct (opts !! key) as [v|] eqn:Hkey; [exfalso | reflexivity].
  destruct (Hkeys key v Hkey) as [Hname|[Halias|[(o & Hover & _)|Hmap]]].
  - change (ownProperties (OBool true : TransformerOptions unit) !! key = Some v)
      in Hname.
    unfold ownProperties in Hname. by rewrite lookup_empty in Hname.
  - change (ownProperties (OUndefined : TransformerOptions unit) !! key = Some v)
      in Halias.
    unfold ownProperties in Halias. by rewrite lookup_empty in Halias.
  - vm_compute in Hover. discriminate Hover.
  - vm_compute in Hmap. discriminate Hmap.
Defined.
